(** * BaseTransactionAnalyzer: log decoding, classification and metrics

    A shallow embedding of the decoding / classification / metrics code of
    the repository, and the properties its specification states about it.

    Conventions of the embedding:
    - a JavaScript [string] is a [string] (addresses, topics and data are
      ASCII), [string | null] is [option string];
    - [BigNumber] and [bigint] are [Z];
    - a JavaScript [number] is an IEEE 754 binary64 value, [spec_float]
      with precision 53 and maximal exponent 1024;
    - a JavaScript exception is the left injection of [sum string]
      (ExtLib's error monad), a rejected promise likewise; [try]/[catch]
      is the case analysis of such a result. *)

From Stdlib Require Import ZArith List String Ascii Bool Lia.
From Stdlib Require Import DecimalString.
From Stdlib Require DecimalFacts DecimalPos.
From Stdlib Require Import QArith Floats.SpecFloat.
From ExtLib Require Import Structures.Monad Structures.MonadExc.
From ExtLib Require Import Data.Monads.EitherMonad.
Import ListNotations.
Import MonadNotation.

Local Open Scope string_scope.
Local Open Scope Z_scope.
Local Open Scope monad_scope.

(** A computation that may throw. *)
Abbreviation throws := (sum string).

(** ** JavaScript primitives used by the analyzers *)
Module JS.

Definition isUpper (c : ascii) : bool :=
  let n := nat_of_ascii c in (65 <=? n)%nat && (n <=? 90)%nat.

Definition lowerChar (c : ascii) : ascii :=
  if isUpper c then ascii_of_nat (nat_of_ascii c + 32) else c.

Definition isLower (c : ascii) : bool :=
  let n := nat_of_ascii c in (97 <=? n)%nat && (n <=? 122)%nat.

Definition upperChar (c : ascii) : ascii :=
  if isLower c then ascii_of_nat (nat_of_ascii c - 32) else c.

(** [String.prototype.toLowerCase] on ASCII text. *)
Fixpoint toLowerCase (s : string) : string :=
  match s with
  | EmptyString => EmptyString
  | String c r => String (lowerChar c) (toLowerCase r)
  end.

(** [s.slice(n)]: the suffix of [s] from index [n] (empty when [s] is
    shorter). *)
Fixpoint slice (n : nat) (s : string) : string :=
  match n, s with
  | O, _ => s
  | S _, EmptyString => EmptyString
  | S k, String _ r => slice k r
  end.

(** [s.startsWith(p)]. *)
Fixpoint startsWith (s p : string) {struct p} : bool :=
  match p with
  | EmptyString => true
  | String c p' =>
      match s with
      | EmptyString => false
      | String d s' => Ascii.eqb c d && startsWith s' p'
      end
  end.

(** [s.includes(sub)]. *)
Fixpoint includes (s sub : string) : bool :=
  startsWith s sub ||
  match s with
  | EmptyString => false
  | String _ r => includes r sub
  end.

(** Truthiness of a [string | null]: [null] and [''] are falsy. *)
Definition truthy (o : option string) : bool :=
  match o with
  | None => false
  | Some s => negb (s =? "")%string
  end.

(** [String(n)] / [n.toString()] of a [bigint]. *)
Definition bigintToString (n : Z) : string :=
  NilEmpty.string_of_int (Z.to_int n).

(** [c.repeat(n)]. *)
Fixpoint repeatChar (c : ascii) (n : nat) : string :=
  match n with
  | O => EmptyString
  | S k => String c (repeatChar c k)
  end.

(** [p] holds of every character of [s]. *)
Fixpoint allChars (p : ascii -> bool) (s : string) : bool :=
  match s with
  | EmptyString => true
  | String c r => p c && allChars p r
  end.

(** [p] holds of some character of [s]. *)
Fixpoint someChar (p : ascii -> bool) (s : string) : bool :=
  match s with
  | EmptyString => false
  | String c r => p c || someChar p r
  end.

(** [a[i]] where the element is then dereferenced: reading a property of
    [undefined] is a [TypeError]. *)
Definition deref (a : list string) (i : nat) : throws string :=
  match nth_error a i with
  | Some s => ret s
  | None => raise "TypeError: cannot read properties of undefined"
  end.

(** [x === s] for [x : string | undefined]. *)
Definition strictEq (x : option string) (s : string) : bool :=
  match x with
  | Some t => (t =? s)%string
  | None => false
  end.

(** [Map.prototype.get] of a [Map] with string keys, the entries in
    insertion order (keys distinct). *)
Fixpoint Map_get {V : Type} (m : list (string * V)) (k : string) : option V :=
  match m with
  | [] => None
  | (k', v) :: r => if (k' =? k)%string then Some v else Map_get r k
  end.

(** [Array.prototype.map] with a callback that may throw: the first
    exception ends the traversal. *)
Fixpoint mapThrows {A B : Type} (f : A -> throws B) (l : list A)
    : throws (list B) :=
  match l with
  | [] => ret []
  | a :: r => b <- f a ;; bs <- mapThrows f r ;; ret (b :: bs)
  end.

(** *** Numbers

    A [number] is an IEEE 754 binary64 value; the arithmetic operators
    and [Math.sqrt] round to nearest, ties to even. *)

Definition number : Type := spec_float.

Definition prec : Z := 53.
Definition emax : Z := 1024.

(** The [number] written as the integer literal [z]. *)
Definition literal (z : Z) : number := binary_normalize prec emax z 0 false.

Definition add : number -> number -> number := SFadd prec emax.
Definition sub : number -> number -> number := SFsub prec emax.
Definition mul : number -> number -> number := SFmul prec emax.
Definition div : number -> number -> number := SFdiv prec emax.
Definition Math_sqrt : number -> number := SFsqrt prec emax.
Definition Math_abs : number -> number := SFabs.

(** [x < y] and [x <= y]; false when an operand is [NaN]. *)
Definition lt : number -> number -> bool := SFltb.
Definition le : number -> number -> bool := SFleb.

(** [x === y] on numbers: [NaN] equals nothing, the two zeros are equal. *)
Definition strictEqNumber : number -> number -> bool := SFeqb.

(** [a / b] on [bigint]: the quotient truncated toward zero; a zero
    divisor is a [RangeError]. *)
Definition bigintDiv (a b : Z) : throws Z :=
  if (b =? 0)%Z then raise "RangeError: Division by zero"
  else ret (Z.quot a b).

(** [Set.prototype.add] on a [Set] of strings, the elements in insertion
    order; its [size] is the length. *)
Definition Set_add (s : list string) (x : string) : list string :=
  if existsb (String.eqb x) s then s else s ++ [x].

(** [Map.prototype.set]: an existing key keeps its place. *)
Fixpoint Map_set {V : Type} (m : list (string * V)) (k : string) (v : V)
    : list (string * V) :=
  match m with
  | [] => [(k, v)]
  | (k', v') :: r =>
      if (k' =? k)%string then (k, v) :: r else (k', v') :: Map_set r k v
  end.

End JS.

(** ** The functions of the ethers library that the analyzers call

    ethers is an external dependency; these definitions follow its
    documented behaviour (v5 [utils.getAddress] and [BigNumber.from], v6
    [getAddress], [toBigInt] and [formatEther]). *)
Module Ethers.

(** A raw log of a receipt. *)
Record Log : Type := mkLog {
  address : string;
  topics : list string;
  data : string
}.

Definition isDigit (c : ascii) : bool :=
  let n := nat_of_ascii c in (48 <=? n)%nat && (n <=? 57)%nat.

(** Value of a hexadecimal digit, in either case. *)
Definition hexDigit (c : ascii) : option Z :=
  let n := Z.of_nat (nat_of_ascii c) in
  if (48 <=? n) && (n <=? 57) then Some (n - 48)
  else if (97 <=? n) && (n <=? 102) then Some (n - 87)
  else if (65 <=? n) && (n <=? 70) then Some (n - 55)
  else None.

Definition isHexChar (c : ascii) : bool :=
  match hexDigit c with Some _ => true | None => false end.

(** [a-f] and [A-F]. *)
Definition isLowerHexLetter (c : ascii) : bool :=
  let n := nat_of_ascii c in (97 <=? n)%nat && (n <=? 102)%nat.

Definition isUpperHexLetter (c : ascii) : bool :=
  let n := nat_of_ascii c in (65 <=? n)%nat && (n <=? 70)%nat.

(** Value of a string of digits in base [b], most significant first,
    continuing from [acc]; a character that is no hexadecimal digit counts
    as 0. *)
Fixpoint digitsValue (b acc : Z) (s : string) : Z :=
  match s with
  | EmptyString => acc
  | String c r =>
      digitsValue b (b * acc + match hexDigit c with Some d => d | None => 0 end) r
  end.

(** [/^-?[0-9]+$/]. *)
Definition isDecimalString (s : string) : bool :=
  let body := if JS.startsWith s "-" then JS.slice 1 s else s in
  negb (body =? "")%string && JS.allChars isDigit body.

(** The integer a decimal string denotes. *)
Definition decimalValue (s : string) : Z :=
  if JS.startsWith s "-" then - digitsValue 10 0 (JS.slice 1 s)
  else digitsValue 10 0 s.

(** [isHexString(value)]: [/^0x[0-9A-Fa-f]*$/]. *)
Definition isHexString (s : string) : bool :=
  JS.startsWith s "0x" && JS.allChars isHexChar (JS.slice 2 s).

(** [isHexString(value, length)]: also [value.length === 2 + 2 * length]. *)
Definition isHexStringOfLength (s : string) (len : nat) : bool :=
  isHexString s && (String.length s =? 2 + 2 * len)%nat.

(** [/^-?0x[0-9a-f]+$/i] with the prefix in lower case (an upper-case
    [0X], from which ethers builds a malformed value, is no hex number
    here). *)
Definition isHexNumber (s : string) : bool :=
  let body := if JS.startsWith s "-" then JS.slice 1 s else s in
  JS.startsWith body "0x"
  && negb (JS.slice 2 body =? "")%string
  && JS.allChars isHexChar (JS.slice 2 body).

(** The integer a hex number denotes. *)
Definition hexNumberValue (s : string) : Z :=
  if JS.startsWith s "-" then - digitsValue 16 0 (JS.slice 3 s)
  else digitsValue 16 0 (JS.slice 2 s).

(** v5 [BigNumber.from] of a string: a hex number or a decimal string,
    otherwise the argument error. *)
Definition BigNumber_from (value : string) : throws Z :=
  if isHexNumber value then ret (hexNumberValue value)
  else if isDecimalString value then ret (decimalValue value)
  else raise "invalid BigNumber string".

(** v6 [toBigInt] of a [string | undefined]: [undefined] is the argument
    error, a string goes through [BigInt]. Of the texts [BigInt] accepts,
    decimal digits with an optional minus sign and [0x] with hex digits
    are modelled; the others (a plus sign, [0X], octal, binary,
    surrounding blanks) are mapped to the error. *)
Definition toBigInt (value : option string) : throws Z :=
  match value with
  | None => raise "invalid BigNumberish value"
  | Some s =>
      if isDecimalString s then ret (decimalValue s)
      else if isHexString s && negb (s =? "0x")%string
      then ret (digitsValue 16 0 (JS.slice 2 s))
      else raise "invalid BigNumberish string"
  end.

(** [s.padStart(n, '0')]. *)
Definition padZeros (n : nat) (s : string) : string :=
  JS.repeatChar "0" (n - String.length s) ++ s.

(** The part of a digit string up to its last non-zero digit. *)
Fixpoint uptoLastNonZero (s : string) : string :=
  match s with
  | EmptyString => EmptyString
  | String c r =>
      let r' := uptoLastNonZero r in
      if (r' =? "")%string && Ascii.eqb c "0" then EmptyString
      else String c r'
  end.

(** The fraction without its trailing zeros, one digit at least (the
    first group of the match of "digits up to a non-zero one, or a single
    zero"). *)
Definition stripTrailingZeros (fraction : string) : string :=
  let kept := uptoLastNonZero fraction in
  if (kept =? "")%string then "0" else kept.

(** The text of a [FixedNumber] of [decimals > 0] decimals and of value
    [value]: the decimal text of [value / 10^decimals], the whole part, a
    point, and the fraction of [decimals] digits without its trailing
    zeros. *)
Definition FixedNumber_toString (value : Z) (decimals : nat) : string :=
  let multiplier := 10 ^ Z.of_nat decimals in
  let negative := value <? 0 in
  let value := if negative then value * -1 else value in
  let fraction :=
    stripTrailingZeros
      (padZeros decimals (JS.bigintToString (value mod multiplier))) in
  let whole := JS.bigintToString (value / multiplier) in
  let text := whole ++ "." ++ fraction in
  if negative then "-" ++ text else text.

(** [formatUnits(value, decimals)] of v6:
    [FixedNumber.fromValue(value, decimals, { decimals, width: 512 })
    .toString()]. The value has to fit the signed format of 512 bits,
    from [-2^511] to [2^511 - 1]; outside of it [fromValue] throws the
    error "overflow". *)
Definition formatUnits (value : Z) (decimals : nat) : throws string :=
  let limit := 2 ^ 511 in
  if (- limit <=? value) && (value <? limit)
  then ret (FixedNumber_toString value decimals)
  else raise "overflow".

Definition formatEther (wei : Z) : throws string := formatUnits wei 18.

Section Address.

(** keccak256 of an ASCII text, as the list of its 32 bytes. The hash only
    decides the case of the letters of a checksummed address. *)
Variable keccak256 : string -> list Z.

(** The loop of [getChecksumAddress]: character [i] is upper-cased when
    nibble [i] of the hash is at least 8. *)
Fixpoint checksumChars (hashed : list Z) (chars : string) : string :=
  match chars with
  | String c0 (String c1 r) =>
      let h := hd 0 hashed in
      String (if 8 <=? Z.shiftr h 4 then JS.upperChar c0 else c0)
        (String (if 8 <=? Z.land h 15 then JS.upperChar c1 else c1)
           (checksumChars (tl hashed) r))
  | _ => chars
  end.

Definition getChecksumAddress (address : string) : throws string :=
  if isHexStringOfLength address 20 then
    let chars := JS.slice 2 (JS.toLowerCase address) in
    ret ("0x" ++ checksumChars (keccak256 chars) chars)
  else raise "invalid address".

(** [/^(0x)?[0-9a-fA-F]{40}$/]. *)
Definition isAddressString (s : string) : bool :=
  let body := if JS.startsWith s "0x" then JS.slice 2 s else s in
  JS.allChars isHexChar body && (String.length body =? 40)%nat.

(** [/([A-F].*[a-f])|([a-f].*[A-F])/]. *)
Definition isMixedCase (s : string) : bool :=
  JS.someChar isUpperHexLetter s && JS.someChar isLowerHexLetter s.

(** [getAddress]: the checksummed form of a 20-byte hex address; a
    mixed-case input must already carry the right checksum. Every caller
    passes ['0x' + ...], which is never an ICAP address, so the ICAP branch
    is the error here. *)
Definition getAddress (address : string) : throws string :=
  if isAddressString address then
    let address := if JS.startsWith address "0x" then address
                   else "0x" ++ address in
    result <- getChecksumAddress address ;;
    if isMixedCase address && negb (result =? address)%string
    then raise "bad address checksum"
    else ret result
  else raise "invalid address".

End Address.

End Ethers.

(** ** src/analytics/BaseMetricsCollector.ts *)
Module BaseMetricsCollector.

Inductive TransactionCategory : Type :=
| TRANSFER
| DEFI_SWAP
| DEFI_LIQUIDITY
| NFT_TRADE
| CONTRACT_DEPLOYMENT
| CONTRACT_INTERACTION
| BRIDGE
| UNKNOWN.

Record TokenTransfer : Type := mkTokenTransfer {
  token : string;
  from : string;
  to : string;
  amount : Z;
  symbol : string;
  decimals : Z
}.

(** The fields of [TransactionResponse] and [TransactionReceipt] that
    the collector reads ([tx.to] and [tx.value] as [tx_to] and
    [tx_value]). *)
Record TransactionResponse : Type := mkTx {
  tx_to : option string;
  tx_value : Z
}.

Record TransactionReceipt : Type := mkReceipt {
  logs : list Ethers.Log
}.

(** The [return] statements of [categorizeTransaction], in source
    order. *)
Inductive ReturnSite : Type :=
| AtEthTransfer
| AtContractDeployment
| AtTokenSwap
| AtSingleTokenTransfer
| AtContractInteraction
| AtFallThrough.

Definition categoryAt (r : ReturnSite) : TransactionCategory :=
  match r with
  | AtEthTransfer => TRANSFER
  | AtContractDeployment => CONTRACT_DEPLOYMENT
  | AtTokenSwap => DEFI_SWAP
  | AtSingleTokenTransfer => TRANSFER
  | AtContractInteraction => CONTRACT_INTERACTION
  | AtFallThrough => UNKNOWN
  end.

(** Which [return] of [categorizeTransaction] is taken. *)
Definition categorizeReturnSite (tx : TransactionResponse)
    (receipt : TransactionReceipt) (tokenTransfers : list TokenTransfer)
    : ReturnSite :=
  if negb (JS.truthy (tx_to tx))
     || ((0 <? tx_value tx) && (List.length (logs receipt) =? 0)%nat)
  then AtEthTransfer
  else if negb (JS.truthy (tx_to tx)) then AtContractDeployment
  else if (1 <? List.length tokenTransfers)%nat then AtTokenSwap
  else if (List.length tokenTransfers =? 1)%nat then AtSingleTokenTransfer
  else if (0 <? List.length (logs receipt))%nat then AtContractInteraction
  else AtFallThrough.

Definition categorizeTransaction (tx : TransactionResponse)
    (receipt : TransactionReceipt) (tokenTransfers : list TokenTransfer)
    : TransactionCategory :=
  if negb (JS.truthy (tx_to tx))
     || ((0 <? tx_value tx) && (List.length (logs receipt) =? 0)%nat)
  then TRANSFER
  else if negb (JS.truthy (tx_to tx)) then CONTRACT_DEPLOYMENT
  else if (1 <? List.length tokenTransfers)%nat then DEFI_SWAP
  else if (List.length tokenTransfers =? 1)%nat then TRANSFER
  else if (0 <? List.length (logs receipt))%nat then CONTRACT_INTERACTION
  else UNKNOWN.

(** [knownContracts], as [initializeKnownContracts] fills it. *)
Definition knownContracts : list (string * string) :=
  [ ("0x4200000000000000000000000000000000000006", "WETH");
    ("0x833589fCD6eDb6E08f4c7C32D4f71b54bdA02913", "USDC");
    ("0x50c5725949A6F0c72E6C4a641F24049A917DB0Cb", "DAI") ].

Definition transferEventSignature : string :=
  "0xddf252ad1be2c89b69c2b068fc378daa952ba7f163c4a11628f55a4df523b3ef".

Section Decoding.

Variable keccak256 : string -> list Z.

(** The body of the [try] block of [extractTokenTransfers]: it is entered
    with three topics. *)
Definition decodeTransfer (log : Ethers.Log) : throws TokenTransfer :=
  t1 <- JS.deref (Ethers.topics log) 1 ;;
  from <- Ethers.getAddress keccak256 ("0x" ++ JS.slice 26 t1) ;;
  t2 <- JS.deref (Ethers.topics log) 2 ;;
  to <- Ethers.getAddress keccak256 ("0x" ++ JS.slice 26 t2) ;;
  amount <- Ethers.BigNumber_from (Ethers.data log) ;;
  ret {| token := Ethers.address log;
         from := from;
         to := to;
         amount := amount;
         symbol := match JS.Map_get knownContracts (Ethers.address log) with
                   | Some sym => if (sym =? "")%string then "UNKNOWN" else sym
                   | None => "UNKNOWN"
                   end;
         decimals := 18 |}.

(** One iteration of the loop over [receipt.logs]; a decoding exception
    is caught (and logged), the log is skipped. *)
Definition extractStep (transfers : list TokenTransfer) (log : Ethers.Log)
    : list TokenTransfer :=
  if JS.strictEq (nth_error (Ethers.topics log) 0) transferEventSignature
     && (List.length (Ethers.topics log) =? 3)%nat
  then match decodeTransfer log with
       | inr t => transfers ++ [t]
       | inl _ => transfers
       end
  else transfers.

Definition extractTokenTransfers (receipt : TransactionReceipt)
    : list TokenTransfer :=
  fold_left extractStep (logs receipt) [].

End Decoding.

(** The fields of a transaction of [getBlockWithTransactions] that
    [collectNetworkMetrics] reads. *)
Record BlockTransaction : Type := mkBlockTransaction {
  btx_from : string;
  btx_to : option string;
  btx_value : Z;
  btx_gasPrice : option Z
}.

Record BlockWithTransactions : Type := mkBlock {
  block_timestamp : Z;
  block_gasLimit : Z;
  block_baseFeePerGas : option Z;
  block_transactions : list BlockTransaction
}.

Record NetworkMetrics : Type := mkNetworkMetrics {
  nm_blockNumber : Z;
  nm_timestamp : Z;
  nm_gasUsed : Z;
  nm_gasLimit : Z;
  nm_baseFeePerGas : Z;
  nm_transactionCount : nat;
  nm_avgGasPrice : Z;
  nm_totalValue : Z;
  nm_uniqueAddresses : nat
}.

(** The variables the loop of [collectNetworkMetrics] updates:
    [uniqueAddresses], [totalValue] and [totalGasPrice] ([totalGasUsed] is
    never assigned after its initialisation). *)
Record NetworkTotals : Type := mkNetworkTotals {
  uniqueAddresses : list string;
  totalValue : Z;
  totalGasPrice : Z
}.

(** One iteration of [for (const tx of block.transactions)]. *)
Definition networkStep (acc : NetworkTotals) (tx : BlockTransaction)
    : NetworkTotals :=
  let addresses := JS.Set_add (uniqueAddresses acc) (btx_from tx) in
  let addresses :=
    match btx_to tx with
    | Some a => if JS.truthy (Some a) then JS.Set_add addresses a else addresses
    | None => addresses
    end in
  {| uniqueAddresses := addresses;
     totalValue := totalValue acc + btx_value tx;
     totalGasPrice :=
       totalGasPrice acc
       + match btx_gasPrice tx with Some g => g | None => 0 end |}.

(** The metrics cache: the entries of [metricsCache]. *)
Definition MetricsCache : Type := list (string * NetworkMetrics).

(** [collectNetworkMetrics]: the provider's [getBlockWithTransactions] is
    a function that may fail, the cache is passed in and returned. A block
    number is an integer; its text in the cache key is its decimal
    text. *)
Definition collectNetworkMetrics
    (getBlockWithTransactions : Z -> throws BlockWithTransactions)
    (blockNumber : Z) (metricsCache : MetricsCache)
    : throws NetworkMetrics * MetricsCache :=
  let cacheKey := "network_" ++ JS.bigintToString blockNumber in
  match JS.Map_get metricsCache cacheKey with
  | Some cached => (ret cached, metricsCache)
  | None =>
      match getBlockWithTransactions blockNumber with
      | inl e => (inl e, metricsCache)
      | inr block =>
          let totalGasUsed := 0 in
          let totals :=
            fold_left networkStep (block_transactions block)
              (mkNetworkTotals [] 0 0) in
          let count := List.length (block_transactions block) in
          let metrics :=
            {| nm_blockNumber := blockNumber;
               nm_timestamp := block_timestamp block;
               nm_gasUsed := totalGasUsed;
               nm_gasLimit := block_gasLimit block;
               nm_baseFeePerGas :=
                 match block_baseFeePerGas block with
                 | Some fee => fee
                 | None => 0
                 end;
               nm_transactionCount := count;
               nm_avgGasPrice :=
                 if (0 <? count)%nat
                 then Z.quot (totalGasPrice totals) (Z.of_nat count)
                 else 0;
               nm_totalValue := totalValue totals;
               nm_uniqueAddresses := List.length (uniqueAddresses totals) |} in
          (ret metrics, JS.Map_set metricsCache cacheKey metrics)
      end
  end.

Definition clearCache (metricsCache : MetricsCache) : MetricsCache := [].

End BaseMetricsCollector.

(** ** src/BaseNFTAnalyzer.ts *)
Module BaseNFTAnalyzer.

Record NFTLog : Type := mkNFTLog {
  address : string;
  tokenId : string;
  from : string;
  to : string
}.

Definition transferTopic : string :=
  "0xddf252ad1be2c89b69c2b068fc378daa952ba7f163c4a11628f55a4df523b3ef".

Section Decoding.

Variable keccak256 : string -> list Z.

(** The callback of [map] in [parseNFTLogs]; the properties of the object
    literal are evaluated in order. *)
Definition decodeNFTLog (log : Ethers.Log) : throws NFTLog :=
  id <- Ethers.toBigInt (nth_error (Ethers.topics log) 3) ;;
  t1 <- JS.deref (Ethers.topics log) 1 ;;
  from <- Ethers.getAddress keccak256 ("0x" ++ JS.slice 26 t1) ;;
  t2 <- JS.deref (Ethers.topics log) 2 ;;
  to <- Ethers.getAddress keccak256 ("0x" ++ JS.slice 26 t2) ;;
  ret {| address := Ethers.address log;
         tokenId := JS.bigintToString id;
         from := from;
         to := to |}.

Definition parseNFTLogs (logs : list Ethers.Log) : throws (list NFTLog) :=
  JS.mapThrows decodeNFTLog
    (filter (fun log => JS.strictEq (nth_error (Ethers.topics log) 0) transferTopic)
       logs).

End Decoding.

Record MarketplaceData : Type := mkMarketplace {
  mp_name : string;
  mp_address : string;
  volume24h : Z;
  volume7d : Z;
  transactions24h : Z;
  activeListings : Z;
  averageGasUsed : Z;
  supportedStandards : list string
}.

(** The [marketplaces] map as [initializeMarketplaces] fills it, in
    insertion order. *)
Definition marketplaces : list (string * MarketplaceData) :=
  [ ("opensea",
     mkMarketplace "OpenSea" "0x00000000000000ADc04C56Bf30aC9d3c0aAF14dC"
       0 0 0 0 180000 ["ERC721"; "ERC1155"]);
    ("element",
     mkMarketplace "Element" "0x20F780A973856B93f63670377900C1d2a50a246c"
       0 0 0 0 160000 ["ERC721"; "ERC1155"]);
    ("quix",
     mkMarketplace "Quix" "0x965D2c0C0A8E3F8E8C8B8B8B8B8B8B8B8B8B8B8B"
       0 0 0 0 140000 ["ERC721"; "ERC1155"]) ].

(** The loop over [this.marketplaces.values()]. *)
Definition detectMarketplace (contractAddress : option string)
    : option MarketplaceData :=
  if negb (JS.truthy contractAddress) then None
  else
    match contractAddress with
    | Some a =>
        find (fun marketplace =>
                (JS.toLowerCase (mp_address marketplace) =? JS.toLowerCase a)%string)
          (map snd marketplaces)
    | None => None
    end.

Inductive TransactionType : Type :=
| mint
| transfer
| sale
| listing
| delisting
| offer.

Definition determineTransactionType (logs : list Ethers.Log)
    (marketplace : option MarketplaceData) : TransactionType :=
  match marketplace with
  | Some _ => sale
  | None => transfer
  end.

Definition extractPrice (logs : list Ethers.Log) : option JS.number := None.

Definition extractCurrency (logs : list Ethers.Log) : option string :=
  Some "ETH".

(** The fields of the transaction and of the receipt that
    [analyzeNFTTransaction] reads. *)
Record Transaction : Type := mkTransaction {
  tx_to : option string;
  tx_gasPrice : option Z
}.

Record Receipt : Type := mkReceipt {
  receipt_logs : list Ethers.Log;
  receipt_gasUsed : Z
}.

Record NFTTransaction : Type := mkNFTTransaction {
  nft_txHash : string;
  nft_type : TransactionType;
  nft_collection : string;
  nft_tokenId : string;
  nft_from : string;
  nft_to : string;
  nft_price : option JS.number;
  nft_currency : option string;
  nft_marketplace : option string;
  nft_timestamp : Z;
  nft_gasUsed : JS.number;
  nft_gasPrice : JS.number
}.

Section Analysis.

Variable keccak256 : string -> list Z.

(** [analyzeNFTTransaction]: the answers of the provider to
    [getTransaction] and [getTransactionReceipt] (a failure, [null], or
    the object) and the time of [new Date()] are arguments; every
    exception inside the [try] gives [null]. *)
Definition analyzeNFTTransaction (txHash : string)
    (getTransaction : throws (option Transaction))
    (getTransactionReceipt : throws (option Receipt)) (now : Z)
    : option NFTTransaction :=
  let body : throws (option NFTTransaction) :=
    tx <- getTransaction ;;
    receipt <- getTransactionReceipt ;;
    match tx, receipt with
    | Some tx, Some receipt =>
        nftLogs <- parseNFTLogs keccak256 (receipt_logs receipt) ;;
        match nftLogs with
        | [] => ret None
        | primaryLog :: _ =>
            let marketplace := detectMarketplace (tx_to tx) in
            ret (Some
              {| nft_txHash := txHash;
                 nft_type :=
                   determineTransactionType (receipt_logs receipt) marketplace;
                 nft_collection := address primaryLog;
                 nft_tokenId := tokenId primaryLog;
                 nft_from := from primaryLog;
                 nft_to := to primaryLog;
                 nft_price := extractPrice (receipt_logs receipt);
                 nft_currency := extractCurrency (receipt_logs receipt);
                 nft_marketplace := option_map mp_name marketplace;
                 nft_timestamp := now;
                 nft_gasUsed := JS.literal (receipt_gasUsed receipt);
                 nft_gasPrice :=
                   JS.literal
                     match tx_gasPrice tx with Some g => g | None => 0 end |})
        end
    | _, _ => ret None
    end in
  match body with
  | inr result => result
  | inl _ => None
  end.

End Analysis.

End BaseNFTAnalyzer.

(** ** BaseNetworkUtils: the static contract and token tables *)
Module BaseNetworkUtils.

Inductive ContractCategory : Type :=
| defi
| bridge
| nft
| infrastructure
| gaming.

(** [BaseContract]; the [abi] field is the empty array in every entry and
    is left out. *)
Record BaseContract : Type := mkContract {
  name : string;
  address : string;
  category : ContractCategory
}.

Record BaseToken : Type := mkToken {
  symbol : string;
  token_name : string;
  token_address : string;
  decimals : Z;
  coingeckoId : option string
}.

Definition BASE_CONTRACTS : list BaseContract :=
  [ mkContract "Uniswap V3 Router" "0x2626664c2603336E57B271c5C0b26F421741e481" defi;
    mkContract "Uniswap V3 Factory" "0x33128a8fC17869897dcE68Ed026d694621f6FDfD" defi;
    mkContract "Aerodrome Router" "0xcF77a3Ba9A5CA399B7c97c74d54e5b1Beb874E43" defi;
    mkContract "Aerodrome Factory" "0x420DD381b31aEf6683db6B902084cB0FFECe40Da" defi;
    mkContract "Compound V3 USDC" "0x9c4ec768c28520B50860ea7a15bd7213a9fF58bf" defi;
    mkContract "Base Bridge" "0x3154Cf16ccdb4C6d922629664174b904d80F2C35" bridge;
    mkContract "WETH" "0x4200000000000000000000000000000000000006" infrastructure ].

Definition BASE_TOKENS : list BaseToken :=
  [ mkToken "ETH" "Ethereum" "0x0000000000000000000000000000000000000000" 18
      (Some "ethereum");
    mkToken "WETH" "Wrapped Ether" "0x4200000000000000000000000000000000000006" 18
      (Some "weth");
    mkToken "USDC" "USD Coin" "0x833589fCD6eDb6E08f4c7C32D4f71b54bdA02913" 6
      (Some "usd-coin");
    mkToken "USDbC" "USD Base Coin" "0xd9aAEc86B65D86f6A7B5B1b0c42FFA531710b6CA" 6
      (Some "bridged-usdc-base");
    mkToken "DAI" "Dai Stablecoin" "0x50c5725949A6F0c72E6C4a641F24049A917DB0Cb" 18
      (Some "dai");
    mkToken "AERO" "Aerodrome Finance" "0x940181a94A35A4569E4529A3CDfB74e38FD98631" 18
      (Some "aerodrome-finance");
    mkToken "COMP" "Compound" "0x9e1028F5F1D5eDE59748FFceE5532509976840E0" 18
      (Some "compound-governance-token") ].

Definition isKnownContract (a : string) : bool :=
  existsb (fun contract =>
             (JS.toLowerCase (address contract) =? JS.toLowerCase a)%string)
    BASE_CONTRACTS.

(** [find(...) || null]: [None] is [null]. *)
Definition getContractInfo (a : string) : option BaseContract :=
  find (fun contract =>
          (JS.toLowerCase (address contract) =? JS.toLowerCase a)%string)
    BASE_CONTRACTS.

Definition getTokenInfo (addressOrSymbol : string) : option BaseToken :=
  let search := JS.toLowerCase addressOrSymbol in
  find (fun token =>
          (JS.toLowerCase (token_address token) =? search)%string
          || (JS.toLowerCase (symbol token) =? search)%string)
    BASE_TOKENS.

End BaseNetworkUtils.

(** ** src/BaseBridgeAnalyzer.ts *)
Module BaseBridgeAnalyzer.

Inductive Direction : Type :=
| deposit
| withdrawal
| prove
| finalize.

Record BridgeContracts : Type := mkBridgeContracts {
  l1StandardBridge : string;
  l2StandardBridge : string;
  optimismPortal : string;
  l2OutputOracle : string
}.

Definition bridgeContracts : BridgeContracts :=
  {| l1StandardBridge := "0x3154Cf16ccdb4C6d922629664174b904d80F2C35";
     l2StandardBridge := "0x4200000000000000000000000000000000000010";
     optimismPortal := "0x49048044D57e1C92A77f79988d21Fa8fAF74E97e";
     l2OutputOracle := "0x56315b90c40730925ec5485cf004d835058518A0" |}.

(** [logs.some(log => log.topics[0].includes('Proven'))]: the logs are
    visited in order until the callback is true; a log without topics
    makes the callback throw. *)
Fixpoint someProven (logs : list Ethers.Log) : throws bool :=
  match logs with
  | [] => ret false
  | log :: rest =>
      t0 <- JS.deref (Ethers.topics log) 0 ;;
      if JS.includes t0 "Proven" then ret true else someProven rest
  end.

Definition determineBridgeDirection (to : option string)
    (logs : list Ethers.Log) : throws Direction :=
  match to with
  | None => ret deposit
  | Some to =>
      if (to =? "")%string then ret deposit
      else
        let contractAddress := JS.toLowerCase to in
        if (contractAddress =? JS.toLowerCase (l1StandardBridge bridgeContracts))%string
        then ret deposit
        else if (contractAddress =? JS.toLowerCase (l2StandardBridge bridgeContracts))%string
        then ret withdrawal
        else if (contractAddress =? JS.toLowerCase (optimismPortal bridgeContracts))%string
        then proven <- someProven logs ;;
             ret (if proven : bool then prove else finalize)
        else ret deposit
  end.

Definition getEstimatedBridgeTime (direction : Direction) : Z :=
  match direction with
  | deposit => 3
  | withdrawal => 10080
  | prove => 60
  | finalize => 30
  end.

Inductive Chain : Type :=
| ethereum
| base.

Definition chain_eqb (a b : Chain) : bool :=
  match a, b with
  | ethereum, ethereum | base, base => true
  | _, _ => false
  end.

Record RouteStep : Type := mkStep {
  step_action : string;
  step_estimatedGas : Z;
  step_description : string
}.

Record BridgeRoute : Type := mkRoute {
  route_from : Chain;
  route_to : Chain;
  route_token : string;
  route_estimatedTime : Z;
  route_estimatedGas : Z;
  route_bridgeFee : Z;
  route_steps : list RouteStep
}.

Definition findOptimalRoute (from to : Chain) (token amount : string)
    : throws BridgeRoute :=
  let isDeposit := chain_eqb from ethereum && chain_eqb to base in
  let isWithdrawal := chain_eqb from base && chain_eqb to ethereum in
  if isDeposit then
    ret {| route_from := from;
           route_to := to;
           route_token := token;
           route_estimatedTime := 3;
           route_estimatedGas := 120000;
           route_bridgeFee := 0;
           route_steps :=
             [ mkStep "Approve Token" 50000
                 "Approve L1 Standard Bridge to spend tokens";
               mkStep "Deposit" 70000
                 "Deposit tokens to L1 Standard Bridge" ] |}
  else if isWithdrawal then
    ret {| route_from := from;
           route_to := to;
           route_token := token;
           route_estimatedTime := 10080;
           route_estimatedGas := 530000;
           route_bridgeFee := 0;
           route_steps :=
             [ mkStep "Initiate Withdrawal" 180000
                 "Start withdrawal process on L2";
               mkStep "Prove Withdrawal" 150000
                 "Prove withdrawal on L1 (after challenge period)";
               mkStep "Finalize Withdrawal" 200000
                 "Complete withdrawal and receive tokens on L1" ] |}
  else raise "Invalid bridge route".

Record TokenInfo : Type := mkTokenInfo {
  token_address : string;
  token_symbol : string;
  token_amount : string;
  token_decimals : Z
}.

Definition extractTokenInfo (logs : list Ethers.Log) : TokenInfo :=
  {| token_address := "0x0000000000000000000000000000000000000000";
     token_symbol := "ETH";
     token_amount := "1.0";
     token_decimals := 18 |}.

Inductive Status : Type :=
| pending
| proven
| finalized
| failed.

Definition getBridgeStatus (txHash : string) (direction : Direction)
    (sourceChain : Chain) : Status := finalized.

Definition calculateBridgeFee (direction : Direction) (amount : string) : Z := 0.

Definition getActualBridgeTime (txHash : string) (direction : Direction)
    : option Z := None.

(** The fields of the transaction and of the receipt that
    [analyzeBridgeTransaction] reads. *)
Record Transaction : Type := mkTransaction {
  tx_to : option string;
  tx_from : string;
  tx_gasPrice : option Z
}.

Record Receipt : Type := mkReceipt {
  receipt_logs : list Ethers.Log;
  receipt_gasUsed : Z
}.

(** A provider: its answers to [getTransaction] and
    [getTransactionReceipt] (a failure, [null], or the object). *)
Record Provider : Type := mkProvider {
  getTransaction : string -> throws (option Transaction);
  getTransactionReceipt : string -> throws (option Receipt)
}.

Record BridgeTransaction : Type := mkBridgeTransaction {
  bt_txHash : string;
  bt_direction : Direction;
  bt_sourceChain : Chain;
  bt_targetChain : Chain;
  bt_token : TokenInfo;
  bt_user : string;
  bt_status : Status;
  bt_timestamp : Z;
  bt_gasUsed : JS.number;
  bt_gasPrice : JS.number;
  bt_bridgeFee : Z;
  bt_estimatedTime : Z;
  bt_actualTime : option Z
}.

(** [analyzeBridgeTransaction]: the two providers and the time of
    [new Date()] are arguments; every exception inside the [try] gives
    [null]. *)
Definition analyzeBridgeTransaction (l1Provider l2Provider : Provider)
    (now : Z) (txHash : string) (sourceChain : Chain)
    : option BridgeTransaction :=
  let body : throws (option BridgeTransaction) :=
    let provider :=
      if chain_eqb sourceChain ethereum then l1Provider else l2Provider in
    tx <- getTransaction provider txHash ;;
    receipt <- getTransactionReceipt provider txHash ;;
    match tx, receipt with
    | Some tx, Some receipt =>
        direction <- determineBridgeDirection (tx_to tx) (receipt_logs receipt) ;;
        let tokenInfo := extractTokenInfo (receipt_logs receipt) in
        let status := getBridgeStatus txHash direction sourceChain in
        ret (Some
          {| bt_txHash := txHash;
             bt_direction := direction;
             bt_sourceChain := sourceChain;
             bt_targetChain :=
               if chain_eqb sourceChain ethereum then base else ethereum;
             bt_token := tokenInfo;
             bt_user := tx_from tx;
             bt_status := status;
             bt_timestamp := now;
             bt_gasUsed := JS.literal (receipt_gasUsed receipt);
             bt_gasPrice :=
               JS.literal match tx_gasPrice tx with Some g => g | None => 0 end;
             bt_bridgeFee := calculateBridgeFee direction (token_amount tokenInfo);
             bt_estimatedTime := getEstimatedBridgeTime direction;
             bt_actualTime := getActualBridgeTime txHash direction |})
    | _, _ => ret None
    end in
  match body with
  | inr result => result
  | inl _ => None
  end.

End BaseBridgeAnalyzer.

(** ** src/DeFiProtocolAnalyzer.ts *)
Module DeFiProtocolAnalyzer.

Record ContractAddresses : Type := mkAddresses {
  router : option string;
  factory : option string;
  quoter : option string;
  pool : option string
}.

(** [ProtocolConfig]; the [abi] field is the empty array in every entry
    and is left out. *)
Record ProtocolConfig : Type := mkProtocol {
  name : string;
  version : string;
  contractAddresses : ContractAddresses
}.

(** The [protocols] map as [initializeProtocols] fills it, in insertion
    order. *)
Definition protocols : list (string * ProtocolConfig) :=
  [ ("uniswap-v3",
     mkProtocol "Uniswap V3" "3.0"
       (mkAddresses (Some "0x2626664c2603336E57B271c5C0b26F421741e481")
                    (Some "0x33128a8fC17869897dcE68Ed026d694621f6FDfD")
                    (Some "0x3d4e44Eb1374240CE5F1B871ab261CD16335B76a")
                    None));
    ("aerodrome",
     mkProtocol "Aerodrome" "1.0"
       (mkAddresses (Some "0xcF77a3Ba9A5CA399B7c97c74d54e5b1Beb874E43")
                    (Some "0x420DD381b31aEf6683db6B902084cB0FFECe40Da")
                    None None));
    ("compound-v3",
     mkProtocol "Compound V3" "3.0"
       (mkAddresses None None None
                    (Some "0x9c4ec768c28520B50860ea7a15bd7213a9fF58bf"))) ].

(** [Object.values] of a [contractAddresses] object: the properties that
    are present, in the order the literals list them. *)
Definition Object_values (a : ContractAddresses) : list string :=
  let present (o : option string) :=
    match o with Some v => [v] | None => [] end in
  present (router a) ++ present (factory a) ++ present (quoter a)
  ++ present (pool a).

(** The [for ... of this.protocols] loop of [detectProtocol]. *)
Fixpoint detectIn (ps : list (string * ProtocolConfig)) (lowered : string)
    : option ProtocolConfig :=
  match ps with
  | [] => None
  | (_, protocol) :: rest =>
      let addresses := Object_values (contractAddresses protocol) in
      if existsb (fun a => (a =? lowered)%string) addresses
      then Some protocol
      else detectIn rest lowered
  end.

Definition detectProtocol (contractAddress : option string)
    : option ProtocolConfig :=
  if negb (JS.truthy contractAddress) then None
  else
    match contractAddress with
    | Some a => detectIn protocols (JS.toLowerCase a)
    | None => None
    end.

(** The formula of the specification,
    [|2*sqrt(ratio)/(1+ratio) - 1| * 100], on numbers. *)
Definition impermanentLossFormula (ratio : JS.number) : JS.number :=
  JS.mul
    (JS.Math_abs
       (JS.sub
          (JS.div (JS.mul (JS.literal 2) (JS.Math_sqrt ratio))
             (JS.add (JS.literal 1) ratio))
          (JS.literal 1)))
    (JS.literal 100).

(** An [async] method without [await] or [throw]: the promise is always
    fulfilled, here with the value returned. *)
Definition getImpermanentLossCalculation (poolAddress : string)
    (entryPrice currentPrice : JS.number) : throws JS.number :=
  let priceRatio := JS.div currentPrice entryPrice in
  let impermanentLoss :=
    JS.sub
      (JS.div (JS.mul (JS.literal 2) (JS.Math_sqrt priceRatio))
         (JS.add (JS.literal 1) priceRatio))
      (JS.literal 1) in
  ret (JS.mul (JS.Math_abs impermanentLoss) (JS.literal 100)).

Record TokenLeg : Type := mkTokenLeg {
  leg_address : string;
  leg_symbol : string;
  leg_amount : string;
  leg_decimals : Z
}.

Record SwapData : Type := mkSwapData {
  data_tokenIn : TokenLeg;
  data_tokenOut : TokenLeg;
  data_exchangeRate : JS.number;
  data_priceImpact : JS.number;
  data_slippage : JS.number;
  data_fee : JS.number
}.

(** The numbers 0.1, 0.5 and 0.3 are the correctly rounded quotients
    1/10, 1/2 and 3/10. *)
Definition parseSwapLogs (logs : list Ethers.Log) (protocol : ProtocolConfig)
    : SwapData :=
  {| data_tokenIn :=
       mkTokenLeg "0x833589fCD6eDb6E08f4c7C32D4f71b54bdA02913" "USDC" "1000.0" 6;
     data_tokenOut :=
       mkTokenLeg "0x4200000000000000000000000000000000000006" "WETH" "0.5" 18;
     data_exchangeRate := JS.literal 2000;
     data_priceImpact := JS.div (JS.literal 1) (JS.literal 10);
     data_slippage := JS.div (JS.literal 1) (JS.literal 2);
     data_fee := JS.div (JS.literal 3) (JS.literal 10) |}.

Record SwapAnalysis : Type := mkSwapAnalysis {
  swap_protocol : string;
  swap_tokenIn : TokenLeg;
  swap_tokenOut : TokenLeg;
  swap_exchangeRate : JS.number;
  swap_priceImpact : JS.number;
  swap_slippage : JS.number;
  swap_fee : JS.number;
  swap_gasUsed : JS.number;
  swap_gasPrice : JS.number;
  swap_timestamp : JS.number
}.

(** The fields of the transaction and of the receipt that [analyzeSwap]
    reads. *)
Record Transaction : Type := mkTransaction {
  tx_to : option string;
  tx_gasPrice : option Z
}.

Record Receipt : Type := mkReceipt {
  receipt_logs : list Ethers.Log;
  receipt_gasUsed : Z
}.

(** [analyzeSwap]: the answers of the provider to [getTransaction] and
    [getTransactionReceipt] (a failure, [null], or the object) and the
    value of [Date.now()] are arguments; every exception inside the [try],
    the "Transaction not found" error too, gives [null]. *)
Definition analyzeSwap (txHash : string)
    (getTransaction : throws (option Transaction))
    (getTransactionReceipt : throws (option Receipt)) (now : JS.number)
    : option SwapAnalysis :=
  let body : throws (option SwapAnalysis) :=
    tx <- getTransaction ;;
    receipt <- getTransactionReceipt ;;
    match tx, receipt with
    | Some tx, Some receipt =>
        match detectProtocol (tx_to tx) with
        | None => ret None
        | Some protocol =>
            let swapData := parseSwapLogs (receipt_logs receipt) protocol in
            ret (Some
              {| swap_protocol := name protocol;
                 swap_tokenIn := data_tokenIn swapData;
                 swap_tokenOut := data_tokenOut swapData;
                 swap_exchangeRate := data_exchangeRate swapData;
                 swap_priceImpact := data_priceImpact swapData;
                 swap_slippage := data_slippage swapData;
                 swap_fee := data_fee swapData;
                 swap_gasUsed := JS.literal (receipt_gasUsed receipt);
                 swap_gasPrice :=
                   JS.literal
                     match tx_gasPrice tx with Some g => g | None => 0 end;
                 swap_timestamp := now |})
        end
    | _, _ => raise "Transaction not found"
    end in
  match body with
  | inr result => result
  | inl _ => None
  end.

End DeFiProtocolAnalyzer.

(** ** MetricsComputer: gas efficiency *)
Module MetricsComputer.

(** Modelled from the spec: the ratings of [GasMetrics] (section 3); the
    type of the missing src/BaseTransactionAnalyzer.ts is not among the
    sources. *)
Inductive EfficiencyRating : Type :=
| Excellent
| Good
| Average
| Poor.

(** Modelled from the spec: the result of [gasEfficiency] (section 4.4),
    the percentage being undefined without a positive gas limit. *)
Record GasEfficiency : Type := mkGasEfficiency {
  usagePercentage : option Q;
  rating : EfficiencyRating
}.

(** Modelled from the spec: [calculateGasEfficiency] of
    src/BaseTransactionAnalyzer.ts is missing from the sources (its test
    and its callers are there). Section 4.4: [usagePercentage =
    gasUsed/gasLimit*100]; the rating is Excellent from 90, Good from 70,
    Average from 40 and Poor below. *)
Definition ratingOf (usage : Q) : EfficiencyRating :=
  if Qle_bool 90 usage then Excellent
  else if Qle_bool 70 usage then Good
  else if Qle_bool 40 usage then Average
  else Poor.

(** Modelled from the spec: as [ratingOf]; with a [gasLimit] that is not
    positive the percentage is undefined and the rating is Average. *)
Definition gasEfficiency (gasUsed gasLimit : Z) : GasEfficiency :=
  if (0 <? gasLimit)%Z then
    let usage := (inject_Z gasUsed / inject_Z gasLimit * 100)%Q in
    {| usagePercentage := Some usage; rating := ratingOf usage |}
  else {| usagePercentage := None; rating := Average |}.

End MetricsComputer.

(** ** src/GasOptimizer.ts *)
Module GasOptimizer.

(** The fields of [BaseTransaction] that the cost reads, as [BigInt]
    reads their decimal texts. *)
Record BaseTransaction : Type := mkTransaction {
  gasUsed : Z;
  gasPrice : Z
}.

Definition calculateGasCost (transaction : BaseTransaction)
    : throws string :=
  let gasUsed := gasUsed transaction in
  let gasPrice := gasPrice transaction in
  let gasCostWei := gasUsed * gasPrice in
  Ethers.formatEther gasCostWei.

Inductive SuggestionType : Type :=
| gas_price
| gas_limit
| contract_optimization
| batch_transactions.

Inductive Confidence : Type :=
| high
| medium
| low.

Record GasOptimizationSuggestion : Type := mkSuggestion {
  suggestion_type : SuggestionType;
  description : string;
  potentialSavings : string;
  confidence : Confidence;
  implementation : string
}.

(** [OPTIMAL_GAS_USAGE_THRESHOLD = 0.7]: the number nearest to 7/10, which
    the correctly rounded quotient is. *)
Definition OPTIMAL_GAS_USAGE_THRESHOLD : JS.number :=
  JS.div (JS.literal 7) (JS.literal 10).

(** [ethers.parseUnits(this.BASE_GAS_PRICE_GWEI.toString(), 'gwei')] with
    [BASE_GAS_PRICE_GWEI = 0.1]: 0.1 gwei in wei. *)
Definition baseGasPriceWei : Z := 100000000.

Definition calculateGasPriceSavings (transaction : BaseTransaction)
    : throws string :=
  let currentGasPrice := gasPrice transaction in
  let optimalGasPrice := baseGasPriceWei in
  let gasUsed := gasUsed transaction in
  if currentGasPrice <=? optimalGasPrice then ret "0"
  else
    let savings := (currentGasPrice - optimalGasPrice) * gasUsed in
    Ethers.formatEther savings.

(** The divisor is the constant 100: the [bigint] division does not
    throw. *)
Definition calculateGasLimitSavings (transaction : BaseTransaction)
    : throws string :=
  let gasUsed := gasUsed transaction in
  let gasPrice := gasPrice transaction in
  let potentialSavings := Z.quot (gasUsed * gasPrice * 5) 100 in
  Ethers.formatEther potentialSavings.

(** [operationCount] is the length of an array, below [2^32]: the
    arithmetic on numbers is exact, and the savings, far inside the range
    of [formatEther], are formatted without an error; the result is the
    text. *)
Definition calculateBatchingSavings (operationCount : nat) : string :=
  let baseGasCost := 21000 in
  let savedTransactions := Z.of_nat operationCount - 1 in
  let savedGas := savedTransactions * baseGasCost in
  let gasPrice := baseGasPriceWei in
  let savings := savedGas * gasPrice in
  Ethers.FixedNumber_toString savings 18.

Definition analyzeGasLimit (transaction : BaseTransaction)
    : throws (option GasOptimizationSuggestion) :=
  let gasUsed := gasUsed transaction in
  estimatedGasLimit <- JS.bigintDiv (gasUsed * 120) 100 ;;
  quotient <- JS.bigintDiv (gasUsed * 100) estimatedGasLimit ;;
  let gasUsageRatio := JS.div (JS.literal quotient) (JS.literal 100) in
  if JS.lt gasUsageRatio OPTIMAL_GAS_USAGE_THRESHOLD then
    savings <- calculateGasLimitSavings transaction ;;
    ret (Some
      {| suggestion_type := gas_limit;
         description := "Gas limit is set too high, wasting potential gas fees";
         potentialSavings := savings;
         confidence := medium;
         implementation :=
           "Set gas limit closer to estimated gas usage with 10-15% buffer" |})
  else ret None.

(** [analyzeContractOptimization] reads [transaction.logs], which may be
    missing. *)
Definition analyzeContractOptimization (logs : option (list Ethers.Log))
    : option GasOptimizationSuggestion :=
  match logs with
  | None => None
  | Some logs =>
      if (List.length logs =? 0)%nat then None
      else
        let transferEvents :=
          filter (fun log =>
                    JS.strictEq (nth_error (Ethers.topics log) 0)
                      "0xddf252ad1be2c89b69c2b068fc378daa952ba7f163c4a11628f55a4df523b3ef")
            logs in
        if (3 <? List.length transferEvents)%nat then
          Some
            {| suggestion_type := batch_transactions;
               description :=
                 "Multiple token transfers detected - consider batching operations";
               potentialSavings :=
                 calculateBatchingSavings (List.length transferEvents);
               confidence := high;
               implementation :=
                 "Use multicall or batch transfer functions to combine operations" |}
        else None
  end.

End GasOptimizer.

(** ** src/index.ts: the [utils] object *)
Module Utils.



(** [/^0x[a-fA-F0-9]{64}$/.test(hash)]. *)
Definition isValidTxHash (hash : string) : bool :=
  JS.startsWith hash "0x"
  && JS.allChars Ethers.isHexChar (JS.slice 2 hash)
  && (String.length (JS.slice 2 hash) =? 64)%nat.

Definition calculatePercentage (part total : JS.number) : JS.number :=
  if JS.strictEqNumber total (JS.literal 0) then JS.literal 0
  else JS.mul (JS.div part total) (JS.literal 100).

End Utils.

(** The addresses a transaction of a block contributes to the count of
    unique addresses: its sender and its destination, when it has one. *)
Definition addressOf (tx : BaseMetricsCollector.BlockTransaction) (a : string)
    : Prop :=
  a = BaseMetricsCollector.btx_from tx
  \/ (BaseMetricsCollector.btx_to tx = Some a /\ a <> "").

(** [text] is a decimal text, a whole part and 1 to 18 fraction digits,
    that denotes exactly [wei / 10^18]. *)
Definition denotesEther (text : string) (wei : Z) : Prop :=
  exists whole fraction,
    text = whole ++ "." ++ fraction
    /\ whole <> "" /\ JS.allChars Ethers.isDigit whole = true
    /\ JS.allChars Ethers.isDigit fraction = true
    /\ (1 <= String.length fraction <= 18)%nat
    /\ Ethers.digitsValue 10 0 whole * 10 ^ 18
       + Ethers.digitsValue 10 0 fraction
         * 10 ^ Z.of_nat (18 - String.length fraction)
       = wei.

(** ** Hexadecimal words as byte sequences

    The vocabulary in which the specification speaks of topics, addresses
    and amounts: the bytes a hex text encodes and the unsigned big-endian
    integer of a byte sequence. *)
Module Hex.

(** The bytes encoded by a text of hex digit pairs (no [0x] prefix). *)
Fixpoint bytes (s : string) : option (list Z) :=
  match s with
  | EmptyString => Some []
  | String c0 (String c1 r) =>
      match Ethers.hexDigit c0, Ethers.hexDigit c1, bytes r with
      | Some h, Some l, Some bs => Some (16 * h + l :: bs)
      | _, _, _ => None
      end
  | _ => None
  end.

Definition bigEndian (bs : list Z) : Z :=
  fold_left (fun acc b => 256 * acc + b) bs 0.

(** [0-9a-f], the digits of the hex texts a provider returns. *)
Definition isLowerHexChar (c : ascii) : bool :=
  Ethers.isDigit c || Ethers.isLowerHexLetter c.

(** [w] is the lower-case hex text of [n] bytes. *)
Definition isWord (n : nat) (w : string) : Prop :=
  JS.allChars isLowerHexChar w = true /\ String.length w = (2 * n)%nat.

End Hex.

(** ** Logs used as examples

    The Transfer log of the mock receipt of the DeFi test suite: a
    transfer of 1000000 units of USDC (a token of 6 decimals) to the
    Uniswap V3 router. *)
Module Fixtures.

Definition usdcAddress : string :=
  "0x833589fCD6eDb6E08f4c7C32D4f71b54bdA02913".

Definition senderWord : string :=
  "000000000000000000000000742d35cc6634c0532925a3b8d4c9db96c4b4d8b6".

Definition routerWord : string :=
  "0000000000000000000000002626664c2603336e57b271c5c0b26f421741e481".

Definition amountWord : string :=
  "00000000000000000000000000000000000000000000000000000000000f4240".

Definition usdcTransferLog : Ethers.Log :=
  Ethers.mkLog usdcAddress
    [ BaseMetricsCollector.transferEventSignature;
      "0x" ++ senderWord;
      "0x" ++ routerWord ]
    ("0x" ++ amountWord).

End Fixtures.

(** * Properties *)

Import BaseMetricsCollector.

Lemma categorizeTransaction_site tx receipt tts :
  categorizeTransaction tx receipt tts
  = categoryAt (categorizeReturnSite tx receipt tts).
Proof.
  unfold categorizeTransaction, categorizeReturnSite.
  repeat match goal with |- context [if ?b then _ else _] => destruct b end;
    reflexivity.
Qed.

(** C1: a transaction whose destination is [null] is categorized TRANSFER
    by the first test of [categorizeTransaction], whatever its value, logs
    and token transfers; it is not categorized CONTRACT_DEPLOYMENT. *)
Theorem categorizeTransaction_null_to :
  forall value receipt tokenTransfers,
    categorizeTransaction (mkTx None value) receipt tokenTransfers = TRANSFER
    /\ categorizeTransaction (mkTx None value) receipt tokenTransfers
       <> CONTRACT_DEPLOYMENT.
Proof.
  intros value receipt tts. unfold categorizeTransaction. simpl.
  split; [reflexivity | discriminate].
Qed.

(** C10: [categorizeTransaction] only ever returns TRANSFER, DEFI_SWAP,
    CONTRACT_INTERACTION or UNKNOWN; its CONTRACT_DEPLOYMENT return is
    never taken, a transaction without destination leaving at the first
    return, and NFT_TRADE, DEFI_LIQUIDITY and BRIDGE are never
    produced. *)
Theorem categorizeTransaction_range :
  (forall tx receipt tokenTransfers,
      let c := categorizeTransaction tx receipt tokenTransfers in
      (c = TRANSFER \/ c = DEFI_SWAP \/ c = CONTRACT_INTERACTION \/ c = UNKNOWN)
      /\ c = categoryAt (categorizeReturnSite tx receipt tokenTransfers)
      /\ categorizeReturnSite tx receipt tokenTransfers <> AtContractDeployment
      /\ c <> CONTRACT_DEPLOYMENT
      /\ c <> NFT_TRADE /\ c <> DEFI_LIQUIDITY /\ c <> BRIDGE)
  /\ (forall value receipt tokenTransfers,
         categorizeReturnSite (mkTx None value) receipt tokenTransfers
         = AtEthTransfer
         /\ categorizeReturnSite (mkTx (Some "") value) receipt tokenTransfers
            = AtEthTransfer).
Proof.
  split.
  - intros tx receipt tts. cbv zeta.
    rewrite categorizeTransaction_site.
    unfold categorizeReturnSite.
    destruct (JS.truthy (tx_to tx)); simpl;
      repeat match goal with |- context [if ?b then _ else _] => destruct b end;
      repeat split; try discriminate; auto.
  - intros value receipt tts. split; reflexivity.
Qed.

(** ** Characters and hex texts *)

Ltac each_char c :=
  destruct c as [[] [] [] [] [] [] [] []]; vm_compute; try reflexivity;
  try discriminate; auto.

Lemma lowerHex_lowerChar c :
  Hex.isLowerHexChar c = true -> JS.lowerChar c = c.
Proof. each_char c. Qed.

Lemma lowerHex_isHexChar c :
  Hex.isLowerHexChar c = true -> Ethers.isHexChar c = true.
Proof. each_char c. Qed.

Lemma lowerHex_not_upper c :
  Hex.isLowerHexChar c = true -> Ethers.isUpperHexLetter c = false.
Proof. each_char c. Qed.

Lemma lowerHex_upperChar c :
  Hex.isLowerHexChar c = true ->
  Ethers.hexDigit (JS.upperChar c) = Ethers.hexDigit c.
Proof. each_char c. Qed.

Lemma lowerHex_digit c :
  Hex.isLowerHexChar c = true ->
  exists d, Ethers.hexDigit c = Some d /\ 0 <= d < 16.
Proof.
  destruct c as [[] [] [] [] [] [] [] []]; intros H; vm_compute in H;
    try discriminate H;
    eexists; (split; [vm_compute; reflexivity | lia]).
Qed.

Lemma string_pair_ind (P : string -> Prop) :
  P "" ->
  (forall c, P (String c "")) ->
  (forall c0 c1 r, P r -> P (String c0 (String c1 r))) ->
  forall s, P s.
Proof.
  intros Hnil Hone Hpair. fix IH 1.
  intros [|c0 [|c1 r]]; [exact Hnil | apply Hone | apply Hpair, IH].
Qed.

Section LowerHexTexts.

Variable w : string.
Hypothesis Hw : JS.allChars Hex.isLowerHexChar w = true.

Lemma lowerHex_toLowerCase : JS.toLowerCase w = w.
Proof.
  induction w as [|c r IH]; simpl in *; [reflexivity|].
  apply andb_prop in Hw as [Hc Hr].
  rewrite (lowerHex_lowerChar _ Hc), (IH Hr). reflexivity.
Qed.

Lemma lowerHex_allHex : JS.allChars Ethers.isHexChar w = true.
Proof.
  induction w as [|c r IH]; simpl in *; [reflexivity|].
  apply andb_prop in Hw as [Hc Hr].
  rewrite (lowerHex_isHexChar _ Hc), (IH Hr). reflexivity.
Qed.

Lemma lowerHex_no_upper : JS.someChar Ethers.isUpperHexLetter w = false.
Proof.
  induction w as [|c r IH]; simpl in *; [reflexivity|].
  apply andb_prop in Hw as [Hc Hr].
  rewrite (lowerHex_not_upper _ Hc), (IH Hr). reflexivity.
Qed.

End LowerHexTexts.

(** The checksum changes the case of letters only: the bytes stay. *)
Lemma bytes_checksumChars :
  forall a hashed,
    JS.allChars Hex.isLowerHexChar a = true ->
    Hex.bytes (Ethers.checksumChars hashed a) = Hex.bytes a.
Proof.
  induction a as [| c | c0 c1 r IH] using string_pair_ind;
    intros hashed Ha; try reflexivity.
  simpl in Ha.
  apply andb_prop in Ha as [H0 Ha]. apply andb_prop in Ha as [H1 Hr].
  cbn [Ethers.checksumChars Hex.bytes].
  rewrite (IH _ Hr).
  destruct (8 <=? Z.shiftr (hd 0 hashed) 4), (8 <=? Z.land (hd 0 hashed) 15);
    rewrite ?(lowerHex_upperChar _ H0), ?(lowerHex_upperChar _ H1);
    reflexivity.
Qed.

Lemma bytes_defined :
  forall n a, Hex.isWord n a ->
    exists bs, Hex.bytes a = Some bs /\ List.length bs = n.
Proof.
  induction n as [|n IH]; intros a [Ha Hlen].
  - destruct a; [|discriminate]. exists []. split; reflexivity.
  - destruct a as [|c0 [|c1 r]]; simpl in Hlen; try lia.
    simpl in Ha.
    apply andb_prop in Ha as [H0 Ha]. apply andb_prop in Ha as [H1 Hr].
    destruct (IH r) as (bs & Hbs & Hn).
    { split; [exact Hr | simpl in Hlen; lia]. }
    destruct (lowerHex_digit _ H0) as (h & Hh & _).
    destruct (lowerHex_digit _ H1) as (l & Hl & _).
    exists (16 * h + l :: bs). cbn [Hex.bytes]. rewrite Hh, Hl, Hbs.
    split; [reflexivity | simpl; congruence].
Qed.

(** Dropping [2 * n] hex digits drops [n] bytes. *)
Lemma bytes_slice :
  forall n a bs,
    Hex.bytes a = Some bs ->
    Hex.bytes (JS.slice (2 * n) a) = Some (skipn n bs).
Proof.
  induction n as [|n IH]; intros a bs Ha; [exact Ha|].
  replace (2 * S n)%nat with (S (S (2 * n))) by lia.
  destruct a as [|c0 [|c1 r]].
  - injection Ha as <-. reflexivity.
  - discriminate.
  - cbn [Hex.bytes] in Ha. cbn [JS.slice].
    destruct (Ethers.hexDigit c0), (Ethers.hexDigit c1), (Hex.bytes r) eqn:Hr;
      try discriminate.
    injection Ha as <-. cbn [skipn]. apply IH. exact Hr.
Qed.

Lemma slice_allChars p :
  forall n a, JS.allChars p a = true -> JS.allChars p (JS.slice n a) = true.
Proof.
  induction n as [|n IH]; intros a Ha; [exact Ha|].
  destruct a as [|c r]; [reflexivity|]. simpl in *.
  apply andb_prop in Ha as [_ Hr]. apply IH, Hr.
Qed.

Lemma slice_length :
  forall n a, String.length (JS.slice n a) = (String.length a - n)%nat.
Proof.
  induction n as [|n IH]; intros a; simpl; [lia|].
  destruct a as [|c r]; simpl; [reflexivity | apply IH].
Qed.

(** Reading hex digits most significant first is reading the bytes
    big-endian. *)
Lemma digitsValue_bytes :
  forall a bs acc,
    Hex.bytes a = Some bs ->
    Ethers.digitsValue 16 acc a
    = fold_left (fun acc b => 256 * acc + b) bs acc.
Proof.
  induction a as [| c | c0 c1 r IH] using string_pair_ind; intros bs acc Ha.
  - injection Ha as <-. reflexivity.
  - discriminate.
  - cbn [Hex.bytes] in Ha. cbn [Ethers.digitsValue].
    destruct (Ethers.hexDigit c0) as [h|], (Ethers.hexDigit c1) as [l|],
      (Hex.bytes r) as [bs'|] eqn:Hr; try discriminate.
    replace bs with (16 * h + l :: bs') by congruence. cbn [fold_left].
    rewrite (IH bs' _ eq_refl). f_equal. ring.
Qed.

(** ** ethers on canonical input *)

(** On the lower-case hex text of 20 bytes [getAddress] succeeds, with the
    checksummed form of the same text. *)
Lemma getAddress_lower keccak256 a :
  Hex.isWord 20 a ->
  Ethers.getAddress keccak256 ("0x" ++ a)
  = inr ("0x" ++ Ethers.checksumChars (keccak256 a) a).
Proof.
  intros [Ha Hlen].
  unfold Ethers.getAddress, Ethers.isAddressString, Ethers.getChecksumAddress,
    Ethers.isHexStringOfLength, Ethers.isHexString, Ethers.isMixedCase.
  change (JS.startsWith ("0x" ++ a) "0x") with true. cbv beta iota zeta.
  change (JS.startsWith ("0x" ++ a) "0x") with true.
  change (JS.slice 2 ("0x" ++ a)) with a.
  change (JS.toLowerCase ("0x" ++ a)) with ("0x" ++ JS.toLowerCase a).
  change (JS.slice 2 ("0x" ++ JS.toLowerCase a)) with (JS.toLowerCase a).
  change (String.length ("0x" ++ a)) with (S (S (String.length a))).
  change (JS.someChar Ethers.isUpperHexLetter ("0x" ++ a))
    with (JS.someChar Ethers.isUpperHexLetter a).
  rewrite (lowerHex_allHex _ Ha), (lowerHex_toLowerCase _ Ha),
    (lowerHex_no_upper _ Ha), Hlen.
  reflexivity.
Qed.

(** On a [0x] hex text [BigNumber.from] is the value of its digits. *)
Lemma BigNumber_from_hex a :
  JS.allChars Hex.isLowerHexChar a = true -> a <> "" ->
  Ethers.BigNumber_from ("0x" ++ a) = inr (Ethers.digitsValue 16 0 a).
Proof.
  intros Ha Hne. unfold Ethers.BigNumber_from, Ethers.isHexNumber,
    Ethers.hexNumberValue.
  change (JS.startsWith ("0x" ++ a) "-") with false. cbv beta iota zeta.
  change (JS.startsWith ("0x" ++ a) "0x") with true.
  change (JS.slice 2 ("0x" ++ a)) with a.
  rewrite (lowerHex_allHex _ Ha).
  destruct a; [contradiction | reflexivity].
Qed.

(** ** BaseMetricsCollector.extractTokenTransfers *)

Lemma extractStep_app keccak256 acc log :
  BaseMetricsCollector.extractStep keccak256 acc log
  = (acc ++ BaseMetricsCollector.extractStep keccak256 [] log)%list.
Proof.
  unfold BaseMetricsCollector.extractStep.
  destruct (_ && _); [|symmetry; apply app_nil_r].
  destruct (BaseMetricsCollector.decodeTransfer keccak256 log);
    [symmetry; apply app_nil_r | reflexivity].
Qed.

Lemma extractLoop_flat_map keccak256 logs :
  forall acc,
    fold_left (BaseMetricsCollector.extractStep keccak256) logs acc
    = (acc ++ flat_map (BaseMetricsCollector.extractStep keccak256 []) logs)%list.
Proof.
  induction logs as [|log rest IH]; intros acc.
  - symmetry. apply app_nil_r.
  - cbn [fold_left flat_map]. rewrite IH, extractStep_app, app_assoc.
    reflexivity.
Qed.

(** The loop appends, log by log, what each log decodes to: the output
    follows the order of the logs. *)
Lemma extractTokenTransfers_flat_map keccak256 receipt :
  BaseMetricsCollector.extractTokenTransfers keccak256 receipt
  = flat_map (BaseMetricsCollector.extractStep keccak256 [])
      (BaseMetricsCollector.logs receipt).
Proof.
  unfold BaseMetricsCollector.extractTokenTransfers.
  apply extractLoop_flat_map.
Qed.

(** A log whose first topic is not the Transfer signature, or that has
    not exactly three topics, contributes no transfer. *)
Lemma extractStep_unrecognized keccak256 log :
  JS.strictEq (nth_error (Ethers.topics log) 0)
    BaseMetricsCollector.transferEventSignature = false
  \/ List.length (Ethers.topics log) <> 3%nat ->
  BaseMetricsCollector.extractStep keccak256 [] log = [].
Proof.
  intros H. unfold BaseMetricsCollector.extractStep.
  destruct H as [-> | H]; [reflexivity|].
  apply Nat.eqb_neq in H. rewrite H, andb_false_r. reflexivity.
Qed.

(** A log whose addresses or data do not parse contributes no transfer:
    the exception is caught. *)
Lemma extractStep_malformed keccak256 log e :
  BaseMetricsCollector.decodeTransfer keccak256 log = inl e ->
  BaseMetricsCollector.extractStep keccak256 [] log = [].
Proof.
  intros H. unfold BaseMetricsCollector.extractStep. rewrite H.
  destruct (_ && _); reflexivity.
Qed.

Lemma slice_word n m a :
  Hex.isWord n a -> (m <= n)%nat -> Hex.isWord (n - m) (JS.slice (2 * m) a).
Proof.
  intros [Ha Hlen] Hm. split.
  - apply slice_allChars, Ha.
  - rewrite slice_length, Hlen. lia.
Qed.

(** What the [try] block computes on a Transfer log in canonical form. *)
Lemma decodeTransfer_canonical keccak256 addr sig w1 w2 wd :
  Hex.isWord 32 w1 -> Hex.isWord 32 w2 -> Hex.isWord 32 wd ->
  BaseMetricsCollector.decodeTransfer keccak256
    (Ethers.mkLog addr [sig; "0x" ++ w1; "0x" ++ w2] ("0x" ++ wd))
  = inr {| BaseMetricsCollector.token := addr;
           BaseMetricsCollector.from :=
             "0x" ++ Ethers.checksumChars (keccak256 (JS.slice 24 w1))
                       (JS.slice 24 w1);
           BaseMetricsCollector.to :=
             "0x" ++ Ethers.checksumChars (keccak256 (JS.slice 24 w2))
                       (JS.slice 24 w2);
           BaseMetricsCollector.amount := Ethers.digitsValue 16 0 wd;
           BaseMetricsCollector.symbol :=
             match JS.Map_get BaseMetricsCollector.knownContracts addr with
             | Some sym => if (sym =? "")%string then "UNKNOWN" else sym
             | None => "UNKNOWN"
             end;
           BaseMetricsCollector.decimals := 18 |}.
Proof.
  intros H1 H2 Hd. unfold BaseMetricsCollector.decodeTransfer.
  cbn [Ethers.topics Ethers.data Ethers.address JS.deref nth_error
       bind ret Monad_either].
  change (JS.slice 26 ("0x" ++ w1)) with (JS.slice (2 * 12) w1).
  change (JS.slice 26 ("0x" ++ w2)) with (JS.slice (2 * 12) w2).
  rewrite (getAddress_lower keccak256 _ (slice_word 32 12 w1 H1 ltac:(lia))).
  rewrite (getAddress_lower keccak256 _ (slice_word 32 12 w2 H2 ltac:(lia))).
  rewrite (BigNumber_from_hex _ (proj1 Hd))
    by (destruct Hd as [_ Hlen]; intros ->; discriminate Hlen).
  reflexivity.
Qed.

Lemma decodeTransfer_decimals keccak256 log t :
  BaseMetricsCollector.decodeTransfer keccak256 log = inr t ->
  BaseMetricsCollector.decimals t = 18.
Proof.
  unfold BaseMetricsCollector.decodeTransfer.
  destruct (JS.deref (Ethers.topics log) 1) as [|t1]; [discriminate|].
  cbn [bind ret Monad_either].
  destruct (Ethers.getAddress _ _) as [|f]; [discriminate|].
  destruct (JS.deref (Ethers.topics log) 2) as [|t2]; [discriminate|].
  destruct (Ethers.getAddress _ _) as [|g]; [discriminate|].
  destruct (Ethers.BigNumber_from _) as [|v]; [discriminate|].
  intros H. injection H as <-. reflexivity.
Qed.

Lemma extractStep_decimals keccak256 log :
  Forall (fun t => BaseMetricsCollector.decimals t = 18)
    (BaseMetricsCollector.extractStep keccak256 [] log).
Proof.
  unfold BaseMetricsCollector.extractStep.
  destruct (_ && _); [|constructor].
  destruct (BaseMetricsCollector.decodeTransfer keccak256 log) as [|t] eqn:E;
    [constructor|].
  repeat constructor. apply (decodeTransfer_decimals _ _ _ E).
Qed.

Lemma extractTokenTransfers_decimals keccak256 receipt :
  Forall (fun t => BaseMetricsCollector.decimals t = 18)
    (BaseMetricsCollector.extractTokenTransfers keccak256 receipt).
Proof.
  rewrite extractTokenTransfers_flat_map.
  induction (BaseMetricsCollector.logs receipt) as [|log rest IH];
    [constructor|].
  cbn [flat_map]. apply Forall_app. split; [apply extractStep_decimals | exact IH].
Qed.

(** C3: a log with topics [transferSig, pad(from), pad(to)] and a 32-byte
    amount as data (hex texts as a provider returns them) decodes to one
    TokenTransfer: its [from] and [to] are bytes 12 to 31 of topics 1 and
    2, its amount is the big-endian unsigned integer of the data bytes. *)
Theorem extractTokenTransfers_transfer :
  forall keccak256 addr w1 w2 wd,
    Hex.isWord 32 w1 -> Hex.isWord 32 w2 -> Hex.isWord 32 wd ->
    exists t b1 b2 bd,
      BaseMetricsCollector.extractTokenTransfers keccak256
        (mkReceipt
           [Ethers.mkLog addr
              [BaseMetricsCollector.transferEventSignature;
               "0x" ++ w1; "0x" ++ w2]
              ("0x" ++ wd)])
      = [t]
      /\ Hex.bytes w1 = Some b1 /\ Hex.bytes w2 = Some b2
      /\ Hex.bytes wd = Some bd
      /\ BaseMetricsCollector.token t = addr
      /\ JS.startsWith (BaseMetricsCollector.from t) "0x" = true
      /\ Hex.bytes (JS.slice 2 (BaseMetricsCollector.from t))
         = Some (skipn 12 b1)
      /\ JS.startsWith (BaseMetricsCollector.to t) "0x" = true
      /\ Hex.bytes (JS.slice 2 (BaseMetricsCollector.to t))
         = Some (skipn 12 b2)
      /\ List.length (skipn 12 b1) = 20%nat
      /\ List.length (skipn 12 b2) = 20%nat
      /\ BaseMetricsCollector.amount t = Hex.bigEndian bd.
Proof.
  intros keccak256 addr w1 w2 wd H1 H2 Hd.
  destruct (bytes_defined _ _ H1) as (b1 & Hb1 & Hn1).
  destruct (bytes_defined _ _ H2) as (b2 & Hb2 & Hn2).
  destruct (bytes_defined _ _ Hd) as (bd & Hbd & _).
  eexists. exists b1, b2, bd.
  rewrite extractTokenTransfers_flat_map.
  cbn [BaseMetricsCollector.logs flat_map].
  unfold BaseMetricsCollector.extractStep.
  rewrite (decodeTransfer_canonical keccak256 addr _ w1 w2 wd H1 H2 Hd).
  cbn [Ethers.topics nth_error List.length JS.strictEq].
  rewrite String.eqb_refl.
  cbn [Nat.eqb andb app].
  split; [reflexivity|].
  cbn [BaseMetricsCollector.token BaseMetricsCollector.from
       BaseMetricsCollector.to BaseMetricsCollector.amount].
  change (JS.slice 2 ("0x" ++ ?x)) with x.
  repeat split; try assumption; try reflexivity.
  - rewrite bytes_checksumChars by apply slice_allChars, (proj1 H1).
    apply (bytes_slice 12), Hb1.
  - rewrite bytes_checksumChars by apply slice_allChars, (proj1 H2).
    apply (bytes_slice 12), Hb2.
  - rewrite length_skipn, Hn1. reflexivity.
  - rewrite length_skipn, Hn2. reflexivity.
  - apply (digitsValue_bytes _ _ 0 Hbd).
Qed.

Lemma extractTokenTransfers_transfer_witness :
  Hex.isWord 32 Fixtures.senderWord
  /\ Hex.isWord 32 Fixtures.routerWord
  /\ Hex.isWord 32 Fixtures.amountWord
  /\ exists t b1 b2 bd,
      BaseMetricsCollector.extractTokenTransfers (fun _ => [])
        (mkReceipt [Fixtures.usdcTransferLog])
      = [t]
      /\ Hex.bytes Fixtures.senderWord = Some b1
      /\ Hex.bytes Fixtures.routerWord = Some b2
      /\ Hex.bytes Fixtures.amountWord = Some bd
      /\ BaseMetricsCollector.token t = Fixtures.usdcAddress
      /\ JS.startsWith (BaseMetricsCollector.from t) "0x" = true
      /\ Hex.bytes (JS.slice 2 (BaseMetricsCollector.from t))
         = Some (skipn 12 b1)
      /\ JS.startsWith (BaseMetricsCollector.to t) "0x" = true
      /\ Hex.bytes (JS.slice 2 (BaseMetricsCollector.to t))
         = Some (skipn 12 b2)
      /\ List.length (skipn 12 b1) = 20%nat
      /\ List.length (skipn 12 b2) = 20%nat
      /\ BaseMetricsCollector.amount t = Hex.bigEndian bd.
Proof.
  assert (H1 : Hex.isWord 32 Fixtures.senderWord) by (split; reflexivity).
  assert (H2 : Hex.isWord 32 Fixtures.routerWord) by (split; reflexivity).
  assert (H3 : Hex.isWord 32 Fixtures.amountWord) by (split; reflexivity).
  repeat (split; [assumption|]).
  exact (extractTokenTransfers_transfer (fun _ => []) Fixtures.usdcAddress
           Fixtures.senderWord Fixtures.routerWord Fixtures.amountWord
           H1 H2 H3).
Defined.

(** The mock log of the test suite decodes to the transfer of 1000000
    units between the two addresses of its topics. *)
Example extractTokenTransfers_usdc_log :
  BaseMetricsCollector.extractTokenTransfers (fun _ => [])
    (mkReceipt [Fixtures.usdcTransferLog])
  = [ {| BaseMetricsCollector.token := Fixtures.usdcAddress;
         BaseMetricsCollector.from := "0x742d35cc6634c0532925a3b8d4c9db96c4b4d8b6";
         BaseMetricsCollector.to := "0x2626664c2603336e57b271c5c0b26f421741e481";
         BaseMetricsCollector.amount := 1000000;
         BaseMetricsCollector.symbol := "USDC";
         BaseMetricsCollector.decimals := 18 |} ].
Proof. vm_compute. reflexivity. Qed.

(** C4: the decimals of a decoded transfer are the constant 18, also for
    a token of the registry: the transfer decoded from a USDC log carries
    18 although the token table records 6 decimals for that address. *)
Theorem extractTokenTransfers_usdc_decimals :
  forall keccak256,
    map BaseMetricsCollector.decimals
      (BaseMetricsCollector.extractTokenTransfers keccak256
         (mkReceipt [Fixtures.usdcTransferLog]))
    = [18]
    /\ option_map BaseNetworkUtils.decimals
         (BaseNetworkUtils.getTokenInfo Fixtures.usdcAddress)
       = Some 6
    /\ forall receipt,
         Forall (fun t => BaseMetricsCollector.decimals t = 18)
           (BaseMetricsCollector.extractTokenTransfers keccak256 receipt).
Proof.
  intros keccak256. split; [|split].
  - rewrite extractTokenTransfers_flat_map.
    cbn [BaseMetricsCollector.logs flat_map].
    unfold BaseMetricsCollector.extractStep, Fixtures.usdcTransferLog.
    rewrite (decodeTransfer_canonical keccak256 _ _
               Fixtures.senderWord Fixtures.routerWord Fixtures.amountWord);
      try (split; reflexivity); try reflexivity.
  - vm_compute. reflexivity.
  - apply extractTokenTransfers_decimals.
Qed.

(** ** BaseNFTAnalyzer.parseNFTLogs *)

(** On a list with a failing element [map] throws, whatever the other
    elements are. *)
Lemma mapThrows_fails {A B : Type} (f : A -> throws B) l a e :
  In a l -> f a = inl e -> exists e', JS.mapThrows f l = inl e'.
Proof.
  induction l as [|x r IH]; intros Hin Hf; [contradiction|].
  cbn [JS.mapThrows bind ret Monad_either].
  destruct (f x) as [ex|b] eqn:Hx; [exists ex; reflexivity|].
  destruct Hin as [->|Hin]; [congruence|].
  destruct (IH Hin Hf) as (e' & ->). exists e'. reflexivity.
Qed.

(** Logs whose first topic is not the Transfer signature are left out
    by the filter. *)
Lemma parseNFTLogs_unrecognized keccak256 logs :
  Forall (fun log =>
            JS.strictEq (nth_error (Ethers.topics log) 0)
              BaseNFTAnalyzer.transferTopic = false) logs ->
  BaseNFTAnalyzer.parseNFTLogs keccak256 logs = inr [].
Proof.
  intros H. unfold BaseNFTAnalyzer.parseNFTLogs.
  induction H as [|log rest Hlog _ IH]; [reflexivity|].
  cbn [filter]. rewrite Hlog. exact IH.
Qed.

(** A receipt containing an ERC-20 Transfer log (the Transfer signature
    and two indexed topics) makes [parseNFTLogs] throw. *)
Lemma parseNFTLogs_throws_on_three_topics keccak256 logs addr t1 t2 d :
  In (Ethers.mkLog addr [BaseNFTAnalyzer.transferTopic; t1; t2] d) logs ->
  exists e, BaseNFTAnalyzer.parseNFTLogs keccak256 logs = inl e.
Proof.
  intros Hin. unfold BaseNFTAnalyzer.parseNFTLogs.
  eapply mapThrows_fails with (e := "invalid BigNumberish value").
  - apply filter_In. split; [exact Hin|].
    cbn [Ethers.topics nth_error JS.strictEq]. apply String.eqb_refl.
  - reflexivity.
Qed.

(** C2: [parseNFTLogs] has no guard on the number of topics and no
    [try]: on a Transfer log with three topics, as every ERC-20 transfer
    emits, reading the token id throws. *)
Theorem parseNFTLogs_three_topics_throws :
  forall keccak256 addr t1 t2 d,
    BaseNFTAnalyzer.parseNFTLogs keccak256
      [Ethers.mkLog addr [BaseNFTAnalyzer.transferTopic; t1; t2] d]
    = inl "invalid BigNumberish value".
Proof.
  intros. unfold BaseNFTAnalyzer.parseNFTLogs.
  cbn [filter Ethers.topics nth_error JS.strictEq].
  rewrite String.eqb_refl. reflexivity.
Qed.

(** ** BaseBridgeAnalyzer.determineBridgeDirection *)

(** When every log has a topic, the scan is the test of the first topics. *)
Lemma someProven_existsb logs :
  Forall (fun log => Ethers.topics log <> []) logs ->
  BaseBridgeAnalyzer.someProven logs
  = inr (existsb (fun log => JS.includes (hd "" (Ethers.topics log)) "Proven")
           logs).
Proof.
  induction 1 as [|log rest Hlog _ IH]; [reflexivity|].
  cbn [BaseBridgeAnalyzer.someProven existsb].
  destruct (Ethers.topics log) as [|t0 ts]; [contradiction|].
  cbn [JS.deref nth_error hd bind ret Monad_either].
  destruct (JS.includes t0 "Proven"); [reflexivity | exact IH].
Qed.

(** What the branches compute: a transaction to the L1 standard bridge is
    a deposit, one to the L2 standard bridge a withdrawal, in any case
    variant of the address; one to the portal is [prove] when the text of
    the first topic of some log contains "Proven" and [finalize] otherwise
    (every log having a topic). *)
Lemma determineBridgeDirection_directions :
  forall to logs,
    (JS.toLowerCase to
     = JS.toLowerCase
         (BaseBridgeAnalyzer.l1StandardBridge BaseBridgeAnalyzer.bridgeContracts) ->
     BaseBridgeAnalyzer.determineBridgeDirection (Some to) logs
     = inr BaseBridgeAnalyzer.deposit)
    /\ (JS.toLowerCase to
        = JS.toLowerCase
            (BaseBridgeAnalyzer.l2StandardBridge BaseBridgeAnalyzer.bridgeContracts) ->
        BaseBridgeAnalyzer.determineBridgeDirection (Some to) logs
        = inr BaseBridgeAnalyzer.withdrawal)
    /\ (JS.toLowerCase to
        = JS.toLowerCase
            (BaseBridgeAnalyzer.optimismPortal BaseBridgeAnalyzer.bridgeContracts) ->
        Forall (fun log => Ethers.topics log <> []) logs ->
        BaseBridgeAnalyzer.determineBridgeDirection (Some to) logs
        = inr (if existsb
                    (fun log => JS.includes (hd "" (Ethers.topics log)) "Proven")
                    logs
               then BaseBridgeAnalyzer.prove
               else BaseBridgeAnalyzer.finalize)).
Proof.
  intros to logs.
  assert (Hne : forall x, JS.toLowerCase to = String "0" x ->
                          (to =? "")%string = false).
  { intros x Hx. destruct to; [discriminate | reflexivity]. }
  unfold BaseBridgeAnalyzer.determineBridgeDirection.
  repeat split.
  - intros H. rewrite (Hne _ H), H. reflexivity.
  - intros H. rewrite (Hne _ H), H. reflexivity.
  - intros H Hlogs. rewrite (Hne _ H), H.
    rewrite (someProven_existsb _ Hlogs). reflexivity.
Qed.

(** A log without topics ahead of any marker makes the scan throw. *)
Example determineBridgeDirection_empty_topics :
  BaseBridgeAnalyzer.determineBridgeDirection
    (Some (BaseBridgeAnalyzer.optimismPortal BaseBridgeAnalyzer.bridgeContracts))
    [Ethers.mkLog "0x00" [] "0x"]
  = inl "TypeError: cannot read properties of undefined".
Proof. reflexivity. Qed.

(** ** The address registry: getContractInfo and detectProtocol *)

(** [getContractInfo] finds every entry of the table under every case
    variant of its address. *)
Lemma getContractInfo_found c a :
  In c BaseNetworkUtils.BASE_CONTRACTS ->
  JS.toLowerCase a = JS.toLowerCase (BaseNetworkUtils.address c) ->
  BaseNetworkUtils.getContractInfo a = Some c.
Proof.
  intros Hin Ha. unfold BaseNetworkUtils.getContractInfo. rewrite Ha.
  cbn [BaseNetworkUtils.BASE_CONTRACTS In] in Hin.
  repeat (destruct Hin as [<- | Hin]; [vm_compute; reflexivity|]).
  contradiction.
Qed.

(** An address that is no case variant of an entry is not found: the
    result is [null]. *)
Lemma getContractInfo_not_found a :
  (forall c, In c BaseNetworkUtils.BASE_CONTRACTS ->
             JS.toLowerCase (BaseNetworkUtils.address c) <> JS.toLowerCase a) ->
  BaseNetworkUtils.getContractInfo a = None.
Proof.
  intros H. unfold BaseNetworkUtils.getContractInfo.
  destruct (find _ _) as [c|] eqn:E; [|reflexivity].
  apply find_some in E as [Hin Heq].
  apply String.eqb_eq in Heq. destruct (H c Hin Heq).
Qed.

Lemma getContractInfo_sound a c :
  BaseNetworkUtils.getContractInfo a = Some c ->
  In c BaseNetworkUtils.BASE_CONTRACTS
  /\ JS.toLowerCase (BaseNetworkUtils.address c) = JS.toLowerCase a.
Proof.
  intros E. apply find_some in E as [Hin Heq].
  split; [exact Hin | apply String.eqb_eq, Heq].
Qed.

Lemma lowerChar_not_upper c : JS.isUpper (JS.lowerChar c) = false.
Proof. each_char c. Qed.

Lemma toLowerCase_no_upper s :
  JS.someChar JS.isUpper (JS.toLowerCase s) = false.
Proof.
  induction s as [|c r IH]; [reflexivity|].
  cbn [JS.toLowerCase JS.someChar]. rewrite lowerChar_not_upper, IH.
  reflexivity.
Qed.

(** A text with an upper-case letter equals no lower-cased text. *)
Lemma eqb_toLowerCase_false t s :
  JS.someChar JS.isUpper t = true -> (t =? JS.toLowerCase s)%string = false.
Proof.
  intros Ht. apply String.eqb_neq. intros ->.
  rewrite toLowerCase_no_upper in Ht. discriminate.
Qed.

(** C6: [detectProtocol] lower-cases the queried address but compares it
    with the table's addresses as written, in checksum case: no address
    is ever found, not even an entry of the table as the table writes it,
    which [getContractInfo] does find. *)
Theorem detectProtocol_finds_nothing :
  let router := "0x2626664c2603336E57B271c5C0b26F421741e481" in
  DeFiProtocolAnalyzer.detectProtocol (Some router) = None
  /\ (exists protocol,
         In ("uniswap-v3", protocol) DeFiProtocolAnalyzer.protocols
         /\ DeFiProtocolAnalyzer.router
              (DeFiProtocolAnalyzer.contractAddresses protocol)
            = Some router)
  /\ option_map BaseNetworkUtils.name (BaseNetworkUtils.getContractInfo router)
     = Some "Uniswap V3 Router"
  /\ forall a, DeFiProtocolAnalyzer.detectProtocol a = None.
Proof.
  cbv zeta. split; [reflexivity|].
  split; [eexists; split; [left; reflexivity | reflexivity]|].
  split; [reflexivity|].
  intros [a|]; [|reflexivity].
  unfold DeFiProtocolAnalyzer.detectProtocol.
  destruct (negb _); [reflexivity|].
  cbn [DeFiProtocolAnalyzer.detectIn DeFiProtocolAnalyzer.protocols
       DeFiProtocolAnalyzer.Object_values DeFiProtocolAnalyzer.contractAddresses
       DeFiProtocolAnalyzer.router DeFiProtocolAnalyzer.factory
       DeFiProtocolAnalyzer.quoter DeFiProtocolAnalyzer.pool app existsb].
  rewrite !eqb_toLowerCase_false by reflexivity.
  reflexivity.
Qed.

(** ** Decimal texts *)

Lemma isDigit_hexDigit c :
  Ethers.isDigit c = true -> exists d, Ethers.hexDigit c = Some d /\ 0 <= d <= 9.
Proof.
  destruct c as [[] [] [] [] [] [] [] []]; intros H; vm_compute in H;
    try discriminate H;
    eexists; (split; [vm_compute; reflexivity | lia]).
Qed.

Lemma hexDigit_nonneg c d : Ethers.hexDigit c = Some d -> 0 <= d.
Proof.
  destruct c as [[] [] [] [] [] [] [] []]; vm_compute; intros H;
    try discriminate H; injection H as <-; discriminate.
Qed.

(** Reading on from [acc] shifts [acc] by the digits read. *)
Lemma digitsValue_acc b s :
  forall acc,
    Ethers.digitsValue b acc s
    = acc * b ^ Z.of_nat (String.length s) + Ethers.digitsValue b 0 s.
Proof.
  induction s as [|c r IH]; intros acc.
  - cbn. lia.
  - cbn [Ethers.digitsValue String.length].
    rewrite IH, (IH (b * 0 + _)), Nat2Z.inj_succ, Z.pow_succ_r by lia.
    ring.
Qed.

Lemma digitsValue_app b s1 s2 :
  forall acc,
    Ethers.digitsValue b acc (s1 ++ s2)
    = Ethers.digitsValue b (Ethers.digitsValue b acc s1) s2.
Proof.
  induction s1 as [|c r IH]; intros acc; [reflexivity|].
  cbn [append Ethers.digitsValue]. apply IH.
Qed.

Lemma digitsValue_nonneg s : 0 <= Ethers.digitsValue 10 0 s.
Proof.
  induction s as [|c r IH]; [cbn; lia|].
  cbn [Ethers.digitsValue]. rewrite digitsValue_acc.
  assert (0 <= match Ethers.hexDigit c with Some d => d | None => 0 end).
  { destruct (Ethers.hexDigit c) eqn:E; [eapply hexDigit_nonneg, E | lia]. }
  assert (0 < 10 ^ Z.of_nat (String.length r)) by (apply Z.pow_pos_nonneg; lia).
  nia.
Qed.

Lemma digitsValue_zeros n s :
  Ethers.digitsValue 10 0 (JS.repeatChar "0" n ++ s)
  = Ethers.digitsValue 10 0 s.
Proof.
  induction n as [|n IH]; [reflexivity|].
  cbn [JS.repeatChar append Ethers.digitsValue]. exact IH.
Qed.

Lemma append_length s1 s2 :
  String.length (s1 ++ s2) = (String.length s1 + String.length s2)%nat.
Proof. induction s1 as [|c r IH]; cbn; [reflexivity | now rewrite IH]. Qed.

Lemma append_allChars p s1 s2 :
  JS.allChars p (s1 ++ s2) = JS.allChars p s1 && JS.allChars p s2.
Proof.
  induction s1 as [|c r IH]; cbn; [reflexivity|].
  now rewrite IH, andb_assoc.
Qed.

Lemma repeatChar_length c n : String.length (JS.repeatChar c n) = n.
Proof. induction n as [|n IH]; cbn; [reflexivity | now rewrite IH]. Qed.

Lemma repeatChar_allChars p c n :
  p c = true -> JS.allChars p (JS.repeatChar c n) = true.
Proof. intros H. induction n as [|n IH]; cbn; [reflexivity | now rewrite H, IH]. Qed.

(** *** The decimal text of a number *)

Lemma string_of_uint_digits d :
  JS.allChars Ethers.isDigit (NilEmpty.string_of_uint d) = true.
Proof. induction d; cbn [NilEmpty.string_of_uint JS.allChars]; auto. Qed.

Lemma string_of_uint_length d :
  String.length (NilEmpty.string_of_uint d) = Decimal.nb_digits d.
Proof. induction d; cbn; congruence. Qed.

Lemma of_uint_acc_value d :
  forall acc,
    Z.pos (Pos.of_uint_acc d acc)
    = Ethers.digitsValue 10 (Z.pos acc) (NilEmpty.string_of_uint d).
Proof.
  induction d; intros acc;
    cbn [Pos.of_uint_acc NilEmpty.string_of_uint Ethers.digitsValue];
    [reflexivity | rewrite IHd; f_equal ..].
  all: vm_compute Ethers.hexDigit; lia.
Qed.

Lemma of_uint_value d :
  Z.of_N (Pos.of_uint d) = Ethers.digitsValue 10 0 (NilEmpty.string_of_uint d).
Proof.
  induction d;
    cbn [Pos.of_uint NilEmpty.string_of_uint Ethers.digitsValue];
    [reflexivity | exact IHd | ..];
    cbn [Z.of_N]; rewrite of_uint_acc_value; reflexivity.
Qed.

Lemma to_uint_normal p : Decimal.unorm (Pos.to_uint p) = Pos.to_uint p.
Proof.
  rewrite <- DecimalPos.Unsigned.to_of, DecimalPos.Unsigned.of_to.
  reflexivity.
Qed.

(** A positive number is at least the power of ten of its digit count
    less one: its text has no leading zero. *)
Lemma to_uint_lower_bound p :
  10 ^ Z.of_nat (Decimal.nb_digits (Pos.to_uint p) - 1) <= Z.pos p.
Proof.
  pose proof (DecimalPos.Unsigned.of_to p) as Hof.
  pose proof (to_uint_normal p) as Hnorm.
  pose proof (DecimalPos.Unsigned.to_uint_nonnil p) as Hnil.
  apply (f_equal Z.of_N) in Hof. cbn [Z.of_N] in Hof.
  destruct (Pos.to_uint p) as [|d|d|d|d|d|d|d|d|d|d] eqn:E;
    [contradiction | ..].
  1: { rewrite DecimalFacts.unorm_D0 in Hnorm.
       assert (Hd : d = Decimal.Nil \/ d <> Decimal.Nil)
         by (destruct d; [left; reflexivity | right; discriminate ..]).
       destruct Hd as [-> | Hd]; [discriminate Hof|].
       pose proof (DecimalFacts.nb_digits_unorm d Hd) as Hle.
       rewrite Hnorm in Hle. cbn [Decimal.nb_digits] in Hle. lia. }
  all: rewrite <- Hof; cbn [Pos.of_uint Z.of_N Decimal.nb_digits];
    rewrite of_uint_acc_value, digitsValue_acc, string_of_uint_length;
    replace (S (Decimal.nb_digits d) - 1)%nat with (Decimal.nb_digits d) by lia;
    pose proof (digitsValue_nonneg (NilEmpty.string_of_uint d));
    assert (0 < 10 ^ Z.of_nat (Decimal.nb_digits d))
      by (apply Z.pow_pos_nonneg; lia);
    nia.
Qed.

Lemma bigintToString_value n :
  0 <= n ->
  Ethers.digitsValue 10 0 (JS.bigintToString n) = n
  /\ JS.allChars Ethers.isDigit (JS.bigintToString n) = true
  /\ JS.bigintToString n <> "".
Proof.
  intros Hn. unfold JS.bigintToString.
  destruct n as [|p|p]; [repeat split; discriminate | | lia].
  cbn [Z.to_int NilEmpty.string_of_int].
  rewrite <- of_uint_value, DecimalPos.Unsigned.of_to.
  repeat split; [apply string_of_uint_digits|].
  intros H. apply (f_equal String.length) in H.
  rewrite string_of_uint_length in H.
  apply (DecimalPos.Unsigned.to_uint_nonnil p).
  destruct (Pos.to_uint p); [reflexivity | discriminate ..].
Qed.

(** A number below [10^k] has at most [k] digits. *)
Lemma bigintToString_length n k :
  0 <= n < 10 ^ Z.of_nat k -> (1 <= k)%nat ->
  (String.length (JS.bigintToString n) <= k)%nat.
Proof.
  intros [Hn Hlt] Hk. unfold JS.bigintToString.
  destruct n as [|p|p]; [exact Hk | | lia].
  cbn [Z.to_int NilEmpty.string_of_int]. rewrite string_of_uint_length.
  pose proof (to_uint_lower_bound p) as Hlow.
  assert (Hpow : 10 ^ Z.of_nat (Decimal.nb_digits (Pos.to_uint p) - 1)
                 < 10 ^ Z.of_nat k) by lia.
  apply Z.pow_lt_mono_r_iff in Hpow; lia.
Qed.

Lemma padZeros_spec n s :
  (String.length s <= n)%nat -> JS.allChars Ethers.isDigit s = true ->
  String.length (Ethers.padZeros n s) = n
  /\ JS.allChars Ethers.isDigit (Ethers.padZeros n s) = true
  /\ Ethers.digitsValue 10 0 (Ethers.padZeros n s)
     = Ethers.digitsValue 10 0 s.
Proof.
  intros Hlen Hs. unfold Ethers.padZeros. repeat split.
  - rewrite append_length, repeatChar_length. lia.
  - rewrite append_allChars, Hs, repeatChar_allChars; reflexivity.
  - apply digitsValue_zeros.
Qed.

(** Cutting the trailing zeros divides the value by a power of ten. *)
Lemma uptoLastNonZero_spec s :
  JS.allChars Ethers.isDigit s = true ->
  let kept := Ethers.uptoLastNonZero s in
  (String.length kept <= String.length s)%nat
  /\ JS.allChars Ethers.isDigit kept = true
  /\ Ethers.digitsValue 10 0 kept
     * 10 ^ Z.of_nat (String.length s - String.length kept)
     = Ethers.digitsValue 10 0 s.
Proof.
  cbv zeta. induction s as [|c r IH]; intros Hs;
    [now repeat split|].
  cbn [JS.allChars] in Hs. apply andb_prop in Hs as [Hc Hr].
  destruct (IH Hr) as (Hlen & Hdig & Hval).
  cbn [Ethers.uptoLastNonZero].
  destruct ((Ethers.uptoLastNonZero r =? "")%string && Ascii.eqb c "0") eqn:E.
  - apply andb_prop in E as [Hempty Hzero].
    apply String.eqb_eq in Hempty. apply Ascii.eqb_eq in Hzero. subst c.
    rewrite Hempty in Hval. cbn [Ethers.digitsValue] in Hval |- *.
    repeat split; try (cbn; lia).
    change (10 * 0 + match Ethers.hexDigit "0" with Some d => d | None => 0 end)
      with 0.
    rewrite <- Hval, !Z.mul_0_l. reflexivity.
  - cbn [String.length JS.allChars Ethers.digitsValue].
    rewrite Hc, Hdig. repeat split; [lia|].
    rewrite digitsValue_acc, (digitsValue_acc 10 r), <- Hval.
    replace (S (String.length r) - S (String.length (Ethers.uptoLastNonZero r)))%nat
      with (String.length r - String.length (Ethers.uptoLastNonZero r))%nat by lia.
    replace (Z.of_nat (String.length r))
      with (Z.of_nat (String.length (Ethers.uptoLastNonZero r))
            + Z.of_nat (String.length r - String.length (Ethers.uptoLastNonZero r)))
      by lia.
    rewrite Z.pow_add_r by lia. ring.
Qed.

Lemma stripTrailingZeros_spec s :
  JS.allChars Ethers.isDigit s = true -> (1 <= String.length s)%nat ->
  let fraction := Ethers.stripTrailingZeros s in
  (1 <= String.length fraction <= String.length s)%nat
  /\ JS.allChars Ethers.isDigit fraction = true
  /\ Ethers.digitsValue 10 0 fraction
     * 10 ^ Z.of_nat (String.length s - String.length fraction)
     = Ethers.digitsValue 10 0 s.
Proof.
  cbv zeta. intros Hs Hlen.
  destruct (uptoLastNonZero_spec s Hs) as (Hle & Hdig & Hval).
  unfold Ethers.stripTrailingZeros.
  destruct (Ethers.uptoLastNonZero s) as [|c k] eqn:E.
  - cbn [String.eqb]. cbn in Hval. rewrite <- Hval.
    repeat split; [cbn; lia | exact Hlen].
  - cbn [String.eqb]. cbn [String.length] in *.
    repeat split; [lia | exact Hle | exact Hdig | exact Hval].
Qed.

(** *** Texts in normal form *)

Lemma uptoLastNonZero_no_trailing_zero s :
  forall p, Ethers.uptoLastNonZero s <> p ++ "0".
Proof.
  induction s as [|c r IH]; intros p; cbn [Ethers.uptoLastNonZero].
  - destruct p; discriminate.
  - destruct ((Ethers.uptoLastNonZero r =? "")%string && Ascii.eqb c "0") eqn:E;
      [destruct p; discriminate|].
    destruct p as [|d p']; cbn [append]; intros H.
    + injection H as Hc Hr. rewrite Hr, Hc in E. discriminate E.
    + injection H as _ Hr. exact (IH _ Hr).
Qed.

Lemma stripTrailingZeros_normal s :
  Ethers.stripTrailingZeros s = "0"
  \/ forall p, Ethers.stripTrailingZeros s <> p ++ "0".
Proof.
  unfold Ethers.stripTrailingZeros.
  destruct (Ethers.uptoLastNonZero s =? "")%string;
    [left; reflexivity | right; apply uptoLastNonZero_no_trailing_zero].
Qed.

Lemma to_uint_no_leading_zero p d : Pos.to_uint p <> Decimal.D0 d.
Proof.
  intros E. pose proof (to_uint_normal p) as Hnorm.
  pose proof (DecimalPos.Unsigned.of_to p) as Hof.
  rewrite E in Hnorm, Hof. rewrite DecimalFacts.unorm_D0 in Hnorm.
  assert (Hd : d = Decimal.Nil \/ d <> Decimal.Nil)
    by (destruct d; [left; reflexivity | right; discriminate ..]).
  destruct Hd as [-> | Hd]; [discriminate Hof|].
  pose proof (DecimalFacts.nb_digits_unorm d Hd) as Hle.
  rewrite Hnorm in Hle. cbn [Decimal.nb_digits] in Hle. lia.
Qed.

Lemma bigintToString_normal n :
  0 <= n ->
  JS.bigintToString n = "0" \/ forall r, JS.bigintToString n <> "0" ++ r.
Proof.
  intros Hn. unfold JS.bigintToString.
  destruct n as [|p|p]; [left; reflexivity | | lia].
  right. intros r. cbn [Z.to_int NilEmpty.string_of_int].
  pose proof (to_uint_no_leading_zero p) as Hz.
  destruct (Pos.to_uint p); cbn [NilEmpty.string_of_uint append];
    try discriminate.
  destruct (Hz _ eq_refl).
Qed.

(** ** GasOptimizer.calculateGasCost *)

(** The text of a non-negative amount of wei: a whole part without
    leading zero, a point and 1 to 18 fraction digits without trailing
    zero, that denote exactly that amount over [10^18]. *)
Lemma FixedNumber_toString_exact wei :
  0 <= wei ->
  exists whole fraction,
    Ethers.FixedNumber_toString wei 18 = whole ++ "." ++ fraction
    /\ whole <> "" /\ JS.allChars Ethers.isDigit whole = true
    /\ JS.allChars Ethers.isDigit fraction = true
    /\ (1 <= String.length fraction <= 18)%nat
    /\ Ethers.digitsValue 10 0 whole * 10 ^ 18
       + Ethers.digitsValue 10 0 fraction
         * 10 ^ Z.of_nat (18 - String.length fraction)
       = wei
    /\ (whole = "0" \/ forall r, whole <> "0" ++ r)
    /\ (fraction = "0" \/ forall p, fraction <> p ++ "0").
Proof.
  intros Hwei. unfold Ethers.FixedNumber_toString.
  change (10 ^ Z.of_nat 18) with (10 ^ 18).
  destruct (Z.ltb_spec wei 0) as [Hneg|_]; [lia|].
  assert (Hq : 0 <= wei / 10 ^ 18) by (apply Z.div_pos; lia).
  assert (Hr : 0 <= wei mod 10 ^ 18 < 10 ^ 18) by (apply Z.mod_pos_bound; lia).
  destruct (bigintToString_value _ Hq) as (Hwv & Hwd & Hwn).
  destruct (bigintToString_value _ (proj1 Hr)) as (Hfv & Hfd & _).
  pose proof (bigintToString_length (wei mod 10 ^ 18) 18 Hr ltac:(lia)) as Hfl.
  destruct (padZeros_spec 18 _ Hfl Hfd) as (Hpl & Hpd & Hpv).
  destruct (stripTrailingZeros_spec _ Hpd ltac:(lia)) as (Hsl & Hsd & Hsv).
  eexists. eexists. split; [reflexivity|].
  rewrite Hpl in Hsl, Hsv. rewrite Hpv, Hfv in Hsv.
  repeat split; try assumption; try lia.
  - rewrite Hwv, Hsv. rewrite (Z.div_mod wei (10 ^ 18)) at 3 by lia. ring.
  - apply bigintToString_normal, Hq.
  - apply stripTrailingZeros_normal.
Qed.

Lemma FixedNumber_toString_denotes wei :
  0 <= wei -> denotesEther (Ethers.FixedNumber_toString wei 18) wei.
Proof.
  intros Hwei.
  destruct (FixedNumber_toString_exact wei Hwei)
    as (whole & fraction & H1 & H2 & H3 & H4 & H5 & H6 & _).
  exists whole, fraction. repeat split; try assumption; apply H5.
Qed.

(** Inside the range of 512 signed bits [formatEther] answers the text. *)
Lemma formatEther_in_range wei :
  - 2 ^ 511 <= wei < 2 ^ 511 ->
  Ethers.formatEther wei = inr (Ethers.FixedNumber_toString wei 18).
Proof.
  intros [Hlo Hhi]. unfold Ethers.formatEther, Ethers.formatUnits. cbv zeta.
  destruct (Z.leb_spec (- 2 ^ 511) wei); [|lia].
  destruct (Z.ltb_spec wei (2 ^ 511)); [reflexivity | lia].
Qed.

(** From [2^511] on it throws. *)
Lemma formatEther_overflow wei :
  2 ^ 511 <= wei -> Ethers.formatEther wei = inl "overflow".
Proof.
  intros Hhi. unfold Ethers.formatEther, Ethers.formatUnits. cbv zeta.
  destruct (Z.ltb_spec wei (2 ^ 511)); [lia|].
  rewrite andb_false_r. reflexivity.
Qed.

(** C9, with the range of [formatEther]: for non-negative [gasUsed] and
    [gasPrice] whose product is below [2^511] the cost is the decimal
    text, a whole part without leading zero and 1 to 18 fraction digits
    without trailing zero, of exactly [gasUsed * gasPrice / 10^18]: no
    digit of the quotient is lost, so the first six fraction digits are
    kept in particular. From a product of [2^511] on there is no cost:
    [formatEther] throws. *)
Theorem calculateGasCost_exact :
  forall gasUsed gasPrice,
    0 <= gasUsed -> 0 <= gasPrice ->
    (gasUsed * gasPrice < 2 ^ 511 ->
     exists whole fraction,
       GasOptimizer.calculateGasCost (GasOptimizer.mkTransaction gasUsed gasPrice)
       = inr (whole ++ "." ++ fraction)
       /\ whole <> "" /\ JS.allChars Ethers.isDigit whole = true
       /\ JS.allChars Ethers.isDigit fraction = true
       /\ (1 <= String.length fraction <= 18)%nat
       /\ Ethers.digitsValue 10 0 whole * 10 ^ 18
          + Ethers.digitsValue 10 0 fraction
            * 10 ^ Z.of_nat (18 - String.length fraction)
          = gasUsed * gasPrice
       /\ (whole = "0" \/ forall r, whole <> "0" ++ r)
       /\ (fraction = "0" \/ forall p, fraction <> p ++ "0"))
    /\ (2 ^ 511 <= gasUsed * gasPrice ->
        GasOptimizer.calculateGasCost (GasOptimizer.mkTransaction gasUsed gasPrice)
        = inl "overflow").
Proof.
  intros gasUsed gasPrice Hu Hp.
  assert (Hwei : 0 <= gasUsed * gasPrice)
    by (apply Z.mul_nonneg_nonneg; assumption).
  unfold GasOptimizer.calculateGasCost.
  cbn [GasOptimizer.gasUsed GasOptimizer.gasPrice]. cbv zeta.
  split; intros Hrange.
  - rewrite formatEther_in_range
      by (split; [pose proof (Z.pow_pos_nonneg 2 511); lia | exact Hrange]).
    destruct (FixedNumber_toString_exact _ Hwei) as (whole & fraction & -> & H).
    exists whole, fraction. split; [reflexivity | exact H].
  - apply formatEther_overflow, Hrange.
Qed.

Lemma calculateGasCost_exact_witness :
  0 <= 21000 /\ 0 <= 20000000000 /\ 21000 * 20000000000 < 2 ^ 511
  /\ exists whole fraction,
      GasOptimizer.calculateGasCost (GasOptimizer.mkTransaction 21000 20000000000)
      = inr (whole ++ "." ++ fraction)
      /\ whole <> "" /\ JS.allChars Ethers.isDigit whole = true
      /\ JS.allChars Ethers.isDigit fraction = true
      /\ (1 <= String.length fraction <= 18)%nat
      /\ Ethers.digitsValue 10 0 whole * 10 ^ 18
         + Ethers.digitsValue 10 0 fraction
           * 10 ^ Z.of_nat (18 - String.length fraction)
         = 21000 * 20000000000
      /\ (whole = "0" \/ forall r, whole <> "0" ++ r)
      /\ (fraction = "0" \/ forall p, fraction <> p ++ "0").
Proof.
  assert (Hrange : 21000 * 20000000000 < 2 ^ 511) by reflexivity.
  split; [lia|]. split; [lia|]. split; [exact Hrange|].
  apply (calculateGasCost_exact 21000 20000000000); [lia | lia | exact Hrange].
Defined.

(** C9 as stated fails: non-negative [gasUsed] and [gasPrice] of product
    [2^511] have no cost, the call throws. *)
Lemma calculateGasCost_overflow :
  0 <= 2 ^ 256 /\ 0 <= 2 ^ 255
  /\ GasOptimizer.calculateGasCost (GasOptimizer.mkTransaction (2 ^ 256) (2 ^ 255))
     = inl "overflow"
  /\ forall text,
       GasOptimizer.calculateGasCost
         (GasOptimizer.mkTransaction (2 ^ 256) (2 ^ 255))
       <> inr text.
Proof.
  assert (H : GasOptimizer.calculateGasCost
                (GasOptimizer.mkTransaction (2 ^ 256) (2 ^ 255))
              = inl "overflow") by (vm_compute; reflexivity).
  split; [apply Z.pow_nonneg; lia|]. split; [apply Z.pow_nonneg; lia|].
  split; [exact H|]. intros text. rewrite H. discriminate.
Qed.

(** The transaction of the test suite: 21000 gas at 20 gwei cost
    0.00042 ETH. *)
Example calculateGasCost_test_suite :
  GasOptimizer.calculateGasCost (GasOptimizer.mkTransaction 21000 20000000000)
  = inr "0.00042".
Proof. vm_compute. reflexivity. Qed.

(** ** DeFiProtocolAnalyzer.getImpermanentLossCalculation *)

(** A finite number divided by itself is 1, exactly. *)
Lemma div_self s m e :
  JS.div (S754_finite s m e) (S754_finite s m e) = JS.literal 1.
Proof.
  unfold JS.div, SFdiv, SFdiv_core_binary.
  replace (Zdigits2 (Z.pos m) + e - (Zdigits2 (Z.pos m) + e)) with 0 by lia.
  replace (e - e) with 0 by lia.
  change (0 - Z.min (fexp JS.prec JS.emax 0) 0) with 53.
  change (Z.min (fexp JS.prec JS.emax 0) 0) with (-53).
  cbv beta iota zeta.
  assert (Hq : Z.shiftl (Z.pos m) 53 / Z.pos m = 2 ^ 53).
  { rewrite Z.shiftl_mul_pow2, Z.mul_comm by lia. apply Z.div_mul. discriminate. }
  assert (Hr : Z.shiftl (Z.pos m) 53 mod Z.pos m = 0).
  { rewrite Z.shiftl_mul_pow2, Z.mul_comm by lia. apply Z.mod_mul. discriminate. }
  unfold Z.div, Z.modulo in Hq, Hr.
  destruct (Z.div_eucl (Z.shiftl (Z.pos m) 53) (Z.pos m)) as [q r].
  cbn [fst snd] in Hq, Hr. subst q r.
  assert (Hloc : new_location (Z.pos m) 0 = loc_Exact).
  { unfold new_location, new_location_even, new_location_odd.
    destruct (Z.even (Z.pos m)); reflexivity. }
  rewrite Hloc. destruct s; vm_compute; reflexivity.
Qed.

(** C7 as the code has it: the result is the formula on the ratio of the
    prices in binary64 arithmetic, for every pair of numbers and never an
    error; it is 0 for equal finite non-zero prices, and [NaN] for an
    entry price of 0. *)
Theorem getImpermanentLossCalculation_formula :
  forall poolAddress,
    (forall entryPrice currentPrice,
        DeFiProtocolAnalyzer.getImpermanentLossCalculation poolAddress
          entryPrice currentPrice
        = inr (DeFiProtocolAnalyzer.impermanentLossFormula
                 (JS.div currentPrice entryPrice)))
    /\ (forall s m e,
           DeFiProtocolAnalyzer.getImpermanentLossCalculation poolAddress
             (S754_finite s m e) (S754_finite s m e)
           = inr (JS.literal 0))
    /\ (forall s currentPrice,
           DeFiProtocolAnalyzer.getImpermanentLossCalculation poolAddress
             (S754_zero s) currentPrice
           = inr S754_nan).
Proof.
  intros poolAddress. split; [reflexivity|]. split.
  - intros s m e.
    unfold DeFiProtocolAnalyzer.getImpermanentLossCalculation.
    rewrite div_self. vm_compute. reflexivity.
  - intros s [sc|sc| |sc mc ec];
      unfold DeFiProtocolAnalyzer.getImpermanentLossCalculation;
      try (destruct s, sc; vm_compute; reflexivity);
      try (destruct s; vm_compute; reflexivity).
Qed.

(** C7 as stated fails: with an entry price below 0 (here -2000, the
    current price being -2500) the call is no error, it returns the loss
    of the ratio 1.25; with an entry price of 0 it returns [NaN]; and for
    the equal prices [Infinity] the result is [NaN], not 0. *)
Lemma getImpermanentLossCalculation_nonpositive_entry :
  let pool := "0x1234567890123456789012345678901234567890" in
  JS.lt (JS.literal (-2000)) (JS.literal 0) = true
  /\ DeFiProtocolAnalyzer.getImpermanentLossCalculation pool
       (JS.literal (-2000)) (JS.literal (-2500))
     = inr (S754_finite false 5577266785819000 (-53))
  /\ (forall e,
         DeFiProtocolAnalyzer.getImpermanentLossCalculation pool
           (JS.literal (-2000)) (JS.literal (-2500))
         <> inl e)
  /\ JS.le (JS.literal 0) (JS.literal 0) = true
  /\ DeFiProtocolAnalyzer.getImpermanentLossCalculation pool
       (JS.literal 0) (JS.literal 2000)
     = inr S754_nan
  /\ JS.lt (JS.literal 0) (S754_infinity false) = true
  /\ DeFiProtocolAnalyzer.getImpermanentLossCalculation pool
       (S754_infinity false) (S754_infinity false)
     = inr S754_nan
  /\ DeFiProtocolAnalyzer.getImpermanentLossCalculation pool
       (S754_infinity false) (S754_infinity false)
     <> inr (JS.literal 0).
Proof.
  cbv zeta. repeat split; try (vm_compute; reflexivity); discriminate.
Qed.

(** The prices of the test suite: no loss at 2000 to 2000, a loss above 0
    and below 100 at 2000 to 2500 and at 2000 to 1500. *)
Example getImpermanentLossCalculation_test_suite :
  let IL e c :=
    match DeFiProtocolAnalyzer.getImpermanentLossCalculation
            "0x1234567890123456789012345678901234567890"
            (JS.literal e) (JS.literal c) with
    | inr v => v
    | inl _ => S754_nan
    end in
  IL 2000 2000 = JS.literal 0
  /\ JS.lt (JS.literal 0) (IL 2000 2500) = true
  /\ JS.lt (IL 2000 2500) (JS.literal 100) = true
  /\ JS.lt (JS.literal 0) (IL 2000 1500) = true.
Proof. repeat split; vm_compute; reflexivity. Qed.

(** ** MetricsComputer.gasEfficiency *)

(** The comparison of the percentage with a threshold, on integers. *)
Lemma usage_threshold (t gasUsed gasLimit : Z) :
  (0 < gasLimit)%Z ->
  Qle_bool (inject_Z t) (inject_Z gasUsed / inject_Z gasLimit * 100)
  = (t * gasLimit <=? 100 * gasUsed)%Z.
Proof.
  intros Hl. destruct gasLimit as [|p|p]; try lia.
  apply eq_true_iff_eq. rewrite Qle_bool_iff, Z.leb_le.
  unfold Qle, Qdiv, Qmult, Qinv, inject_Z. cbn [Qnum Qden].
  rewrite ?Pos.mul_1_r, ?Pos.mul_1_l. lia.
Qed.

Lemma ratingOf_integers gasUsed gasLimit :
  (0 < gasLimit)%Z ->
  MetricsComputer.rating (MetricsComputer.gasEfficiency gasUsed gasLimit)
  = if (90 * gasLimit <=? 100 * gasUsed)%Z then MetricsComputer.Excellent
    else if (70 * gasLimit <=? 100 * gasUsed)%Z then MetricsComputer.Good
    else if (40 * gasLimit <=? 100 * gasUsed)%Z then MetricsComputer.Average
    else MetricsComputer.Poor.
Proof.
  intros Hl. unfold MetricsComputer.gasEfficiency.
  destruct (Z.ltb_spec 0 gasLimit) as [_|]; [|lia].
  cbn [MetricsComputer.rating]. unfold MetricsComputer.ratingOf.
  rewrite <- !(usage_threshold _ gasUsed gasLimit Hl). reflexivity.
Qed.

(** C8: with [gasLimit > 0] the percentage is [gasUsed/gasLimit*100] and
    the rating follows the thresholds 90, 70 and 40; 21000 of 21000 is
    100 percent and Excellent, 5000 of 100000 is 5 percent and Poor. *)
Theorem gasEfficiency_thresholds :
  (forall gasUsed gasLimit,
      (0 < gasLimit)%Z ->
      exists usage,
        MetricsComputer.usagePercentage
          (MetricsComputer.gasEfficiency gasUsed gasLimit) = Some usage
        /\ (usage == inject_Z gasUsed / inject_Z gasLimit * 100)%Q
        /\ MetricsComputer.rating
             (MetricsComputer.gasEfficiency gasUsed gasLimit)
           = (if Qle_bool 90 usage then MetricsComputer.Excellent
              else if Qle_bool 70 usage then MetricsComputer.Good
              else if Qle_bool 40 usage then MetricsComputer.Average
              else MetricsComputer.Poor)
        /\ MetricsComputer.rating
             (MetricsComputer.gasEfficiency gasUsed gasLimit)
           = (if (90 * gasLimit <=? 100 * gasUsed)%Z then MetricsComputer.Excellent
              else if (70 * gasLimit <=? 100 * gasUsed)%Z then MetricsComputer.Good
              else if (40 * gasLimit <=? 100 * gasUsed)%Z then MetricsComputer.Average
              else MetricsComputer.Poor))
  /\ (exists usage,
         MetricsComputer.gasEfficiency 21000 21000
         = MetricsComputer.mkGasEfficiency (Some usage) MetricsComputer.Excellent
         /\ (usage == 100)%Q)
  /\ (exists usage,
         MetricsComputer.gasEfficiency 5000 100000
         = MetricsComputer.mkGasEfficiency (Some usage) MetricsComputer.Poor
         /\ (usage == 5)%Q).
Proof.
  split; [|split].
  - intros gasUsed gasLimit Hl.
    pose proof (ratingOf_integers gasUsed gasLimit Hl) as Hint.
    unfold MetricsComputer.gasEfficiency in *.
    destruct (Z.ltb_spec 0 gasLimit) as [_|]; [|lia].
    eexists. split; [reflexivity|]. split; [reflexivity|].
    split; [reflexivity | exact Hint].
  - eexists. split; reflexivity.
  - eexists. split; reflexivity.
Qed.

Lemma gasEfficiency_thresholds_witness :
  (0 < 200000)%Z
  /\ exists usage,
      MetricsComputer.usagePercentage
        (MetricsComputer.gasEfficiency 150000 200000) = Some usage
      /\ (usage == inject_Z 150000 / inject_Z 200000 * 100)%Q
      /\ MetricsComputer.rating (MetricsComputer.gasEfficiency 150000 200000)
         = (if Qle_bool 90 usage then MetricsComputer.Excellent
            else if Qle_bool 70 usage then MetricsComputer.Good
            else if Qle_bool 40 usage then MetricsComputer.Average
            else MetricsComputer.Poor)
      /\ MetricsComputer.rating (MetricsComputer.gasEfficiency 150000 200000)
         = MetricsComputer.Good.
Proof.
  split; [lia|].
  apply (proj1 gasEfficiency_thresholds 150000 200000). lia.
Defined.

(** * Further properties of the analyzers *)

(** ** BaseMetricsCollector: the decoding loop *)

(** X1: the transfers of a list of logs are those of its parts, in order:
    the loop is one pass that keeps the order of the logs, and yields at
    most one transfer per log. *)
Theorem extractTokenTransfers_app :
  forall keccak256 logs1 logs2,
    BaseMetricsCollector.extractTokenTransfers keccak256
      (mkReceipt (logs1 ++ logs2))
    = (BaseMetricsCollector.extractTokenTransfers keccak256 (mkReceipt logs1)
       ++ BaseMetricsCollector.extractTokenTransfers keccak256 (mkReceipt logs2))%list
    /\ (List.length
          (BaseMetricsCollector.extractTokenTransfers keccak256 (mkReceipt logs1))
        <= List.length logs1)%nat.
Proof.
  intros keccak256 logs1 logs2. rewrite !extractTokenTransfers_flat_map.
  cbn [BaseMetricsCollector.logs]. split; [apply flat_map_app|].
  induction logs1 as [|log rest IH]; [apply Nat.le_refl|].
  cbn [flat_map]. rewrite length_app. cbn [List.length].
  assert (List.length (BaseMetricsCollector.extractStep keccak256 [] log) <= 1)%nat.
  { unfold BaseMetricsCollector.extractStep.
    destruct (_ && _); [|apply Nat.le_0_l].
    destruct (BaseMetricsCollector.decodeTransfer keccak256 log);
      [apply Nat.le_0_l | apply Nat.le_refl]. }
  lia.
Qed.

(** What a transfer that [decodeTransfer] returns is made of. *)
Lemma decodeTransfer_inv keccak256 log t :
  BaseMetricsCollector.decodeTransfer keccak256 log = inr t ->
  exists t1 t2,
    nth_error (Ethers.topics log) 1 = Some t1
    /\ nth_error (Ethers.topics log) 2 = Some t2
    /\ Ethers.getAddress keccak256 ("0x" ++ JS.slice 26 t1)
       = inr (BaseMetricsCollector.from t)
    /\ Ethers.getAddress keccak256 ("0x" ++ JS.slice 26 t2)
       = inr (BaseMetricsCollector.to t)
    /\ Ethers.BigNumber_from (Ethers.data log)
       = inr (BaseMetricsCollector.amount t)
    /\ BaseMetricsCollector.token t = Ethers.address log
    /\ BaseMetricsCollector.symbol t
       = match JS.Map_get BaseMetricsCollector.knownContracts (Ethers.address log) with
         | Some sym => if (sym =? "")%string then "UNKNOWN" else sym
         | None => "UNKNOWN"
         end.
Proof.
  unfold BaseMetricsCollector.decodeTransfer, JS.deref.
  destruct (nth_error (Ethers.topics log) 1) as [t1|]; [|discriminate].
  cbn [bind ret Monad_either].
  destruct (Ethers.getAddress _ _) as [|f] eqn:Ef; [discriminate|].
  destruct (nth_error (Ethers.topics log) 2) as [t2|]; [|discriminate].
  destruct (Ethers.getAddress keccak256 ("0x" ++ JS.slice 26 t2)) as [|g] eqn:Eg;
    [discriminate|].
  destruct (Ethers.BigNumber_from _) as [|v] eqn:Ev; [discriminate|].
  intros H. injection H as <-. exists t1, t2.
  repeat split; assumption.
Qed.

(** A transfer of the result is what [decodeTransfer] returns on a log of
    the receipt that passes the test of the loop. *)
Lemma extractTokenTransfers_from_decode keccak256 receipt t :
  In t (BaseMetricsCollector.extractTokenTransfers keccak256 receipt) ->
  exists log,
    In log (BaseMetricsCollector.logs receipt)
    /\ JS.strictEq (nth_error (Ethers.topics log) 0)
         BaseMetricsCollector.transferEventSignature = true
    /\ List.length (Ethers.topics log) = 3%nat
    /\ BaseMetricsCollector.decodeTransfer keccak256 log = inr t.
Proof.
  intros Hin. rewrite extractTokenTransfers_flat_map in Hin.
  apply in_flat_map in Hin as (log & Hlog & Ht).
  unfold BaseMetricsCollector.extractStep in Ht.
  destruct (JS.strictEq _ _ && _) eqn:Eguard; [|contradiction].
  destruct (BaseMetricsCollector.decodeTransfer keccak256 log) as [|t'] eqn:Ed;
    [contradiction|].
  destruct Ht as [->|[]].
  apply andb_prop in Eguard as [Hsig Hlen]. apply Nat.eqb_eq in Hlen.
  exists log. repeat split; assumption.
Qed.

(** X2: every transfer returned stems from a log of the receipt that has
    the Transfer signature and exactly three topics; its token is the
    address of that log, its parties are the checksummed addresses of
    topics 1 and 2 and its amount is the number of the data. *)
Theorem extractTokenTransfers_sound :
  forall keccak256 receipt t,
    In t (BaseMetricsCollector.extractTokenTransfers keccak256 receipt) ->
    exists log t1 t2,
      In log (BaseMetricsCollector.logs receipt)
      /\ Ethers.topics log
         = [BaseMetricsCollector.transferEventSignature; t1; t2]
      /\ BaseMetricsCollector.token t = Ethers.address log
      /\ Ethers.getAddress keccak256 ("0x" ++ JS.slice 26 t1)
         = inr (BaseMetricsCollector.from t)
      /\ Ethers.getAddress keccak256 ("0x" ++ JS.slice 26 t2)
         = inr (BaseMetricsCollector.to t)
      /\ Ethers.BigNumber_from (Ethers.data log)
         = inr (BaseMetricsCollector.amount t).
Proof.
  intros keccak256 receipt t Hin.
  destruct (extractTokenTransfers_from_decode _ _ _ Hin)
    as (log & Hlog & Hsig & Hlen & Ed).
  destruct (decodeTransfer_inv _ _ _ Ed)
    as (t1 & t2 & H1 & H2 & Hf & Hg & Hv & Htok & _).
  destruct (Ethers.topics log) as [|t0 [|t1' [|t2' [|]]]] eqn:Etopics;
    try discriminate.
  cbn in H1, H2, Hsig. injection H1 as ->. injection H2 as ->.
  apply String.eqb_eq in Hsig. subst t0.
  exists log, t1, t2. rewrite Etopics. repeat split; assumption.
Qed.

Lemma extractTokenTransfers_sound_witness :
  exists log t1 t2,
    In log [Fixtures.usdcTransferLog]
    /\ Ethers.topics log
       = [BaseMetricsCollector.transferEventSignature; t1; t2]
    /\ Fixtures.usdcAddress = Ethers.address log
    /\ Ethers.getAddress (fun _ => []) ("0x" ++ JS.slice 26 t1)
       = inr "0x742d35cc6634c0532925a3b8d4c9db96c4b4d8b6"
    /\ Ethers.getAddress (fun _ => []) ("0x" ++ JS.slice 26 t2)
       = inr "0x2626664c2603336e57b271c5c0b26f421741e481"
    /\ Ethers.BigNumber_from (Ethers.data log) = inr 1000000.
Proof.
  refine (extractTokenTransfers_sound (fun _ => [])
            (mkReceipt [Fixtures.usdcTransferLog])
            {| BaseMetricsCollector.token := Fixtures.usdcAddress;
               BaseMetricsCollector.from := "0x742d35cc6634c0532925a3b8d4c9db96c4b4d8b6";
               BaseMetricsCollector.to := "0x2626664c2603336e57b271c5c0b26f421741e481";
               BaseMetricsCollector.amount := 1000000;
               BaseMetricsCollector.symbol := "USDC";
               BaseMetricsCollector.decimals := 18 |} _).
  vm_compute. left. reflexivity.
Defined.

(** There are no more transfers than logs with the Transfer signature and
    three topics. *)
Lemma extractTokenTransfers_count keccak256 receipt :
  (List.length (BaseMetricsCollector.extractTokenTransfers keccak256 receipt)
   <= List.length
        (filter (fun log =>
                   JS.strictEq (nth_error (Ethers.topics log) 0)
                     BaseMetricsCollector.transferEventSignature
                   && (List.length (Ethers.topics log) =? 3)%nat)
           (BaseMetricsCollector.logs receipt)))%nat.
Proof.
  rewrite extractTokenTransfers_flat_map.
  induction (BaseMetricsCollector.logs receipt) as [|log rest IH];
    [apply Nat.le_refl|].
  cbn [flat_map filter]. rewrite length_app.
  unfold BaseMetricsCollector.extractStep at 1.
  destruct (_ && _); [|exact IH].
  destruct (BaseMetricsCollector.decodeTransfer keccak256 log);
    cbn [List.length app] in *; lia.
Qed.

(** X3: the category of a transaction as [analyzeTransaction] computes it,
    from the transfers extracted of the same receipt. Without logs it is
    TRANSFER or UNKNOWN, by the destination and the value alone; UNKNOWN
    means no log, a destination and no value; DEFI_SWAP needs two logs
    with the Transfer signature and three topics; CONTRACT_INTERACTION
    means logs of which none decodes to a transfer. *)
Theorem categorizeTransaction_of_extracted :
  forall keccak256 tx receipt,
    let transfers :=
      BaseMetricsCollector.extractTokenTransfers keccak256 receipt in
    let c := categorizeTransaction tx receipt transfers in
    (BaseMetricsCollector.logs receipt = [] ->
     c = if negb (JS.truthy (tx_to tx)) || (0 <? tx_value tx)
         then TRANSFER else UNKNOWN)
    /\ (c = UNKNOWN ->
        BaseMetricsCollector.logs receipt = []
        /\ JS.truthy (tx_to tx) = true /\ tx_value tx <= 0)
    /\ (c = DEFI_SWAP ->
        (2 <= List.length
                (filter (fun log =>
                           JS.strictEq (nth_error (Ethers.topics log) 0)
                             BaseMetricsCollector.transferEventSignature
                           && (List.length (Ethers.topics log) =? 3)%nat)
                   (BaseMetricsCollector.logs receipt)))%nat)
    /\ (c = CONTRACT_INTERACTION ->
        BaseMetricsCollector.logs receipt <> [] /\ transfers = []).
Proof.
  intros keccak256 tx receipt. cbv zeta.
  pose proof (extractTokenTransfers_count keccak256 receipt) as Hcount.
  assert (Hnil : BaseMetricsCollector.logs receipt = [] ->
                 BaseMetricsCollector.extractTokenTransfers keccak256 receipt = []).
  { intros E. unfold BaseMetricsCollector.extractTokenTransfers.
    rewrite E. reflexivity. }
  remember (BaseMetricsCollector.extractTokenTransfers keccak256 receipt)
    as transfers eqn:Et.
  remember (filter _ (BaseMetricsCollector.logs receipt)) as matching eqn:Em.
  clear Et Em.
  unfold categorizeTransaction.
  destruct (JS.truthy (tx_to tx)); cbn [negb orb];
    [|repeat split; discriminate].
  destruct (BaseMetricsCollector.logs receipt) as [|log rest].
  - rewrite (Hnil eq_refl). cbn [List.length Nat.eqb Nat.ltb Nat.leb andb].
    rewrite andb_true_r.
    destruct (Z.ltb_spec 0 (tx_value tx)) as [Hv|Hv];
      repeat split; try discriminate; try reflexivity; lia.
  - cbn [List.length Nat.eqb Nat.ltb Nat.leb]. rewrite andb_false_r.
    destruct transfers as [|t1 [|t2 ts]];
      cbn [List.length Nat.ltb Nat.leb Nat.eqb] in *;
      repeat split; try discriminate; try reflexivity; lia.
Qed.

(** ** Addresses: getAddress and isValidAddress *)







Lemma startsWith_0x s :
  JS.startsWith s "0x" = true -> s = "0x" ++ JS.slice 2 s.
Proof.
  destruct s as [|c0 [|c1 r]]; cbn [JS.startsWith]; try discriminate.
  - rewrite andb_false_r. discriminate.
  - intros H. apply andb_prop in H as [H0 H1].
    apply andb_prop in H1 as [H1 _].
    apply Ascii.eqb_eq in H0, H1. subst. reflexivity.
Qed.




(** ** BaseBridgeAnalyzer *)

Lemma someProven_error logs e :
  BaseBridgeAnalyzer.someProven logs = inl e ->
  exists log, In log logs /\ Ethers.topics log = [].
Proof.
  induction logs as [|log rest IH]; [discriminate|].
  cbn [BaseBridgeAnalyzer.someProven]. unfold JS.deref.
  destruct (Ethers.topics log) as [|t0 ts] eqn:Et.
  - intros _. exists log. split; [left; reflexivity | exact Et].
  - cbn [nth_error bind ret Monad_either].
    destruct (JS.includes t0 "Proven"); [discriminate|].
    intros H. destruct (IH H) as (l & Hin & Hl).
    exists l. split; [right; exact Hin | exact Hl].
Qed.

(** X5: [determineBridgeDirection] throws only for a transaction to the
    portal, in any case of the letters, whose receipt has a log without
    topics: the scan for the marker reads [includes] of [undefined]. *)
Theorem determineBridgeDirection_error :
  forall to logs e,
    BaseBridgeAnalyzer.determineBridgeDirection to logs = inl e ->
    (exists a,
        to = Some a
        /\ JS.toLowerCase a
           = JS.toLowerCase
               (BaseBridgeAnalyzer.optimismPortal
                  BaseBridgeAnalyzer.bridgeContracts))
    /\ exists log, In log logs /\ Ethers.topics log = [].
Proof.
  intros to logs e. unfold BaseBridgeAnalyzer.determineBridgeDirection.
  destruct to as [a|]; [|discriminate].
  destruct (a =? "")%string; [discriminate|].
  destruct (JS.toLowerCase a =? _)%string; [discriminate|].
  destruct (JS.toLowerCase a =? _)%string; [discriminate|].
  destruct (JS.toLowerCase a =? _)%string eqn:Ep; [|discriminate].
  apply String.eqb_eq in Ep.
  destruct (BaseBridgeAnalyzer.someProven logs) as [e'|b] eqn:Es;
    [|discriminate].
  intros _. split; [exists a; split; [reflexivity | exact Ep]|].
  apply (someProven_error _ _ Es).
Qed.

Lemma determineBridgeDirection_error_witness :
  (exists a,
      Some "0x49048044D57e1C92A77f79988d21Fa8fAF74E97e" = Some a
      /\ JS.toLowerCase a
         = JS.toLowerCase
             (BaseBridgeAnalyzer.optimismPortal
                BaseBridgeAnalyzer.bridgeContracts))
  /\ exists log, In log [Ethers.mkLog "0x00" [] "0x"] /\ Ethers.topics log = [].
Proof.
  exact (determineBridgeDirection_error
           (Some "0x49048044D57e1C92A77f79988d21Fa8fAF74E97e")
           [Ethers.mkLog "0x00" [] "0x"]
           "TypeError: cannot read properties of undefined" eq_refl).
Defined.

Lemma includes_someChar s :
  JS.includes s "Proven" = true ->
  JS.someChar (fun c => Ascii.eqb "P" c) s = true.
Proof.
  induction s as [|c r IH]; [discriminate|].
  cbn [JS.includes JS.someChar JS.startsWith].
  destruct (Ascii.eqb "P" c); [reflexivity|].
  cbn [andb orb]. exact IH.
Qed.

Lemma hexChar_not_P c :
  Ethers.isHexChar c = true -> Ascii.eqb "P" c = false.
Proof. each_char c. Qed.

Lemma hexString_not_proven t :
  Ethers.isHexString t = true -> JS.includes t "Proven" = false.
Proof.
  intros H. unfold Ethers.isHexString in H.
  apply andb_prop in H as [Hp Hh].
  destruct (JS.includes t "Proven") eqn:E; [|reflexivity].
  apply includes_someChar in E.
  rewrite (startsWith_0x _ Hp) in E. cbn [append JS.someChar] in E.
  change (Ascii.eqb "P" "0") with false in E.
  change (Ascii.eqb "P" "x") with false in E.
  cbn [orb] in E.
  assert (Hno : forall s, JS.allChars Ethers.isHexChar s = true ->
                          JS.someChar (fun c => Ascii.eqb "P" c) s = false).
  { induction s as [|c r IH]; [reflexivity|].
    cbn [JS.allChars JS.someChar]. intros Hs.
    apply andb_prop in Hs as [Hc Hr].
    rewrite (hexChar_not_P _ Hc), (IH Hr). reflexivity. }
  rewrite (Hno _ Hh) in E. discriminate.
Qed.




(** X6: when the first topic of every log is a hex text, as the topics of
    a receipt are, a transaction to the portal is always [finalize]: the
    marker "Proven" is no part of any event signature hash, and [prove] is
    not assigned. *)
Theorem determineBridgeDirection_hex_topics :
  forall a logs,
    JS.toLowerCase a
    = JS.toLowerCase
        (BaseBridgeAnalyzer.optimismPortal BaseBridgeAnalyzer.bridgeContracts) ->
    Forall (fun log =>
              exists t0 rest,
                Ethers.topics log = t0 :: rest
                /\ Ethers.isHexString t0 = true) logs ->
    BaseBridgeAnalyzer.determineBridgeDirection (Some a) logs
    = inr BaseBridgeAnalyzer.finalize.
Proof.
  intros a logs Ha Hlogs.
  assert (Hscan : BaseBridgeAnalyzer.someProven logs = inr false).
  { induction Hlogs as [|log rest (t0 & ts & Et & Hhex) _ IH]; [reflexivity|].
    cbn [BaseBridgeAnalyzer.someProven]. unfold JS.deref. rewrite Et.
    cbn [nth_error bind ret Monad_either].
    rewrite (hexString_not_proven _ Hhex). exact IH. }
  unfold BaseBridgeAnalyzer.determineBridgeDirection.
  assert (Hne : (a =? "")%string = false) by (destruct a; [discriminate | reflexivity]).
  rewrite Hne, Ha, Hscan. reflexivity.
Qed.

Lemma determineBridgeDirection_hex_topics_witness :
  BaseBridgeAnalyzer.determineBridgeDirection
    (Some "0x49048044d57e1c92a77f79988d21fa8faf74e97e")
    [Ethers.mkLog "0x49048044D57e1C92A77f79988d21Fa8fAF74E97e"
       ["0x67a6208cfcc0801d50f6cbe764733f4fddf66ac0b04442061a8a8c0cb6b63f62"]
       "0x"]
  = inr BaseBridgeAnalyzer.finalize.
Proof.
  apply (determineBridgeDirection_hex_topics
           "0x49048044d57e1c92a77f79988d21fa8faf74e97e"); [reflexivity|].
  repeat constructor.
  exists "0x67a6208cfcc0801d50f6cbe764733f4fddf66ac0b04442061a8a8c0cb6b63f62", [].
  split; reflexivity.
Defined.

(** X7: a route exists exactly between two different chains; its
    estimated gas is the sum over its steps, and its estimated time is
    the bridge time of a deposit (from Ethereum) or of a withdrawal (from
    Base). *)
Theorem findOptimalRoute_consistent :
  forall from to token amount,
    (from = to ->
     BaseBridgeAnalyzer.findOptimalRoute from to token amount
     = inl "Invalid bridge route")
    /\ (from <> to ->
        exists route,
          BaseBridgeAnalyzer.findOptimalRoute from to token amount = inr route
          /\ BaseBridgeAnalyzer.route_from route = from
          /\ BaseBridgeAnalyzer.route_to route = to
          /\ BaseBridgeAnalyzer.route_token route = token
          /\ BaseBridgeAnalyzer.route_estimatedGas route
             = fold_right Z.add 0
                 (map BaseBridgeAnalyzer.step_estimatedGas
                    (BaseBridgeAnalyzer.route_steps route))
          /\ BaseBridgeAnalyzer.route_estimatedTime route
             = BaseBridgeAnalyzer.getEstimatedBridgeTime
                 (if BaseBridgeAnalyzer.chain_eqb from BaseBridgeAnalyzer.ethereum
                  then BaseBridgeAnalyzer.deposit
                  else BaseBridgeAnalyzer.withdrawal)).
Proof.
  intros from to token amount. split.
  - intros <-. destruct from; reflexivity.
  - intros Hne. destruct from, to; try contradiction;
      eexists; (split; [reflexivity|]); repeat split.
Qed.

(** X8: a bridge analysis that is not [null] was made from a transaction
    and a receipt that the provider of the source chain returned: its
    direction is the one [determineBridgeDirection] gives for them, its
    target chain is the other chain, its user is the sender and its
    estimated time is the bridge time of its direction. *)
Theorem analyzeBridgeTransaction_some :
  forall l1Provider l2Provider now txHash sourceChain result,
    BaseBridgeAnalyzer.analyzeBridgeTransaction l1Provider l2Provider now
      txHash sourceChain = Some result ->
    let provider :=
      match sourceChain with
      | BaseBridgeAnalyzer.ethereum => l1Provider
      | BaseBridgeAnalyzer.base => l2Provider
      end in
    exists tx receipt,
      BaseBridgeAnalyzer.getTransaction provider txHash = inr (Some tx)
      /\ BaseBridgeAnalyzer.getTransactionReceipt provider txHash
         = inr (Some receipt)
      /\ BaseBridgeAnalyzer.determineBridgeDirection
           (BaseBridgeAnalyzer.tx_to tx)
           (BaseBridgeAnalyzer.receipt_logs receipt)
         = inr (BaseBridgeAnalyzer.bt_direction result)
      /\ BaseBridgeAnalyzer.bt_sourceChain result = sourceChain
      /\ BaseBridgeAnalyzer.bt_targetChain result <> sourceChain
      /\ BaseBridgeAnalyzer.bt_user result = BaseBridgeAnalyzer.tx_from tx
      /\ BaseBridgeAnalyzer.bt_estimatedTime result
         = BaseBridgeAnalyzer.getEstimatedBridgeTime
             (BaseBridgeAnalyzer.bt_direction result).
Proof.
  intros l1 l2 now txHash sourceChain result.
  unfold BaseBridgeAnalyzer.analyzeBridgeTransaction.
  assert (Hp : (if BaseBridgeAnalyzer.chain_eqb sourceChain BaseBridgeAnalyzer.ethereum
                then l1 else l2)
               = match sourceChain with
                 | BaseBridgeAnalyzer.ethereum => l1
                 | BaseBridgeAnalyzer.base => l2
                 end) by (destruct sourceChain; reflexivity).
  rewrite Hp. cbv zeta.
  set (provider := match sourceChain with
                   | BaseBridgeAnalyzer.ethereum => l1
                   | BaseBridgeAnalyzer.base => l2
                   end).
  destruct (BaseBridgeAnalyzer.getTransaction provider txHash) as [|[tx|]];
    cbn [bind ret Monad_either]; try discriminate;
    destruct (BaseBridgeAnalyzer.getTransactionReceipt provider txHash)
      as [|[receipt|]]; cbn [bind ret Monad_either]; try discriminate.
  destruct (BaseBridgeAnalyzer.determineBridgeDirection _ _) as [|direction] eqn:Ed;
    cbn [bind ret Monad_either]; [discriminate|].
  intros H. injection H as <-.
  exists tx, receipt. cbn. repeat split; try assumption.
  destruct sourceChain; discriminate.
Qed.

Lemma analyzeBridgeTransaction_some_witness :
  let provider :=
    BaseBridgeAnalyzer.mkProvider
      (fun _ => inr (Some (BaseBridgeAnalyzer.mkTransaction
                             (Some "0x3154cf16ccdb4c6d922629664174b904d80f2c35")
                             "0x742d35Cc6634C0532925a3b8D4C9db96C4b4d8b6"
                             (Some 20000000000))))
      (fun _ => inr (Some (BaseBridgeAnalyzer.mkReceipt [] 120000))) in
  exists tx receipt,
    BaseBridgeAnalyzer.getTransaction provider "0x12" = inr (Some tx)
    /\ BaseBridgeAnalyzer.getTransactionReceipt provider "0x12"
       = inr (Some receipt)
    /\ BaseBridgeAnalyzer.determineBridgeDirection
         (BaseBridgeAnalyzer.tx_to tx)
         (BaseBridgeAnalyzer.receipt_logs receipt)
       = inr BaseBridgeAnalyzer.deposit
    /\ BaseBridgeAnalyzer.ethereum = BaseBridgeAnalyzer.ethereum
    /\ BaseBridgeAnalyzer.base <> BaseBridgeAnalyzer.ethereum
    /\ "0x742d35Cc6634C0532925a3b8D4C9db96C4b4d8b6"
       = BaseBridgeAnalyzer.tx_from tx
    /\ 3 = BaseBridgeAnalyzer.getEstimatedBridgeTime BaseBridgeAnalyzer.deposit.
Proof.
  cbv zeta.
  set (provider :=
         BaseBridgeAnalyzer.mkProvider
           (fun _ => inr (Some (BaseBridgeAnalyzer.mkTransaction
                                  (Some "0x3154cf16ccdb4c6d922629664174b904d80f2c35")
                                  "0x742d35Cc6634C0532925a3b8D4C9db96C4b4d8b6"
                                  (Some 20000000000))))
           (fun _ => inr (Some (BaseBridgeAnalyzer.mkReceipt [] 120000)))).
  exact (analyzeBridgeTransaction_some provider provider 0 "0x12"
           BaseBridgeAnalyzer.ethereum
           {| BaseBridgeAnalyzer.bt_txHash := "0x12";
              BaseBridgeAnalyzer.bt_direction := BaseBridgeAnalyzer.deposit;
              BaseBridgeAnalyzer.bt_sourceChain := BaseBridgeAnalyzer.ethereum;
              BaseBridgeAnalyzer.bt_targetChain := BaseBridgeAnalyzer.base;
              BaseBridgeAnalyzer.bt_token := BaseBridgeAnalyzer.extractTokenInfo [];
              BaseBridgeAnalyzer.bt_user := "0x742d35Cc6634C0532925a3b8D4C9db96C4b4d8b6";
              BaseBridgeAnalyzer.bt_status := BaseBridgeAnalyzer.finalized;
              BaseBridgeAnalyzer.bt_timestamp := 0;
              BaseBridgeAnalyzer.bt_gasUsed := JS.literal 120000;
              BaseBridgeAnalyzer.bt_gasPrice := JS.literal 20000000000;
              BaseBridgeAnalyzer.bt_bridgeFee := 0;
              BaseBridgeAnalyzer.bt_estimatedTime := 3;
              BaseBridgeAnalyzer.bt_actualTime := None |}
           eq_refl).
Defined.

(** ** BaseNFTAnalyzer *)

Lemma digitsValue_nonneg_from b s :
  0 <= b -> forall acc, 0 <= acc -> 0 <= Ethers.digitsValue b acc s.
Proof.
  intros Hb. induction s as [|c r IH]; intros acc Hacc; [exact Hacc|].
  cbn [Ethers.digitsValue]. apply IH.
  destruct (Ethers.hexDigit c) as [d|] eqn:E;
    [pose proof (hexDigit_nonneg _ _ E) | ]; nia.
Qed.

(** On a [0x] hex text [toBigInt] is the value of its digits. *)
Lemma toBigInt_hex a :
  JS.allChars Hex.isLowerHexChar a = true -> a <> "" ->
  Ethers.toBigInt (Some ("0x" ++ a)) = inr (Ethers.digitsValue 16 0 a).
Proof.
  intros Ha Hne. unfold Ethers.toBigInt, Ethers.isDecimalString,
    Ethers.isHexString.
  change (JS.startsWith ("0x" ++ a) "-") with false. cbv beta iota zeta.
  change (JS.allChars Ethers.isDigit ("0x" ++ a)) with false.
  rewrite andb_false_r.
  change (JS.startsWith ("0x" ++ a) "0x") with true.
  change (JS.slice 2 ("0x" ++ a)) with a.
  rewrite (lowerHex_allHex _ Ha).
  destruct a; [contradiction | reflexivity].
Qed.

(** X9: an ERC-721 Transfer log (the signature, the two parties and the
    token id as topics, hex texts as a provider returns them) is decoded
    to one entry: the address of the log, the parties as bytes 12 to 31 of
    topics 1 and 2, and as token id the decimal text of the big-endian
    integer of topic 3. *)
Theorem parseNFTLogs_erc721 :
  forall keccak256 addr w1 w2 w3 d,
    Hex.isWord 32 w1 -> Hex.isWord 32 w2 -> Hex.isWord 32 w3 ->
    exists n b1 b2 b3,
      BaseNFTAnalyzer.parseNFTLogs keccak256
        [Ethers.mkLog addr
           [BaseNFTAnalyzer.transferTopic; "0x" ++ w1; "0x" ++ w2; "0x" ++ w3]
           d]
      = inr [n]
      /\ Hex.bytes w1 = Some b1 /\ Hex.bytes w2 = Some b2
      /\ Hex.bytes w3 = Some b3
      /\ BaseNFTAnalyzer.address n = addr
      /\ Hex.bytes (JS.slice 2 (BaseNFTAnalyzer.from n)) = Some (skipn 12 b1)
      /\ Hex.bytes (JS.slice 2 (BaseNFTAnalyzer.to n)) = Some (skipn 12 b2)
      /\ JS.allChars Ethers.isDigit (BaseNFTAnalyzer.tokenId n) = true
      /\ Ethers.digitsValue 10 0 (BaseNFTAnalyzer.tokenId n) = Hex.bigEndian b3.
Proof.
  intros keccak256 addr w1 w2 w3 d H1 H2 H3.
  destruct (bytes_defined _ _ H1) as (b1 & Hb1 & _).
  destruct (bytes_defined _ _ H2) as (b2 & Hb2 & _).
  destruct (bytes_defined _ _ H3) as (b3 & Hb3 & _).
  assert (Hid : 0 <= Ethers.digitsValue 16 0 w3)
    by (apply digitsValue_nonneg_from; lia).
  destruct (bigintToString_value _ Hid) as (Hval & Hdig & _).
  eexists. exists b1, b2, b3.
  unfold BaseNFTAnalyzer.parseNFTLogs.
  cbn [filter Ethers.topics nth_error JS.strictEq].
  rewrite String.eqb_refl.
  cbn [JS.mapThrows]. unfold BaseNFTAnalyzer.decodeNFTLog.
  cbn [Ethers.topics Ethers.address nth_error JS.deref bind ret Monad_either].
  rewrite (toBigInt_hex _ (proj1 H3))
    by (destruct H3 as [_ Hlen]; intros ->; discriminate Hlen).
  change (JS.slice 26 ("0x" ++ w1)) with (JS.slice (2 * 12) w1).
  change (JS.slice 26 ("0x" ++ w2)) with (JS.slice (2 * 12) w2).
  rewrite (getAddress_lower keccak256 _ (slice_word 32 12 w1 H1 ltac:(lia))).
  rewrite (getAddress_lower keccak256 _ (slice_word 32 12 w2 H2 ltac:(lia))).
  split; [reflexivity|].
  cbn [BaseNFTAnalyzer.address BaseNFTAnalyzer.from BaseNFTAnalyzer.to
       BaseNFTAnalyzer.tokenId].
  change (JS.slice 2 ("0x" ++ ?x)) with x.
  repeat split; try assumption.
  - rewrite bytes_checksumChars by apply slice_allChars, (proj1 H1).
    apply (bytes_slice 12), Hb1.
  - rewrite bytes_checksumChars by apply slice_allChars, (proj1 H2).
    apply (bytes_slice 12), Hb2.
  - rewrite Hval. apply (digitsValue_bytes _ _ 0 Hb3).
Qed.

Lemma parseNFTLogs_erc721_witness :
  let tokenWord :=
    "000000000000000000000000000000000000000000000000000000000000002a" in
  Hex.isWord 32 Fixtures.senderWord /\ Hex.isWord 32 Fixtures.routerWord
  /\ Hex.isWord 32 tokenWord
  /\ exists n b1 b2 b3,
      BaseNFTAnalyzer.parseNFTLogs (fun _ => [])
        [Ethers.mkLog "0x1234567890123456789012345678901234567890"
           [BaseNFTAnalyzer.transferTopic; "0x" ++ Fixtures.senderWord;
            "0x" ++ Fixtures.routerWord; "0x" ++ tokenWord]
           "0x"]
      = inr [n]
      /\ Hex.bytes Fixtures.senderWord = Some b1
      /\ Hex.bytes Fixtures.routerWord = Some b2
      /\ Hex.bytes tokenWord = Some b3
      /\ BaseNFTAnalyzer.address n = "0x1234567890123456789012345678901234567890"
      /\ Hex.bytes (JS.slice 2 (BaseNFTAnalyzer.from n)) = Some (skipn 12 b1)
      /\ Hex.bytes (JS.slice 2 (BaseNFTAnalyzer.to n)) = Some (skipn 12 b2)
      /\ JS.allChars Ethers.isDigit (BaseNFTAnalyzer.tokenId n) = true
      /\ Ethers.digitsValue 10 0 (BaseNFTAnalyzer.tokenId n) = Hex.bigEndian b3.
Proof.
  cbv zeta.
  assert (H1 : Hex.isWord 32 Fixtures.senderWord) by (split; reflexivity).
  assert (H2 : Hex.isWord 32 Fixtures.routerWord) by (split; reflexivity).
  assert (H3 : Hex.isWord 32
                 "000000000000000000000000000000000000000000000000000000000000002a")
    by (split; reflexivity).
  repeat (split; [assumption|]).
  exact (parseNFTLogs_erc721 (fun _ => [])
           "0x1234567890123456789012345678901234567890" _ _ _ "0x" H1 H2 H3).
Defined.

(** The token id of a decoded log with topic 3 = 42. *)
Example parseNFTLogs_token_42 :
  option_map (map BaseNFTAnalyzer.tokenId)
    match BaseNFTAnalyzer.parseNFTLogs (fun _ => [])
            [Ethers.mkLog "0x1234567890123456789012345678901234567890"
               [BaseNFTAnalyzer.transferTopic; "0x" ++ Fixtures.senderWord;
                "0x" ++ Fixtures.routerWord;
                "0x000000000000000000000000000000000000000000000000000000000000002a"]
               "0x"] with
    | inr r => Some r
    | inl _ => None
    end
  = Some ["42"].
Proof. vm_compute. reflexivity. Qed.

Lemma mapThrows_inr {A B : Type} (f : A -> throws B) l r :
  JS.mapThrows f l = inr r -> Forall2 (fun a b => f a = inr b) l r.
Proof.
  revert r. induction l as [|a l IH]; intros r.
  - cbn. intros H. injection H as <-. constructor.
  - cbn [JS.mapThrows bind ret Monad_either].
    destruct (f a) as [|b] eqn:Ea; [discriminate|].
    destruct (JS.mapThrows f l) as [|bs]; [discriminate|].
    intros H. injection H as <-. constructor; [exact Ea | apply IH; reflexivity].
Qed.

Lemma decodeNFTLog_inv keccak256 log n :
  BaseNFTAnalyzer.decodeNFTLog keccak256 log = inr n ->
  (4 <= List.length (Ethers.topics log))%nat
  /\ BaseNFTAnalyzer.address n = Ethers.address log.
Proof.
  unfold BaseNFTAnalyzer.decodeNFTLog, Ethers.toBigInt.
  destruct (nth_error (Ethers.topics log) 3) as [t3|] eqn:E3; [|discriminate].
  intros H. split.
  - pose proof (proj1 (nth_error_Some (Ethers.topics log) 3)) as Hs.
    rewrite E3 in Hs. specialize (Hs ltac:(discriminate)). lia.
  - revert H.
    destruct (if Ethers.isDecimalString t3 then _ else _) as [|id];
      [discriminate|].
    cbn [bind ret Monad_either].
    destruct (JS.deref (Ethers.topics log) 1) as [|t1]; [discriminate|].
    cbn [bind ret Monad_either].
    destruct (Ethers.getAddress _ _) as [|f]; [discriminate|].
    destruct (JS.deref (Ethers.topics log) 2) as [|t2]; [discriminate|].
    cbn [bind ret Monad_either].
    destruct (Ethers.getAddress _ _) as [|g]; [discriminate|].
    intros H. injection H as <-. reflexivity.
Qed.

(** X10: when [parseNFTLogs] returns, every log of the receipt with the
    Transfer signature has at least four topics, and the result has one
    entry per such log, in their order, with the log's address. *)
Theorem parseNFTLogs_inv :
  forall keccak256 logs result,
    BaseNFTAnalyzer.parseNFTLogs keccak256 logs = inr result ->
    let transfers :=
      filter (fun log => JS.strictEq (nth_error (Ethers.topics log) 0)
                           BaseNFTAnalyzer.transferTopic) logs in
    Forall (fun log => (4 <= List.length (Ethers.topics log))%nat) transfers
    /\ map BaseNFTAnalyzer.address result = map Ethers.address transfers.
Proof.
  intros keccak256 logs result H. cbv zeta.
  unfold BaseNFTAnalyzer.parseNFTLogs in H.
  apply mapThrows_inr in H.
  induction H as [|log n l r Hd _ IH]; [split; [constructor | reflexivity]|].
  destruct IH as [IH1 IH2].
  destruct (decodeNFTLog_inv _ _ _ Hd) as [Hlen Haddr].
  split; [constructor; assumption|].
  cbn [map]. rewrite Haddr, IH2. reflexivity.
Qed.

Lemma parseNFTLogs_inv_witness :
  let logs :=
    [Ethers.mkLog "0x1234567890123456789012345678901234567890"
       [BaseNFTAnalyzer.transferTopic; "0x" ++ Fixtures.senderWord;
        "0x" ++ Fixtures.routerWord;
        "0x000000000000000000000000000000000000000000000000000000000000002a"]
       "0x";
     Ethers.mkLog "0x4200000000000000000000000000000000000006"
       ["0x1c411e9a96e071241c2f21f7726b17ae89e3cab4c78be50e062b03a9fffbbad1"]
       "0x"] in
  exists result,
    BaseNFTAnalyzer.parseNFTLogs (fun _ => []) logs = inr result
    /\ map BaseNFTAnalyzer.address result
       = ["0x1234567890123456789012345678901234567890"].
Proof.
  intros logs.
  destruct (BaseNFTAnalyzer.parseNFTLogs (fun _ => []) logs) as [e|result]
    eqn:E; [vm_compute in E; discriminate|].
  exists result. split; [reflexivity|].
  rewrite (proj2 (parseNFTLogs_inv _ _ _ E)). reflexivity.
Defined.

(** A Transfer-signature log with fewer than four topics makes the
    decoding throw: [ethers.toBigInt(undefined)]. *)
Lemma parseNFTLogs_throws_on_short_log keccak256 logs log :
  In log logs ->
  JS.strictEq (nth_error (Ethers.topics log) 0) BaseNFTAnalyzer.transferTopic
    = true ->
  (List.length (Ethers.topics log) < 4)%nat ->
  exists e, BaseNFTAnalyzer.parseNFTLogs keccak256 logs = inl e.
Proof.
  intros Hin Hsig Hlen. unfold BaseNFTAnalyzer.parseNFTLogs.
  eapply mapThrows_fails with (a := log) (e := "invalid BigNumberish value").
  - apply filter_In. split; assumption.
  - unfold BaseNFTAnalyzer.decodeNFTLog.
    replace (nth_error (Ethers.topics log) 3) with (@None string)
      by (symmetry; apply nth_error_None; lia).
    reflexivity.
Qed.

(** X11: one Transfer-signature log with fewer than four topics anywhere
    in the receipt, as every ERC-20 transfer emits, and
    [analyzeNFTTransaction] answers [null], whatever the other logs, the
    transaction and the provider's answers are. *)
Theorem analyzeNFTTransaction_short_log :
  forall keccak256 txHash getTransaction receipt now log,
    In log (BaseNFTAnalyzer.receipt_logs receipt) ->
    JS.strictEq (nth_error (Ethers.topics log) 0) BaseNFTAnalyzer.transferTopic
      = true ->
    (List.length (Ethers.topics log) < 4)%nat ->
    BaseNFTAnalyzer.analyzeNFTTransaction keccak256 txHash getTransaction
      (inr (Some receipt)) now = None.
Proof.
  intros keccak256 txHash getTransaction receipt now log Hin Hsig Hlen.
  destruct (parseNFTLogs_throws_on_short_log keccak256 _ _ Hin Hsig Hlen)
    as (e & He).
  unfold BaseNFTAnalyzer.analyzeNFTTransaction.
  destruct getTransaction as [err|[tx|]]; cbn [bind ret Monad_either];
    try reflexivity.
  rewrite He. reflexivity.
Qed.

Lemma analyzeNFTTransaction_short_log_witness :
  let erc20 :=
    Ethers.mkLog Fixtures.usdcAddress
      [BaseNFTAnalyzer.transferTopic; "0x" ++ Fixtures.senderWord;
       "0x" ++ Fixtures.routerWord]
      "0x00000000000000000000000000000000000000000000000000000000000f4240" in
  let erc721 :=
    Ethers.mkLog "0x1234567890123456789012345678901234567890"
      [BaseNFTAnalyzer.transferTopic; "0x" ++ Fixtures.senderWord;
       "0x" ++ Fixtures.routerWord;
       "0x000000000000000000000000000000000000000000000000000000000000002a"]
      "0x" in
  BaseNFTAnalyzer.analyzeNFTTransaction (fun _ => []) "0x12"
    (inr (Some (BaseNFTAnalyzer.mkTransaction None (Some 1))))
    (inr (Some (BaseNFTAnalyzer.mkReceipt [erc721; erc20] 21000))) 0 = None.
Proof.
  cbv zeta.
  refine (analyzeNFTTransaction_short_log (fun _ => []) "0x12" _
            (BaseNFTAnalyzer.mkReceipt _ 21000) 0 _ _ _ _).
  - right. left. reflexivity.
  - reflexivity.
  - cbn. lia.
Defined.

(** X12: [detectMarketplace] answers a marketplace exactly when the
    destination is a case variant of that marketplace's address; for a
    contract creation ([null]) and for every other address it answers
    [null]. *)
Theorem detectMarketplace_spec :
  forall contractAddress m,
    BaseNFTAnalyzer.detectMarketplace contractAddress = Some m
    <-> exists a,
          contractAddress = Some a
          /\ In m (map snd BaseNFTAnalyzer.marketplaces)
          /\ JS.toLowerCase (BaseNFTAnalyzer.mp_address m) = JS.toLowerCase a.
Proof.
  intros contractAddress m. unfold BaseNFTAnalyzer.detectMarketplace. split.
  - destruct contractAddress as [a|];
      [|destruct (negb _); discriminate].
    destruct (negb (JS.truthy (Some a))); [discriminate|].
    intros E. apply find_some in E as [Hin Heq].
    exists a. repeat split; [exact Hin | apply String.eqb_eq, Heq].
  - intros (a & -> & Hin & Heq).
    assert (Ht : JS.truthy (Some a) = true).
    { destruct a as [|c r]; [|reflexivity].
      cbn in Hin. destruct Hin as [<-|[<-|[<-|[]]]]; discriminate Heq. }
    rewrite Ht. cbn [negb]. rewrite <- Heq.
    cbn in Hin. destruct Hin as [<-|[<-|[<-|[]]]]; vm_compute; reflexivity.
Qed.

(** X13: a non-[null] answer of [analyzeNFTTransaction] describes the
    first Transfer-signature log of the receipt; it is a [sale] exactly
    when the transaction's destination is a marketplace, and a [transfer]
    otherwise; the price is always [undefined] and the currency [ETH]. *)
Theorem analyzeNFTTransaction_some :
  forall keccak256 txHash getTransaction getTransactionReceipt now result,
    BaseNFTAnalyzer.analyzeNFTTransaction keccak256 txHash getTransaction
      getTransactionReceipt now = Some result ->
    exists tx receipt primaryLog rest,
      getTransaction = inr (Some tx)
      /\ getTransactionReceipt = inr (Some receipt)
      /\ BaseNFTAnalyzer.parseNFTLogs keccak256
           (BaseNFTAnalyzer.receipt_logs receipt) = inr (primaryLog :: rest)
      /\ BaseNFTAnalyzer.nft_txHash result = txHash
      /\ BaseNFTAnalyzer.nft_collection result
         = BaseNFTAnalyzer.address primaryLog
      /\ BaseNFTAnalyzer.nft_tokenId result = BaseNFTAnalyzer.tokenId primaryLog
      /\ BaseNFTAnalyzer.nft_from result = BaseNFTAnalyzer.from primaryLog
      /\ BaseNFTAnalyzer.nft_to result = BaseNFTAnalyzer.to primaryLog
      /\ BaseNFTAnalyzer.nft_marketplace result
         = option_map BaseNFTAnalyzer.mp_name
             (BaseNFTAnalyzer.detectMarketplace (BaseNFTAnalyzer.tx_to tx))
      /\ BaseNFTAnalyzer.nft_type result
         = match BaseNFTAnalyzer.detectMarketplace (BaseNFTAnalyzer.tx_to tx)
           with
           | Some _ => BaseNFTAnalyzer.sale
           | None => BaseNFTAnalyzer.transfer
           end
      /\ BaseNFTAnalyzer.nft_price result = None
      /\ BaseNFTAnalyzer.nft_currency result = Some "ETH".
Proof.
  intros keccak256 txHash getTransaction getTransactionReceipt now result.
  unfold BaseNFTAnalyzer.analyzeNFTTransaction.
  destruct getTransaction as [e|[tx|]];
    destruct getTransactionReceipt as [e'|[receipt|]];
    cbn [bind ret Monad_either]; try discriminate.
  destruct (BaseNFTAnalyzer.parseNFTLogs keccak256 _) as [e|[|primaryLog rest]]
    eqn:Ep; try discriminate.
  intros H. injection H as <-.
  exists tx, receipt, primaryLog, rest.
  cbn [BaseNFTAnalyzer.nft_txHash BaseNFTAnalyzer.nft_collection
       BaseNFTAnalyzer.nft_tokenId BaseNFTAnalyzer.nft_from
       BaseNFTAnalyzer.nft_to BaseNFTAnalyzer.nft_marketplace
       BaseNFTAnalyzer.nft_type BaseNFTAnalyzer.nft_price
       BaseNFTAnalyzer.nft_currency].
  repeat split; exact Ep.
Qed.

Lemma analyzeNFTTransaction_some_witness :
  let erc721 :=
    Ethers.mkLog "0x1234567890123456789012345678901234567890"
      [BaseNFTAnalyzer.transferTopic; "0x" ++ Fixtures.senderWord;
       "0x" ++ Fixtures.routerWord;
       "0x000000000000000000000000000000000000000000000000000000000000002a"]
      "0x" in
  let getTransaction :=
    inr (Some (BaseNFTAnalyzer.mkTransaction
                 (Some "0x00000000000000adc04c56bf30ac9d3c0aaf14dc") (Some 1))) in
  let getTransactionReceipt :=
    inr (Some (BaseNFTAnalyzer.mkReceipt [erc721] 21000)) in
  exists result,
    BaseNFTAnalyzer.analyzeNFTTransaction (fun _ => []) "0x12" getTransaction
      getTransactionReceipt 0 = Some result
    /\ BaseNFTAnalyzer.nft_type result = BaseNFTAnalyzer.sale
    /\ BaseNFTAnalyzer.nft_marketplace result = Some "OpenSea"
    /\ BaseNFTAnalyzer.nft_tokenId result = "42".
Proof.
  intros erc721 getTransaction getTransactionReceipt.
  destruct (BaseNFTAnalyzer.analyzeNFTTransaction _ _ _ _ _) as [result|]
    eqn:E; [|vm_compute in E; discriminate].
  exists result. split; [reflexivity|].
  destruct (analyzeNFTTransaction_some _ _ _ _ _ _ E)
    as (tx & receipt & primaryLog & rest & Ht & Hr & Hp & _ & _ & Hid & _ & _
        & Hm & Hty & _).
  injection Ht as <-. injection Hr as <-.
  vm_compute in Hp. injection Hp as <- <-.
  rewrite Hty, Hm, Hid. repeat split.
Defined.

(** ** BaseNetworkUtils: the lookups *)

Lemma existsb_find {A : Type} (p : A -> bool) l :
  existsb p l = match find p l with Some _ => true | None => false end.
Proof.
  induction l as [|x r IH]; [reflexivity|].
  cbn [existsb find]. destruct (p x); [reflexivity | exact IH].
Qed.

(** X14: [getContractInfo] answers exactly the entry of [BASE_CONTRACTS]
    whose address is the queried one up to the case of its letters, and
    [isKnownContract] is true exactly when [getContractInfo] answers an
    entry. *)
Theorem getContractInfo_spec :
  forall a,
    (forall c,
       BaseNetworkUtils.getContractInfo a = Some c
       <-> In c BaseNetworkUtils.BASE_CONTRACTS
           /\ JS.toLowerCase (BaseNetworkUtils.address c) = JS.toLowerCase a)
    /\ (BaseNetworkUtils.isKnownContract a = true
        <-> exists c, BaseNetworkUtils.getContractInfo a = Some c).
Proof.
  intros a. split.
  - intros c. split; [apply getContractInfo_sound|].
    intros [Hin Heq]. apply getContractInfo_found; [exact Hin | now symmetry].
  - unfold BaseNetworkUtils.isKnownContract, BaseNetworkUtils.getContractInfo.
    rewrite existsb_find.
    destruct (find _ _) as [c|]; split; intros H;
      [exists c; reflexivity | reflexivity | discriminate
      | destruct H as (c & H); discriminate].
Qed.

(** X15: [getTokenInfo] answers exactly the token of [BASE_TOKENS] whose
    address or whose symbol is the queried text up to the case of its
    letters. *)
Theorem getTokenInfo_spec :
  forall addressOrSymbol t,
    BaseNetworkUtils.getTokenInfo addressOrSymbol = Some t
    <-> In t BaseNetworkUtils.BASE_TOKENS
        /\ (JS.toLowerCase (BaseNetworkUtils.token_address t)
              = JS.toLowerCase addressOrSymbol
            \/ JS.toLowerCase (BaseNetworkUtils.symbol t)
                 = JS.toLowerCase addressOrSymbol).
Proof.
  intros q t. unfold BaseNetworkUtils.getTokenInfo. cbv zeta. split.
  - intros E. apply find_some in E as [Hin Heq]. split; [exact Hin|].
    apply orb_true_iff in Heq. destruct Heq as [H|H];
      [left | right]; apply String.eqb_eq, H.
  - intros [Hin [H|H]]; rewrite <- H;
      cbn [BaseNetworkUtils.BASE_TOKENS In] in Hin;
      repeat (destruct Hin as [<- | Hin]; [vm_compute; reflexivity|]);
      contradiction.
Qed.

(** ** BaseMetricsCollector: the network metrics and their cache *)

Lemma Map_get_set_same {V : Type} (m : list (string * V)) k v :
  JS.Map_get (JS.Map_set m k v) k = Some v.
Proof.
  induction m as [|[k' v'] r IH]; cbn [JS.Map_set JS.Map_get].
  - rewrite String.eqb_refl. reflexivity.
  - destruct (k' =? k)%string eqn:E; cbn [JS.Map_get].
    + rewrite String.eqb_refl. reflexivity.
    + rewrite E. exact IH.
Qed.

Lemma Map_get_set_other {V : Type} (m : list (string * V)) k k' v :
  k <> k' -> JS.Map_get (JS.Map_set m k v) k' = JS.Map_get m k'.
Proof.
  intros Hne. induction m as [|[k0 v0] r IH]; cbn [JS.Map_set JS.Map_get].
  - destruct (String.eqb_spec k k'); [contradiction | reflexivity].
  - destruct (String.eqb_spec k0 k) as [->|Hk]; cbn [JS.Map_get].
    + destruct (String.eqb_spec k k'); [contradiction | reflexivity].
    + destruct (k0 =? k')%string; [reflexivity | exact IH].
Qed.

Lemma Set_add_In s x a : In a (JS.Set_add s x) <-> In a s \/ a = x.
Proof.
  unfold JS.Set_add. destruct (existsb (String.eqb x) s) eqn:E.
  - split; [tauto|]. intros [H| ->]; [exact H|].
    apply existsb_exists in E as (y & Hy & Hxy).
    apply String.eqb_eq in Hxy. subst y. exact Hy.
  - rewrite in_app_iff. cbn [In]. intuition congruence.
Qed.

Lemma Set_add_NoDup s x : NoDup s -> NoDup (JS.Set_add s x).
Proof.
  intros Hs. unfold JS.Set_add. destruct (existsb (String.eqb x) s) eqn:E;
    [exact Hs|].
  apply NoDup_app; [exact Hs | repeat constructor; intros [] | ].
  intros a Ha [<-|[]].
  assert (existsb (String.eqb x) s = true)
    by (apply existsb_exists; exists x; split; [exact Ha | apply String.eqb_refl]).
  congruence.
Qed.

Lemma networkStep_spec acc tx :
  NoDup (uniqueAddresses acc) ->
  NoDup (uniqueAddresses (networkStep acc tx))
  /\ (forall a, In a (uniqueAddresses (networkStep acc tx))
                <-> In a (uniqueAddresses acc) \/ addressOf tx a)
  /\ totalValue (networkStep acc tx) = totalValue acc + btx_value tx
  /\ totalGasPrice (networkStep acc tx)
     = totalGasPrice acc + match btx_gasPrice tx with Some g => g | None => 0 end.
Proof.
  intros Hnd. unfold networkStep, addressOf.
  cbn [uniqueAddresses totalValue totalGasPrice].
  repeat split; try reflexivity.
  - destruct (btx_to tx) as [[|c r]|]; cbn [JS.truthy String.eqb negb];
      repeat apply Set_add_NoDup; exact Hnd.
  - destruct (btx_to tx) as [[|c r]|]; cbn [JS.truthy String.eqb negb];
      rewrite ?Set_add_In; try tauto.
    intros [[H|H]| ->]; [tauto | tauto | ].
    right. right. split; [reflexivity | discriminate].
  - destruct (btx_to tx) as [[|c r]|]; cbn [JS.truthy String.eqb negb];
      rewrite ?Set_add_In; intros [H|[H|[H1 H2]]]; try tauto;
      try discriminate; injection H1 as <-; tauto.
Qed.

Lemma networkLoop_spec txs : forall acc,
  NoDup (uniqueAddresses acc) ->
  let totals := fold_left networkStep txs acc in
  NoDup (uniqueAddresses totals)
  /\ (forall a, In a (uniqueAddresses totals)
                <-> In a (uniqueAddresses acc)
                    \/ exists tx, In tx txs /\ addressOf tx a)
  /\ totalValue totals = totalValue acc + fold_right Z.add 0 (map btx_value txs)
  /\ totalGasPrice totals
     = totalGasPrice acc
       + fold_right Z.add 0
           (map (fun tx => match btx_gasPrice tx with Some g => g | None => 0 end)
              txs).
Proof.
  cbv zeta. induction txs as [|tx r IH]; intros acc Hnd; cbn [fold_left map fold_right].
  - repeat split; try lia; [exact Hnd | tauto | ].
    intros [H|(tx & [] & _)]. exact H.
  - destruct (networkStep_spec acc tx Hnd) as (Hnd' & Hin' & Hv' & Hg').
    destruct (IH _ Hnd') as (Hnd'' & Hin'' & Hv'' & Hg'').
    repeat split; [exact Hnd'' | | | lia | lia].
    + intros H. apply Hin'' in H. destruct H as [H|(t & Ht & Ha)].
      * apply Hin' in H. destruct H as [H|H]; [left; exact H|].
        right. exists tx. split; [left; reflexivity | exact H].
      * right. exists t. split; [right; exact Ht | exact Ha].
    + intros H. apply Hin''. destruct H as [H|(t & [<-|Ht] & Ha)].
      * left. apply Hin'. left. exact H.
      * left. apply Hin'. right. exact Ha.
      * right. exists t. split; assumption.
Qed.

(** X16: on a cache miss with an answering provider the metrics are
    stored under the block's key and count the block as follows:
    [gasUsed] is 0 whatever the block holds ([totalGasUsed] is never
    added to), [transactionCount] is the number of transactions,
    [totalValue] the sum of their values, [avgGasPrice] the sum of the gas
    prices (0 for a missing one) divided by the count, truncated, or 0
    for an empty block, and [uniqueAddresses] the number of distinct
    senders and destinations. *)
Theorem collectNetworkMetrics_miss :
  forall getBlockWithTransactions blockNumber metricsCache block,
    JS.Map_get metricsCache ("network_" ++ JS.bigintToString blockNumber) = None ->
    getBlockWithTransactions blockNumber = inr block ->
    let txs := block_transactions block in
    let gasPrices :=
      map (fun tx => match btx_gasPrice tx with Some g => g | None => 0 end) txs in
    exists metrics addresses,
      collectNetworkMetrics getBlockWithTransactions blockNumber metricsCache
      = (inr metrics,
         JS.Map_set metricsCache ("network_" ++ JS.bigintToString blockNumber)
           metrics)
      /\ nm_blockNumber metrics = blockNumber
      /\ nm_gasUsed metrics = 0
      /\ nm_transactionCount metrics = List.length txs
      /\ nm_totalValue metrics = fold_right Z.add 0 (map btx_value txs)
      /\ (txs = [] -> nm_avgGasPrice metrics = 0)
      /\ (txs <> [] ->
          nm_avgGasPrice metrics
          = Z.quot (fold_right Z.add 0 gasPrices) (Z.of_nat (List.length txs)))
      /\ NoDup addresses
      /\ (forall a, In a addresses <-> exists tx, In tx txs /\ addressOf tx a)
      /\ nm_uniqueAddresses metrics = List.length addresses.
Proof.
  intros p n cache block Hmiss Hblock. cbv zeta.
  destruct (networkLoop_spec (block_transactions block) (mkNetworkTotals [] 0 0))
    as (Hnd & Hin & Hv & Hg); [constructor|].
  cbn [uniqueAddresses totalValue totalGasPrice] in Hin, Hv, Hg.
  eexists.
  exists (uniqueAddresses
            (fold_left networkStep (block_transactions block)
               (mkNetworkTotals [] 0 0))).
  unfold collectNetworkMetrics. cbv zeta. rewrite Hmiss, Hblock.
  split; [reflexivity|].
  cbn [nm_blockNumber nm_gasUsed nm_transactionCount nm_totalValue
       nm_avgGasPrice nm_uniqueAddresses].
  repeat split; try assumption.
  - intros ->. reflexivity.
  - intros Hne. rewrite Hg.
    destruct (block_transactions block); [contradiction | reflexivity].
  - intros H. apply Hin in H. destruct H as [[]|H]. exact H.
  - intros H. apply Hin. right. exact H.
Qed.

Lemma collectNetworkMetrics_miss_witness :
  let block :=
    mkBlock 1700000000 30000000 None
      [mkBlockTransaction "0xaa" (Some "0xbb") 5 (Some 7);
       mkBlockTransaction "0xbb" None 6 None;
       mkBlockTransaction "0xaa" (Some "0xaa") 1 (Some 4)] in
  exists metrics,
    fst (collectNetworkMetrics (fun _ => inr block) 12345 []) = inr metrics
    /\ nm_gasUsed metrics = 0
    /\ nm_transactionCount metrics = 3%nat
    /\ nm_totalValue metrics = 12
    /\ nm_avgGasPrice metrics = 3
    /\ nm_uniqueAddresses metrics = 2%nat.
Proof.
  intros block.
  destruct (collectNetworkMetrics_miss (fun _ => inr block) 12345 [] block
              eq_refl eq_refl)
    as (metrics & addresses & Hc & _ & Hgas & Hcount & Hvalue & _ & Havg & _).
  exists metrics. rewrite Hc. split; [reflexivity|].
  rewrite Hgas, Hcount, Hvalue, Havg by discriminate.
  repeat split.
  vm_compute in Hc. injection Hc as <-. reflexivity.
Defined.

(** X17: what a call answered is what every later call for the same
    block answers, without asking the provider and without changing the
    cache; after [clearCache] the provider is asked again. *)
Theorem collectNetworkMetrics_cached :
  forall getBlockWithTransactions blockNumber metricsCache metrics cache',
    collectNetworkMetrics getBlockWithTransactions blockNumber metricsCache
    = (inr metrics, cache') ->
    forall getBlockWithTransactions',
      collectNetworkMetrics getBlockWithTransactions' blockNumber cache'
      = (inr metrics, cache')
      /\ collectNetworkMetrics getBlockWithTransactions' blockNumber
           (clearCache cache')
         = match getBlockWithTransactions' blockNumber with
           | inl e => (inl e, [])
           | inr _ =>
               collectNetworkMetrics getBlockWithTransactions' blockNumber []
           end.
Proof.
  intros p n cache metrics cache' H p'. split.
  - unfold collectNetworkMetrics in *. cbv zeta in *.
    destruct (JS.Map_get cache _) as [cached|] eqn:Eg.
    + injection H as <- <-. rewrite Eg. reflexivity.
    + destruct (p n) as [e|block]; [discriminate|].
      injection H as <- <-. rewrite Map_get_set_same. reflexivity.
  - unfold clearCache, collectNetworkMetrics. cbv zeta. cbn [JS.Map_get].
    destruct (p' n); reflexivity.
Qed.

Lemma collectNetworkMetrics_cached_witness :
  let block :=
    mkBlock 1700000000 30000000 None
      [mkBlockTransaction "0xaa" (Some "0xbb") 5 (Some 7)] in
  let first := collectNetworkMetrics (fun _ => inr block) 12345 [] in
  exists metrics,
    fst first = inr metrics
    /\ collectNetworkMetrics (fun _ => inl "network error") 12345 (snd first)
       = (inr metrics, snd first).
Proof.
  intros block first.
  destruct first as [[e|metrics] cache'] eqn:E; [vm_compute in E; discriminate|].
  exists metrics. split; [reflexivity|].
  exact (proj1 (collectNetworkMetrics_cached _ _ _ _ _ E
                  (fun _ => inl "network error"))).
Defined.

Lemma bigintToString_inj n n' :
  0 <= n -> 0 <= n' -> JS.bigintToString n = JS.bigintToString n' -> n = n'.
Proof.
  intros Hn Hn' E.
  rewrite <- (proj1 (bigintToString_value n Hn)),
          <- (proj1 (bigintToString_value n' Hn')), E.
  reflexivity.
Qed.

(** X18: a call for one block changes nothing for another block: what is
    cached for it, and so what a later call for it answers, is as
    before; and a failing provider leaves the cache as it was. *)
Theorem collectNetworkMetrics_frame :
  forall getBlockWithTransactions blockNumber metricsCache other,
    0 <= blockNumber -> 0 <= other -> other <> blockNumber ->
    let cache' :=
      snd (collectNetworkMetrics getBlockWithTransactions blockNumber
             metricsCache) in
    (forall getBlockWithTransactions',
       fst (collectNetworkMetrics getBlockWithTransactions' other cache')
       = fst (collectNetworkMetrics getBlockWithTransactions' other metricsCache))
    /\ (forall e,
          fst (collectNetworkMetrics getBlockWithTransactions blockNumber
                 metricsCache) = inl e ->
          cache' = metricsCache).
Proof.
  intros p n cache other Hn Ho Hne. cbv zeta.
  assert (Hkey : "network_" ++ JS.bigintToString n
                 <> "network_" ++ JS.bigintToString other).
  { intros E. cbn [append] in E. injection E as E.
    apply bigintToString_inj in E; [|assumption ..]. congruence. }
  unfold collectNetworkMetrics. cbv zeta. split.
  - intros p'.
    destruct (JS.Map_get cache ("network_" ++ JS.bigintToString n))
      as [cached|] eqn:Eg; [reflexivity|].
    destruct (p n) as [e|block]; [reflexivity|].
    cbn [snd]. rewrite (Map_get_set_other _ _ _ _ Hkey).
    destruct (JS.Map_get cache ("network_" ++ JS.bigintToString other));
      [reflexivity|].
    destruct (p' other); reflexivity.
  - intros e.
    destruct (JS.Map_get cache ("network_" ++ JS.bigintToString n));
      [reflexivity|].
    destruct (p n); [reflexivity | discriminate].
Qed.

Lemma collectNetworkMetrics_frame_witness :
  let block :=
    mkBlock 1700000000 30000000 None
      [mkBlockTransaction "0xaa" (Some "0xbb") 5 (Some 7)] in
  let cache' := snd (collectNetworkMetrics (fun _ => inr block) 12345 []) in
  fst (collectNetworkMetrics (fun _ => inl "network error") 12346 cache')
  = inl "network error".
Proof.
  intros block cache'.
  exact (proj1 (collectNetworkMetrics_frame (fun _ => inr block) 12345 [] 12346
                  ltac:(lia) ltac:(lia) ltac:(lia))
           (fun _ => inl "network error")).
Defined.

(** ** GasOptimizer: the suggestions *)

Lemma gasUsage_quotient g :
  0 < g ->
  Z.quot (g * 120) 100 <> 0
  /\ 83 <= Z.quot (g * 100) (Z.quot (g * 120) 100) <= 100.
Proof.
  intros Hg.
  rewrite (Z.quot_div_nonneg (g * 120) 100) by lia.
  assert (He : g <= g * 120 / 100) by (apply Z.div_le_lower_bound; lia).
  assert (He' : 100 * (g * 120 / 100) <= g * 120)
    by (apply Z.mul_div_le; lia).
  rewrite Z.quot_div_nonneg by lia.
  split; [lia|]. split.
  - apply Z.div_le_lower_bound; lia.
  - apply Z.div_le_upper_bound; lia.
Qed.

Lemma gasUsage_quotient_neg g :
  g < 0 ->
  Z.quot (g * 120) 100 <> 0
  /\ 83 <= Z.quot (g * 100) (Z.quot (g * 120) 100) <= 100.
Proof.
  intros Hg. destruct (gasUsage_quotient (- g) ltac:(lia)) as [He Hq].
  replace (g * 120) with (- (- g * 120)) by ring.
  replace (g * 100) with (- (- g * 100)) by ring.
  rewrite (Z.quot_opp_l (- g * 120) 100) by lia.
  rewrite Z.quot_opp_opp by exact He.
  split; [lia | exact Hq].
Qed.

(** A usage quotient between 83 and 100, over 100, is not below the
    threshold 0.7. *)
Lemma gasUsageRatio_not_low q :
  83 <= q <= 100 ->
  JS.lt (JS.div (JS.literal q) (JS.literal 100))
    GasOptimizer.OPTIMAL_GAS_USAGE_THRESHOLD = false.
Proof.
  intros Hq.
  assert (H : q = 83 \/ q = 84 \/ q = 85 \/ q = 86 \/ q = 87 \/ q = 88
              \/ q = 89 \/ q = 90 \/ q = 91 \/ q = 92 \/ q = 93 \/ q = 94
              \/ q = 95 \/ q = 96 \/ q = 97 \/ q = 98 \/ q = 99 \/ q = 100)
    by lia.
  repeat (destruct H as [->|H]; [vm_compute; reflexivity|]).
  subst q. vm_compute. reflexivity.
Qed.

(** X19: [analyzeGasLimit] never suggests anything: the limit it compares
    the gas used with is its own estimate, 120 % of the gas used, so the
    usage ratio is at least 0.83 and never below the threshold 0.7; for
    [gasUsed] 0 the division by the estimate, 0, throws a [RangeError]. *)
Theorem analyzeGasLimit_never_suggests :
  forall transaction,
    GasOptimizer.analyzeGasLimit transaction
    = if GasOptimizer.gasUsed transaction =? 0
      then inl "RangeError: Division by zero"
      else inr None.
Proof.
  intros [g p]. unfold GasOptimizer.analyzeGasLimit, JS.bigintDiv.
  cbn [GasOptimizer.gasUsed]. cbv zeta.
  change (100 =? 0) with false. cbn [bind ret Monad_either].
  destruct (Z.eqb_spec g 0) as [->|Hne]; [reflexivity|].
  assert (H : Z.quot (g * 120) 100 <> 0
              /\ 83 <= Z.quot (g * 100) (Z.quot (g * 120) 100) <= 100)
    by (destruct (Z.lt_total g 0) as [Hn|[Hz|Hp]];
        [apply gasUsage_quotient_neg, Hn | contradiction
        | apply gasUsage_quotient, Hp]).
  destruct H as [He Hq].
  destruct (Z.eqb_spec (Z.quot (g * 120) 100) 0) as [Hz|_]; [contradiction|].
  cbn [bind ret Monad_either raise].
  rewrite (gasUsageRatio_not_low _ Hq). reflexivity.
Qed.

(** X20: [analyzeContractOptimization] suggests batching exactly when
    more than three logs carry the Transfer signature, and the saving it
    names is then the text of exactly 21000 gas at 0.1 gwei for every
    such log but one; with fewer, with no logs or without the field it
    answers [null]. *)
Theorem analyzeContractOptimization_spec :
  forall logs,
    let transfers :=
      List.length
        (filter (fun log =>
                   JS.strictEq (nth_error (Ethers.topics log) 0)
                     BaseMetricsCollector.transferEventSignature) logs) in
    GasOptimizer.analyzeContractOptimization None = None
    /\ ((transfers <= 3)%nat ->
        GasOptimizer.analyzeContractOptimization (Some logs) = None)
    /\ ((3 < transfers)%nat ->
        exists suggestion,
          GasOptimizer.analyzeContractOptimization (Some logs) = Some suggestion
          /\ GasOptimizer.suggestion_type suggestion
             = GasOptimizer.batch_transactions
          /\ denotesEther (GasOptimizer.potentialSavings suggestion)
               ((Z.of_nat transfers - 1) * 21000 * 100000000)).
Proof.
  intros logs. cbv zeta. unfold GasOptimizer.analyzeContractOptimization.
  change "0xddf252ad1be2c89b69c2b068fc378daa952ba7f163c4a11628f55a4df523b3ef"
    with BaseMetricsCollector.transferEventSignature.
  set (n := List.length (filter _ logs)).
  assert (Hn : (n <= List.length logs)%nat) by apply filter_length_le.
  split; [reflexivity|]. split; intros H.
  - destruct (Nat.eqb_spec (List.length logs) 0); [reflexivity|].
    destruct (Nat.ltb_spec 3 n); [lia | reflexivity].
  - destruct (Nat.eqb_spec (List.length logs) 0); [lia|].
    destruct (Nat.ltb_spec 3 n); [|lia].
    eexists. split; [reflexivity|].
    cbn [GasOptimizer.suggestion_type GasOptimizer.potentialSavings].
    split; [reflexivity|].
    unfold GasOptimizer.calculateBatchingSavings. cbv zeta.
    apply FixedNumber_toString_denotes.
    unfold GasOptimizer.baseGasPriceWei. lia.
Qed.

(** A batch of fewer than [2^32] operations, the bound of the length of
    an array, is inside the range of [formatEther], which answers the
    text of [calculateBatchingSavings]. *)
Lemma calculateBatchingSavings_in_range operationCount :
  (operationCount < 2 ^ 32)%nat ->
  Ethers.formatEther
    ((Z.of_nat operationCount - 1) * 21000 * GasOptimizer.baseGasPriceWei)
  = inr (GasOptimizer.calculateBatchingSavings operationCount).
Proof.
  intros Hn. apply formatEther_in_range.
  unfold GasOptimizer.baseGasPriceWei.
  assert (Hz : 0 <= Z.of_nat operationCount < 2 ^ 32).
  { split; [lia|]. apply Nat2Z.inj_lt in Hn.
    rewrite Nat2Z.inj_pow in Hn. exact Hn. }
  assert (H32 : 2 ^ 32 * 21000 * 100000000 < 2 ^ 511) by reflexivity.
  assert (Hlow : - 2 ^ 511 <= - (21000 * 100000000)) by (vm_compute; discriminate).
  lia.
Qed.

(** X21: [calculateGasPriceSavings], for a gas price of at most 0.1 gwei,
    is the text [0]; above it, it is the text of exactly the gas used
    times the excess of the price over 0.1 gwei as long as that amount is
    below [2^511], and from there on [formatEther] throws. *)
Theorem calculateGasPriceSavings_spec :
  forall gasUsed gasPrice,
    0 <= gasUsed ->
    let transaction := GasOptimizer.mkTransaction gasUsed gasPrice in
    let savings := (gasPrice - 100000000) * gasUsed in
    (gasPrice <= 100000000 ->
     GasOptimizer.calculateGasPriceSavings transaction = inr "0")
    /\ (100000000 < gasPrice -> savings < 2 ^ 511 ->
        exists text,
          GasOptimizer.calculateGasPriceSavings transaction = inr text
          /\ denotesEther text savings)
    /\ (100000000 < gasPrice -> 2 ^ 511 <= savings ->
        GasOptimizer.calculateGasPriceSavings transaction = inl "overflow").
Proof.
  intros gasUsed gasPrice Hu. cbv zeta.
  unfold GasOptimizer.calculateGasPriceSavings, GasOptimizer.baseGasPriceWei.
  cbn [GasOptimizer.gasUsed GasOptimizer.gasPrice]. cbv zeta.
  split; [|split].
  - intros H. destruct (Z.leb_spec gasPrice 100000000); [reflexivity | lia].
  - intros H Hrange. destruct (Z.leb_spec gasPrice 100000000); [lia|].
    assert (Hs : 0 <= (gasPrice - 100000000) * gasUsed) by nia.
    rewrite formatEther_in_range
      by (split; [pose proof (Z.pow_pos_nonneg 2 511); lia | exact Hrange]).
    eexists. split; [reflexivity|].
    apply FixedNumber_toString_denotes, Hs.
  - intros H Hrange. destruct (Z.leb_spec gasPrice 100000000); [lia|].
    apply formatEther_overflow, Hrange.
Qed.

Lemma calculateGasPriceSavings_spec_witness :
  GasOptimizer.calculateGasPriceSavings
    (GasOptimizer.mkTransaction 21000 100000000) = inr "0"
  /\ (exists text,
         GasOptimizer.calculateGasPriceSavings
           (GasOptimizer.mkTransaction 21000 20000000000) = inr text
         /\ denotesEther text ((20000000000 - 100000000) * 21000))
  /\ GasOptimizer.calculateGasPriceSavings
       (GasOptimizer.mkTransaction (2 ^ 256) (2 ^ 256)) = inl "overflow".
Proof.
  split; [|split].
  - apply (calculateGasPriceSavings_spec 21000 100000000); lia.
  - apply (calculateGasPriceSavings_spec 21000 20000000000);
      [lia | lia | reflexivity].
  - apply (calculateGasPriceSavings_spec (2 ^ 256) (2 ^ 256));
      [vm_compute; discriminate | reflexivity | vm_compute; discriminate].
Defined.

(** ** The [utils] object *)

Lemma bytes_hex w :
  forall n,
    (exists bs, Hex.bytes w = Some bs /\ List.length bs = n)
    <-> JS.allChars Ethers.isHexChar w = true /\ String.length w = (2 * n)%nat.
Proof.
  induction w as [|c|c0 c1 r IH] using string_pair_ind; intros n.
  - cbn [Hex.bytes JS.allChars String.length]. split.
    + intros (bs & Hbs & Hn). injection Hbs as <-. cbn in Hn. split; [reflexivity | lia].
    + intros [_ Hn]. exists []. split; [reflexivity | cbn; lia].
  - cbn [Hex.bytes String.length]. split.
    + intros (bs & Hbs & _). discriminate.
    + intros [_ Hn]. lia.
  - cbn [Hex.bytes JS.allChars String.length]. unfold Ethers.isHexChar at 1 2.
    split.
    + intros (bs & Hbs & Hn).
      destruct (Ethers.hexDigit c0) as [h|]; [|discriminate].
      destruct (Ethers.hexDigit c1) as [l|]; [|discriminate].
      destruct (Hex.bytes r) as [bs'|] eqn:Er; [|discriminate].
      injection Hbs as <-. cbn [List.length] in Hn.
      destruct (proj1 (IH (List.length bs')))
        as [Ha Hl]; [exists bs'; split; reflexivity|].
      rewrite Ha. split; [reflexivity | lia].
    + intros [Ha Hn].
      destruct (Ethers.hexDigit c0) as [h|]; [|discriminate].
      destruct (Ethers.hexDigit c1) as [l|]; [|discriminate].
      cbn [andb] in Ha.
      destruct n as [|n]; [lia|].
      destruct (proj2 (IH n)) as (bs & Hbs & Hlen); [split; [exact Ha | lia]|].
      rewrite Hbs. eexists. split; [reflexivity|]. cbn [List.length]. lia.
Qed.

(** X22: [isValidTxHash] accepts exactly the texts made of [0x] and the
    hex text, in either case of the letters, of 32 bytes. *)
Theorem isValidTxHash_spec :
  forall hash,
    Utils.isValidTxHash hash = true
    <-> exists w bs,
          hash = "0x" ++ w /\ Hex.bytes w = Some bs /\ List.length bs = 32%nat.
Proof.
  intros hash. unfold Utils.isValidTxHash. split.
  - intros H. apply andb_prop in H as [H Hlen]. apply andb_prop in H as [Hp Ha].
    apply Nat.eqb_eq in Hlen.
    destruct (proj2 (bytes_hex (JS.slice 2 hash) 32)) as (bs & Hbs & Hn);
      [split; assumption|].
    exists (JS.slice 2 hash), bs.
    split; [apply startsWith_0x, Hp | split; assumption].
  - intros (w & bs & -> & Hbs & Hn).
    change (JS.startsWith ("0x" ++ w) "0x") with true.
    change (JS.slice 2 ("0x" ++ w)) with w.
    destruct (proj1 (bytes_hex w 32)) as [Ha Hl]; [exists bs; split; assumption|].
    rewrite Ha, Hl. reflexivity.
Qed.

(** X23: [calculatePercentage] answers 0 for a total of 0, of either
    sign, whatever the part; a total that is [NaN] is not caught and
    gives [NaN]; and a finite non-zero number is 100 percent of itself,
    exactly. *)
Theorem calculatePercentage_edges :
  forall part,
    Utils.calculatePercentage part (S754_zero false) = JS.literal 0
    /\ Utils.calculatePercentage part (S754_zero true) = JS.literal 0
    /\ Utils.calculatePercentage part S754_nan = S754_nan
    /\ forall s m e,
         Utils.calculatePercentage (S754_finite s m e) (S754_finite s m e)
         = JS.literal 100.
Proof.
  intros part. split; [reflexivity|]. split; [reflexivity|]. split.
  - destruct part as [[]|[]| |[] m e]; reflexivity.
  - intros s m e. unfold Utils.calculatePercentage.
    replace (JS.strictEqNumber (S754_finite s m e) (JS.literal 0)) with false
      by (destruct s; reflexivity).
    rewrite div_self. vm_compute. reflexivity.
Qed.

(** ** DeFiProtocolAnalyzer.analyzeSwap *)

Lemma detectProtocol_none contractAddress :
  DeFiProtocolAnalyzer.detectProtocol contractAddress = None.
Proof.
  destruct contractAddress as [a|]; [|reflexivity].
  unfold DeFiProtocolAnalyzer.detectProtocol.
  destruct (negb _); [reflexivity|].
  cbn [DeFiProtocolAnalyzer.detectIn DeFiProtocolAnalyzer.protocols
       DeFiProtocolAnalyzer.Object_values DeFiProtocolAnalyzer.contractAddresses
       DeFiProtocolAnalyzer.router DeFiProtocolAnalyzer.factory
       DeFiProtocolAnalyzer.quoter DeFiProtocolAnalyzer.pool app existsb].
  rewrite !eqb_toLowerCase_false by reflexivity.
  reflexivity.
Qed.

(** X24: [analyzeSwap] answers [null] for every transaction, whatever
    the provider answers: a failure and a missing transaction or receipt
    are caught, and for a transaction that is found [detectProtocol]
    recognises no destination, the routers of the protocol table
    included. *)
Theorem analyzeSwap_null :
  forall txHash getTransaction getTransactionReceipt now,
    DeFiProtocolAnalyzer.analyzeSwap txHash getTransaction
      getTransactionReceipt now = None.
Proof.
  intros txHash getTransaction getTransactionReceipt now.
  unfold DeFiProtocolAnalyzer.analyzeSwap.
  destruct getTransaction as [e|[tx|]];
    destruct getTransactionReceipt as [e'|[receipt|]];
    cbn [bind ret raise Monad_either]; try reflexivity.
  rewrite detectProtocol_none. reflexivity.
Qed.
